(** * WealthWise: streak, reward, target and report rules

    A shallow embedding of the rule engine of the WealthWise server and client:
    the login handler of [server/auth.ts], the storage layer of
    [server/storage.ts], the goal, saving, expense and report handlers of
    [server/routes.ts], the fallback classifier of [server/ai.ts] and the
    weekly history of [client/src/pages/Savings.tsx].

    Conventions.
    - A JavaScript [Date] is its time value: an integer count of milliseconds
      ([Z]).  [null] columns are [option].
    - Integer columns and their sums are [Z]; JavaScript adds integers below
      2^53 exactly.
    - A quotient that the code only compares with an integer constant
      ([hoursSinceLastLogin > 20], [amountInRupees > 5000]) is an exact
      rational ([Q]): IEEE rounding to nearest is monotone and the constants
      are representable, so the comparison of the rounded quotient agrees
      with the comparison of the exact one.
    - Where the rounded value itself is the result (report percentages, the
      amount typed into the allocation dialog), the computation is carried
      out in IEEE binary64 ([Binary64]). *)

From Stdlib Require Import ZArith QArith Qround Lia Bool List Sorted.
From Stdlib Require Import Floats.SpecFloat.
From stdpp Require Import base option gmap strings list.

Local Open Scope Z_scope.

(** ** JavaScript numbers used as exact rationals *)

Module Js.

Definition Qgtb (a b : Q) : bool := negb (Qle_bool a b).
Definition Qltb (a b : Q) : bool := negb (Qle_bool b a).

(** [a / b] for integers [a] and a positive literal [b]. *)
Definition div_lit (a : Z) (b : positive) : Q := Qmake a b.

(** [Math.round]: the integer nearest to [x], ties towards +infinity. *)
Definition Math_round (x : Q) : Z := Qfloor (x + (1 # 2))%Q.

(** [a % b] keeps the sign of the dividend. *)
Definition rem (a b : Z) : Z := Z.rem a b.

(** [x || 0] on a number. *)
Definition or_zero (x : Z) : Z := if Z.eqb x 0 then 0 else x.

End Js.

(** ** Rows of [shared/schema.ts] *)

Record User := mkUser {
  user_id : Z;
  username : string;
  password : string;
  name : string;
  coins : Z;
  streak : Z;
  lastLogin : option Z
}.

(** [Partial<Omit<User, "id">>], restricted to the columns the handlers write. *)
Record UserPatch := mkUserPatch {
  set_coins : option Z;
  set_streak : option Z;
  set_lastLogin : option (option Z)
}.

(** [{ ...user, ...data }] *)
Definition spreadUser (user : User) (data : UserPatch) : User :=
  {| user_id := user_id user;
     username := username user;
     password := password user;
     name := name user;
     coins := default (coins user) (set_coins data);
     streak := default (streak user) (set_streak data);
     lastLogin := default (lastLogin user) (set_lastLogin data) |}.

Record Achievement := mkAchievement {
  ach_id : Z;
  ach_userId : Z;
  ach_type : string;
  ach_name : string;
  ach_description : string;
  ach_date : Z;
  coinsAwarded : Z
}.

Record Goal := mkGoal {
  goal_id : Z;
  goal_userId : Z;
  goal_name : string;
  targetAmount : Z;
  currentAmount : Z;
  startDate : Z;
  targetDate : Z;
  completed : bool
}.

Record Saving := mkSaving {
  saving_id : Z;
  saving_userId : Z;
  saving_amount : Z;
  saving_date : Z;
  saving_source : string;
  saving_notes : option string
}.

Inductive Status := necessary | avoidable | unnecessary.

Record Expense := mkExpense {
  expense_id : Z;
  expense_userId : Z;
  expense_name : string;
  expense_amount : Z;
  expense_date : Z;
  expense_status : Status;
  expense_category : string
}.

(** ** The storage layer ([IStorage]) *)

Module Storage.

(** The tables with their serial counters.  Achievements and savings are
    only appended to and listed, so each is the list of its rows in
    insertion order. *)
Record t := mk {
  users : gmap Z User;
  userIdCounter : Z;
  goals : gmap Z Goal;
  goalIdCounter : Z;
  achievements : list Achievement;
  achievementIdCounter : Z;
  savings : list Saving;
  savingIdCounter : Z
}.

Definition with_users (f : gmap Z User -> gmap Z User) (s : t) : t :=
  {| users := f (users s); userIdCounter := userIdCounter s;
     goals := goals s; goalIdCounter := goalIdCounter s;
     achievements := achievements s;
     achievementIdCounter := achievementIdCounter s;
     savings := savings s; savingIdCounter := savingIdCounter s |}.

Definition with_goals (f : gmap Z Goal -> gmap Z Goal) (s : t) : t :=
  {| users := users s; userIdCounter := userIdCounter s;
     goals := f (goals s); goalIdCounter := goalIdCounter s;
     achievements := achievements s;
     achievementIdCounter := achievementIdCounter s;
     savings := savings s; savingIdCounter := savingIdCounter s |}.

Definition getUser (id : Z) (s : t) : option User := users s !! id.

(** [InsertUser]: [coins], [streak] and [lastLogin] are optional. *)
Record InsertUser := mkInsertUser {
  iu_username : string;
  iu_password : string;
  iu_name : string;
  iu_coins : option Z;
  iu_streak : option Z;
  iu_lastLogin : option Z
}.

(** [createUser]; [now] is the clock read by the column default. *)
Definition createUser (user : InsertUser) (now : Z) (s : t) : t * User :=
  let id := userIdCounter s in
  let newUser :=
    {| user_id := id;
       username := iu_username user;
       password := iu_password user;
       name := iu_name user;
       coins := default 0 (iu_coins user);
       streak := default 0 (iu_streak user);
       lastLogin := Some (default now (iu_lastLogin user)) |} in
  ({| users := <[id := newUser]> (users s); userIdCounter := id + 1;
      goals := goals s; goalIdCounter := goalIdCounter s;
      achievements := achievements s;
      achievementIdCounter := achievementIdCounter s;
      savings := savings s; savingIdCounter := savingIdCounter s |},
   newUser).

(** [updateUser]: the row is overwritten with the given columns. *)
Definition updateUser (id : Z) (data : UserPatch) (s : t) : t * option User :=
  match users s !! id with
  | None => (s, None)
  | Some user =>
      let updatedUser := spreadUser user data in
      (with_users (fun m => <[id := updatedUser]> m) s, Some updatedUser)
  end.

End Storage.

(** ** [server/auth.ts] *)

Module Auth.

Definition hoursSinceLastLogin (now lastLogin : Z) : Q :=
  Js.div_lit (now - lastLogin) 3600000.

(** [user.lastLogin || new Date(0)] *)
Definition lastLoginOrEpoch (user : User) : Z := default 0 (lastLogin user).

(** Lines 137-167 of the login handler: the new streak and the coins
    awarded. *)
Definition streakAndCoins (user : User) (now : Z) : Z * Z :=
  let lastLogin := lastLoginOrEpoch user in
  let hours := hoursSinceLastLogin now lastLogin in
  let newStreak := streak user in
  let coinsAwarded := 0 in
  if Js.Qgtb hours (inject_Z 20) then
    if Js.Qltb hours (inject_Z 48) then
      let newStreak := newStreak + 1 in
      let coinsAwarded := coinsAwarded + 15 in
      if (newStreak =? 5) || (Js.rem newStreak 5 =? 0)
      then (newStreak, coinsAwarded + 20)
      else (newStreak, coinsAwarded)
    else (1, 15)
  else (newStreak, coinsAwarded).

Record LoginResponse := mkLoginResponse {
  resp_user : User;
  resp_coinsAwarded : option Z
}.

(** The body of the [req.login] callback of [POST /api/auth/login], for the
    authenticated [user] and the clock value [now]. *)
Definition login (user : User) (now : Z) (s : Storage.t)
  : Storage.t * LoginResponse :=
  let '(newStreak, coinsAwarded) := streakAndCoins user now in
  let updatedCoins := coins user + coinsAwarded in
  let '(s', updatedUser) :=
    Storage.updateUser (user_id user)
      {| set_lastLogin := Some (Some now);
         set_streak := Some newStreak;
         set_coins := Some updatedCoins |} s in
  (s', {| resp_user := default user updatedUser;
          resp_coinsAwarded :=
            if 0 <? coinsAwarded then Some coinsAwarded else None |}).

(** [req.body] of a registration, as [insertUserSchema] admits it. *)
Definition RegisterBody := Storage.InsertUser.

Definition getUserByUsername (uname : string) (s : Storage.t) : option User :=
  snd <$> List.find (fun kv => bool_decide (username (snd kv) = uname))
                    (map_to_list (Storage.users s)).

(** [POST /api/auth/register]; [hashedPassword] is the result of
    [hashPassword], [now] the clock.  [None] is the 400 answer. *)
Definition register (body : RegisterBody) (hashedPassword : string) (now : Z)
    (s : Storage.t) : option (Storage.t * User) :=
  match getUserByUsername (Storage.iu_username body) s with
  | Some _ => None
  | None =>
      Some (Storage.createUser
              {| Storage.iu_username := Storage.iu_username body;
                 Storage.iu_password := hashedPassword;
                 Storage.iu_name := Storage.iu_name body;
                 Storage.iu_coins := Some 0;
                 Storage.iu_streak := Some 0;
                 Storage.iu_lastLogin := Some now |} now s)
  end.

End Auth.

(** ** [server/ai.ts]: tier classification *)

Module Ai.

Definition necessaryCategories : list string :=
  ["groceries"; "utilities"; "housing"; "health"; "transportation"; "bills";
   "education"]%string.

Definition potentiallyAvoidableCategories : list string :=
  ["food_and_drinks"; "personal_care"; "investment"]%string.

Definition unnecessaryCategories : list string :=
  ["entertainment"; "shopping"; "travel"; "gifts"]%string.

(** [Array.prototype.includes] on strings. *)
Definition includes (l : list string) (x : string) : bool :=
  existsb (String.eqb x) l.

(** [fallbackStatusDetermination(category, amount)], [amount] in paise. *)
Definition fallbackStatusDetermination (category : string) (amount : Z)
  : string :=
  let amountInRupees := Js.div_lit amount 100 in
  if includes necessaryCategories category then
    if Js.Qgtb amountInRupees (inject_Z 5000) then "avoidable" else "necessary"
  else if includes potentiallyAvoidableCategories category then
    if Js.Qgtb amountInRupees (inject_Z 1000) then "avoidable" else "necessary"
  else if includes unnecessaryCategories category then
    if Js.Qgtb amountInRupees (inject_Z 2000) then "unnecessary" else "avoidable"
  else
    if Js.Qgtb amountInRupees (inject_Z 3000) then "unnecessary" else "avoidable".

(** [expenseStatusEnum.enumValues] *)
Definition validStatuses : list string :=
  ["necessary"; "avoidable"; "unnecessary"]%string.

(** [determineExpenseStatus]; [answer] is what the external model returned:
    [None] when the call threw or carried no content, otherwise the content
    trimmed and lower-cased. *)
Definition determineExpenseStatus (answer : option string)
    (category : string) (amount : Z) : string :=
  match answer with
  | Some status =>
      if negb (String.eqb status "") && includes validStatuses status
      then status
      else fallbackStatusDetermination category amount
  | None => fallbackStatusDetermination category amount
  end.

End Ai.

(** ** The calls into date-fns

    [startOfWeek], [endOfWeek] (both with [weekStartsOn: 1]) and [subWeeks],
    as the library documents them, for a local zone at a fixed offset [zone]
    (in milliseconds) from UTC. *)

Module DateFns.

Definition msPerDay : Z := 86400000.

(** [Date.prototype.getDay]: 0 is Sunday; 1 January 1970 was a Thursday. *)
Definition getDay (zone date : Z) : Z := (((date + zone) / msPerDay) + 4) mod 7.

(** [setDate(getDate() + n)] *)
Definition addDays (date n : Z) : Z := date + n * msPerDay.

(** [setHours(0, 0, 0, 0)] *)
Definition startOfDay (zone date : Z) : Z := date - (date + zone) mod msPerDay.

(** [setHours(23, 59, 59, 999)] *)
Definition endOfDay (zone date : Z) : Z := startOfDay zone date + msPerDay - 1.

Definition startOfWeek (zone date : Z) : Z :=
  let weekStartsOn := 1 in
  let day := getDay zone date in
  let diff := (if day <? weekStartsOn then 7 else 0) + day - weekStartsOn in
  startOfDay zone (addDays date (- diff)).

Definition endOfWeek (zone date : Z) : Z :=
  let weekStartsOn := 1 in
  let day := getDay zone date in
  let diff := (if day <? weekStartsOn then -7 else 0) + 6 - (day - weekStartsOn) in
  endOfDay zone (addDays date diff).

Definition subWeeks (date amount : Z) : Z := addDays date (- (amount * 7)).

End DateFns.

(** ** [client/src/pages/Savings.tsx] and the client's recommendation helper *)

Module Savings.

Record WeeklyTarget := mkWeeklyTarget {
  weekStart : Z;
  weekEnd : Z;
  target : Z;
  actual : Z
}.

(** [.reduce((sum, e) => sum + e.amount, 0)] *)
Definition sumExpenses (l : list Expense) : Z :=
  fold_left (fun sum e => sum + expense_amount e) l 0.

Definition sumSavings (l : list Saving) : Z :=
  fold_left (fun sum s => sum + saving_amount s) l 0.

Definition isStatus (st : Status) (e : Expense) : bool :=
  match st, expense_status e with
  | necessary, necessary | avoidable, avoidable | unnecessary, unnecessary => true
  | _, _ => false
  end.

Definition within (lo hi date : Z) : bool := (lo <=? date) && (date <=? hi).

(** The body of the [for] loop of [generateWeeklyTargets] at index [i]. *)
Definition weekRecord (zone now : Z) (expenses : list Expense)
    (savings : option (list Saving)) (i : Z) : WeeklyTarget :=
  let weekEnd := if i =? 0 then now else DateFns.subWeeks now i in
  let weekStart := DateFns.startOfWeek zone weekEnd in
  let weekEndDate := DateFns.endOfWeek zone weekEnd in
  let weekExpenses :=
    List.filter (fun e => within weekStart weekEndDate (expense_date e)) expenses in
  let avoidableExpenses := sumExpenses (List.filter (isStatus avoidable) weekExpenses) in
  let unnecessaryExpenses := sumExpenses (List.filter (isStatus unnecessary) weekExpenses) in
  let target :=
    if i =? 0
    then Js.Math_round (inject_Z (avoidableExpenses + unnecessaryExpenses) * (1 # 2))%Q
    else avoidableExpenses + unnecessaryExpenses in
  let weekSavings :=
    match savings with
    | Some l => List.filter (fun s => within weekStart weekEndDate (saving_date s)) l
    | None => []
    end in
  let actualSaved := sumSavings weekSavings in
  {| weekStart := weekStart; weekEnd := weekEndDate;
     target := target; actual := actualSaved |}.

(** [for (let i = start; i < 6; i++) result.push(...)], with [fuel] bounding
    the number of iterations left. *)
Fixpoint weeksLoop (fuel : nat) (zone now : Z) (expenses : list Expense)
    (savings : option (list Saving)) (i : Z) (result : list WeeklyTarget)
  : list WeeklyTarget :=
  match fuel with
  | O => result
  | S fuel' =>
      if i <? 6
      then weeksLoop fuel' zone now expenses savings (i + 1)
             (result ++ [weekRecord zone now expenses savings i])
      else result
  end.

(** [generateWeeklyTargets]; the arguments are [expensesData?.expenses] and
    [savingsData?.savings]. *)
Definition generateWeeklyTargets (zone now : Z)
    (expensesData : option (list Expense)) (savingsData : option (list Saving))
  : list WeeklyTarget :=
  match expensesData with
  | None => []
  | Some expenses => rev (weeksLoop 6 zone now expenses savingsData 0 [])
  end.

Record Recommendation := mkRecommendation {
  weekly : Z;
  avoidableAmount : Z;
  unnecessaryAmount : Z
}.

(** [calculateSavingsRecommendation] *)
Definition calculateSavingsRecommendation (expenses : list Expense)
  : Recommendation :=
  let avoidableTotal := sumExpenses (List.filter (isStatus avoidable) expenses) in
  let unnecessaryTotal := sumExpenses (List.filter (isStatus unnecessary) expenses) in
  let weeklySavings :=
    Js.Math_round (inject_Z (avoidableTotal + unnecessaryTotal) * (1 # 2))%Q in
  {| weekly := weeklySavings;
     avoidableAmount := avoidableTotal;
     unnecessaryAmount := unnecessaryTotal |}.

End Savings.

(** ** [server/routes.ts]: goals, savings and coin awards *)

Module Routes.

(** The award the expense, saving and goal handlers share:
    [storage.updateUser(user.id, { coins: (user.coins || 0) + delta })],
    where [user] is the row the session middleware read when the request
    arrived. *)
Definition awardCoins (user : User) (delta : Z) (s : Storage.t)
  : Storage.t * option User :=
  Storage.updateUser (user_id user)
    {| set_coins := Some (Js.or_zero (coins user) + delta);
       set_streak := None; set_lastLogin := None |} s.

(** [req.body] of [POST /api/goals] before validation: any of the columns
    may be present. *)
Record CreateGoalBody := mkCreateGoalBody {
  cg_name : option string;
  cg_targetAmount : option Z;
  cg_startDate : option Z;
  cg_targetDate : option Z;
  cg_currentAmount : option Z;
  cg_completed : option bool
}.

(** [InsertGoal]: [insertGoalSchema] omits [id], [currentAmount] and
    [completed] and asks for the other columns. *)
Record InsertGoal := mkInsertGoal {
  ig_userId : Z;
  ig_name : string;
  ig_targetAmount : Z;
  ig_startDate : Z;
  ig_targetDate : Z
}.

(** [insertGoalSchema.parse({ ...req.body, userId })]: [name], [targetAmount],
    [startDate] and [targetDate] are required, [targetAmount] fits the 32-bit
    integer column, and keys the schema does not know are dropped. *)
Definition parseInsertGoal (body : CreateGoalBody) (userId : Z)
  : option InsertGoal :=
  match cg_name body, cg_targetAmount body, cg_startDate body, cg_targetDate body with
  | Some n, Some t, Some sd, Some d =>
      if (-2147483648 <=? t) && (t <=? 2147483647)
      then Some {| ig_userId := userId; ig_name := n; ig_targetAmount := t;
                   ig_startDate := sd; ig_targetDate := d |}
      else None
  | _, _, _, _ => None
  end.

(** [storage.createGoal] *)
Definition createGoal (goal : InsertGoal) (s : Storage.t) : Storage.t * Goal :=
  let id := Storage.goalIdCounter s in
  let newGoal :=
    {| goal_id := id; goal_userId := ig_userId goal; goal_name := ig_name goal;
       targetAmount := ig_targetAmount goal; currentAmount := 0;
       startDate := ig_startDate goal;
       targetDate := ig_targetDate goal; completed := false |} in
  ({| Storage.users := Storage.users s;
      Storage.userIdCounter := Storage.userIdCounter s;
      Storage.goals := <[id := newGoal]> (Storage.goals s);
      Storage.goalIdCounter := id + 1;
      Storage.achievements := Storage.achievements s;
      Storage.achievementIdCounter := Storage.achievementIdCounter s;
      Storage.savings := Storage.savings s;
      Storage.savingIdCounter := Storage.savingIdCounter s |},
   newGoal).

(** [POST /api/goals]; [None] is the 400 answer. *)
Definition postGoal (user : User) (body : CreateGoalBody) (s : Storage.t)
  : option (Storage.t * Goal) :=
  match parseInsertGoal body (user_id user) with
  | Some goalData => Some (createGoal goalData s)
  | None => None
  end.

(** [req.body] of [PUT /api/goals/:id]: it is not validated. *)
Record GoalPatch := mkGoalPatch {
  gp_name : option string;
  gp_targetAmount : option Z;
  gp_currentAmount : option Z;
  gp_startDate : option Z;
  gp_targetDate : option Z;
  gp_completed : option bool
}.

(** [{ ...goal, ...data }] *)
Definition spreadGoal (goal : Goal) (data : GoalPatch) : Goal :=
  {| goal_id := goal_id goal;
     goal_userId := goal_userId goal;
     goal_name := default (goal_name goal) (gp_name data);
     targetAmount := default (targetAmount goal) (gp_targetAmount data);
     currentAmount := default (currentAmount goal) (gp_currentAmount data);
     startDate := default (startDate goal) (gp_startDate data);
     targetDate := default (targetDate goal) (gp_targetDate data);
     completed := default (completed goal) (gp_completed data) |}.

(** [storage.updateGoal] *)
Definition updateGoal (id : Z) (data : GoalPatch) (s : Storage.t)
  : Storage.t * option Goal :=
  match Storage.goals s !! id with
  | None => (s, None)
  | Some goal =>
      let updatedGoal := spreadGoal goal data in
      (Storage.with_goals (fun m => <[id := updatedGoal]> m) s, Some updatedGoal)
  end.

(** [storage.createAchievement] *)
Definition createAchievement (userId : Z) (type name description : string)
    (date : Z) (coinsAwarded : Z) (s : Storage.t) : Storage.t :=
  let id := Storage.achievementIdCounter s in
  {| Storage.users := Storage.users s;
     Storage.userIdCounter := Storage.userIdCounter s;
     Storage.goals := Storage.goals s;
     Storage.goalIdCounter := Storage.goalIdCounter s;
     Storage.achievements :=
       Storage.achievements s ++
       [ {| ach_id := id; ach_userId := userId; ach_type := type;
            ach_name := name; ach_description := description;
            ach_date := date; coinsAwarded := coinsAwarded |} ];
     Storage.achievementIdCounter := id + 1;
     Storage.savings := Storage.savings s;
     Storage.savingIdCounter := Storage.savingIdCounter s |}.

Inductive PutGoalResponse :=
| GoalNotFound
| GoalUpdated (goal : option Goal) (coinsAwarded : option Z).

(** [PUT /api/goals/:id] for the session's [user]. *)
Definition putGoal (user : User) (goalId : Z) (body : GoalPatch) (now : Z)
    (s : Storage.t) : Storage.t * PutGoalResponse :=
  match Storage.goals s !! goalId with
  | None => (s, GoalNotFound)
  | Some goal =>
      if negb (goal_userId goal =? user_id user) then (s, GoalNotFound)
      else
        let coinsAwarded := 0 in
        let '(s1, coinsAwarded) :=
          if bool_decide (gp_completed body = Some true) && negb (completed goal)
          then
            let coinsAwarded := 100 in
            let s' := fst (awardCoins user coinsAwarded s) in
            (createAchievement (user_id user) "goal_met"
               ("Goal Achieved: " +:+ goal_name goal)
               ("You've successfully reached your goal of " +:+ goal_name goal +:+ "!")
               now coinsAwarded s',
             coinsAwarded)
          else (s, coinsAwarded) in
        let '(s2, updatedGoal) := updateGoal goalId body s1 in
        (s2, GoalUpdated updatedGoal
               (if 0 <? coinsAwarded then Some coinsAwarded else None))
  end.

(** [req.body] of [POST /api/savings] after [insertSavingsSchema]. *)
Record SavingBody := mkSavingBody {
  sb_amount : Z;
  sb_source : string;
  sb_date : Z;
  sb_notes : option string
}.

(** [POST /api/savings] for the session's [user]; the second component is
    [coinsAwarded]. *)
Definition postSaving (user : User) (body : SavingBody) (s : Storage.t)
  : Storage.t * option Z :=
  let id := Storage.savingIdCounter s in
  let newSaving :=
    {| saving_id := id; saving_userId := user_id user;
       saving_amount := sb_amount body; saving_date := sb_date body;
       saving_source := sb_source body; saving_notes := sb_notes body |} in
  let s1 :=
    {| Storage.users := Storage.users s;
       Storage.userIdCounter := Storage.userIdCounter s;
       Storage.goals := Storage.goals s;
       Storage.goalIdCounter := Storage.goalIdCounter s;
       Storage.achievements := Storage.achievements s;
       Storage.achievementIdCounter := Storage.achievementIdCounter s;
       Storage.savings := Storage.savings s ++ [newSaving];
       Storage.savingIdCounter := id + 1 |} in
  if String.eqb (sb_source body) "piggy_bank"
  then (fst (awardCoins user 5 s1), Some 5)
  else (s1, None).

(** A request as the server runs it: the session middleware
    ([deserializeUser]) reads the user row, then the handler runs with it.
    [None] is the 401 answer. *)
Definition withSession {A} (uid : Z)
    (handler : User -> Storage.t -> Storage.t * A) (s : Storage.t)
  : Storage.t * option A :=
  match Storage.getUser uid s with
  | None => (s, None)
  | Some user => let '(s', a) := handler user s in (s', Some a)
  end.


End Routes.

(** ** IEEE binary64, for the report percentages and the allocation dialog *)

Module Binary64.

Definition prec : Z := 53.
Definition emax : Z := 1024.

Definition of_Z (z : Z) : spec_float := binary_normalize prec emax z 0 false.
Definition div : spec_float -> spec_float -> spec_float := SFdiv prec emax.
Definition mul : spec_float -> spec_float -> spec_float := SFmul prec emax.

(** [Math.round] on a double: NaN, the infinities and the zeros are returned
    as they are; a finite [m * 2^e] becomes the integer [floor (m * 2^e + 1/2)]. *)
Definition Math_round (x : spec_float) : spec_float :=
  match x with
  | S754_finite sign m e =>
      if 0 <=? e then x
      else
        let d := 2 ^ (- e) in
        let sm := if sign then Z.neg m else Z.pos m in
        let n := (2 * sm + d) / (2 * d) in
        if n =? 0 then S754_zero sign else of_Z n
  | _ => x
  end.

(** [isNaN] *)
Definition isNaN (x : spec_float) : bool :=
  match x with
  | S754_nan => true
  | _ => false
  end.

(** The integer [Math.round] returns for a zero or a finite double,
    [floor (m * 2^e + 1/2)], which a double always holds exactly; [None] for
    NaN and the infinities, which [Math.round] returns as they are. *)
Definition Math_round_Z (x : spec_float) : option Z :=
  match x with
  | S754_zero _ => Some 0
  | S754_finite sign m e =>
      let sm := if sign then Z.neg m else Z.pos m in
      if 0 <=? e then Some (sm * 2 ^ e)
      else
        let d := 2 ^ (- e) in
        Some ((2 * sm + d) / (2 * d))
  | _ => None
  end.

End Binary64.

(** ** [client/src/components/goals]: the operations a user has on a goal *)

Module GoalCard.

(** [handleSubmit] of [AllocationDialog]: [amountNum] is [parseFloat(amount)],
    the double the text typed reads as.  The amount becomes paise, or is
    rejected ([None]).  The product of a positive double and 100 is positive
    or +Infinity; +Infinity is greater than any savings and is rejected. *)
Definition handleSubmit (amountNum : spec_float) (availableSavings : Z)
  : option Z :=
  if Binary64.isNaN amountNum || SFleb amountNum (S754_zero false) then None
  else
    match Binary64.Math_round_Z (Binary64.mul amountNum (Binary64.of_Z 100)) with
    | Some amountInPaise =>
        if availableSavings <? amountInPaise then None else Some amountInPaise
    | None => None
    end.

(** [handleContribute]: the total of the user's savings rows. *)
Definition availableSavings (uid : Z) (s : Storage.t) : Z :=
  Savings.sumSavings
    (List.filter (fun sv => saving_userId sv =? uid) (Storage.savings s)).

(** [handleAllocationConfirm] for the card's [goal]: the [PUT] of the goal,
    then the [POST] of the negative saving, each a request of session [uid]. *)
Definition handleAllocationConfirm (uid : Z) (goal : Goal) (amountInPaise : Z)
    (now : Z) (s : Storage.t) : Storage.t :=
  let newTotal := currentAmount goal + amountInPaise in
  let willComplete := targetAmount goal <=? newTotal in
  let '(s1, response) :=
    Routes.withSession uid
      (fun user =>
         Routes.putGoal user (goal_id goal)
           {| Routes.gp_name := None; Routes.gp_targetAmount := None;
              Routes.gp_currentAmount := Some newTotal;
              Routes.gp_startDate := None; Routes.gp_targetDate := None;
              Routes.gp_completed := Some willComplete |} now) s in
  match response with
  | Some (Routes.GoalUpdated _ _) =>
      fst (Routes.withSession uid
             (fun user =>
                Routes.postSaving user
                  {| Routes.sb_amount := - amountInPaise;
                     Routes.sb_source := "goal_allocation";
                     Routes.sb_date := now;
                     Routes.sb_notes :=
                       Some ("Allocated to goal: " +:+ goal_name goal) |}) s1)
  | _ => s1
  end.

(** [handleMarkComplete] *)
Definition handleMarkComplete (uid : Z) (goal : Goal) (now : Z) (s : Storage.t)
  : Storage.t :=
  fst (Routes.withSession uid
         (fun user =>
            Routes.putGoal user (goal_id goal)
              {| Routes.gp_name := None; Routes.gp_targetAmount := None;
                 Routes.gp_currentAmount := Some (targetAmount goal);
                 Routes.gp_startDate := None; Routes.gp_targetDate := None;
                 Routes.gp_completed := Some true |} now) s).

(** [onSubmit] of [AddGoalModal] when editing [goalToEdit]. *)
Definition editGoal (uid : Z) (goalToEdit : Goal) (newName : string)
    (newTargetAmount newTargetDate : Z) (now : Z) (s : Storage.t) : Storage.t :=
  fst (Routes.withSession uid
         (fun user =>
            Routes.putGoal user (goal_id goalToEdit)
              {| Routes.gp_name := Some newName;
                 Routes.gp_targetAmount := Some newTargetAmount;
                 Routes.gp_currentAmount := None;
                 Routes.gp_startDate := Some (startDate goalToEdit);
                 Routes.gp_targetDate := Some newTargetDate;
                 Routes.gp_completed := None |} now) s).

(** The card a page shows once it has fetched the goals again: the row
    [GET /api/goals] returns for the session's user. *)
Definition cardOf (uid gid : Z) (s : Storage.t) : option Goal :=
  match Storage.goals s !! gid with
  | Some goal => if goal_userId goal =? uid then Some goal else None
  | None => None
  end.

(** What a user can do to goals through the pages: create one, edit one,
    allocate savings to one.  Editing and allocating act on a card: the
    [goal] the component was given when the goals were last fetched, which
    may no longer be the stored row (a second tab, a fetch still under way).
    The "Allocate Funds" button is rendered only while the card is not
    completed. *)
Inductive Action :=
| AddGoal (body : Routes.CreateGoalBody)
| EditGoal (goalToEdit : Goal) (newName : string) (newTargetAmount newTargetDate : Z)
| AllocateFunds (goal : Goal) (amountNum : spec_float).

Definition act (uid : Z) (a : Action) (now : Z) (s : Storage.t) : Storage.t :=
  match a with
  | AddGoal body =>
      match Routes.withSession uid
              (fun user s0 =>
                 match Routes.postGoal user body s0 with
                 | Some (s1, g) => (s1, Some g)
                 | None => (s0, None)
                 end) s with
      | (s', _) => s'
      end
  | EditGoal goalToEdit newName newTargetAmount newTargetDate =>
      editGoal uid goalToEdit newName newTargetAmount newTargetDate now s
  | AllocateFunds goal amountNum =>
      if completed goal then s
      else
        match handleSubmit amountNum (availableSavings uid s) with
        | Some amountInPaise =>
            handleAllocationConfirm uid goal amountInPaise now s
        | None => s
        end
  end.

(** A session of actions, each with the clock value at which it happens. *)
Fixpoint session (uid : Z) (actions : list (Action * Z)) (s : Storage.t)
  : Storage.t :=
  match actions with
  | [] => s
  | (a, now) :: rest => session uid rest (act uid a now s)
  end.

End GoalCard.

(** ** Overlapping award requests

    A request that awards coins touches the user row twice: the session
    middleware reads it when the request arrives, and the handler later writes
    the new balance with [Routes.awardCoins].  Two requests of one user can
    interleave between these two steps. *)

Module Overlap.

(** What the handler does once it holds the row: one of the awards of
    [Routes] (first expense of the day, piggy-bank saving, goal completion),
    or the login update. *)
Inductive Work :=
| Award (delta : Z)
| Login (now : Z).

Record Request := mkRequest { req_uid : Z; req_work : Work }.

Inductive Phase :=
| Arrived
| Loaded (user : User)
| Answered.

(** One step of a request: read the row, or write the new balance. *)
Definition advance (r : Request) (p : Phase) (s : Storage.t)
  : Phase * Storage.t :=
  match p with
  | Arrived =>
      match Storage.getUser (req_uid r) s with
      | Some user => (Loaded user, s)
      | None => (Answered, s)
      end
  | Loaded user =>
      match req_work r with
      | Award delta => (Answered, fst (Routes.awardCoins user delta s))
      | Login now => (Answered, fst (Auth.login user now s))
      end
  | Answered => (Answered, s)
  end.

(** A schedule names, step by step, which of the two requests moves:
    [false] the first, [true] the second. *)
Fixpoint run (schedule : list bool) (r1 r2 : Request) (p1 p2 : Phase)
    (s : Storage.t) : Phase * Phase * Storage.t :=
  match schedule with
  | [] => (p1, p2, s)
  | false :: rest =>
      let '(p1', s') := advance r1 p1 s in run rest r1 r2 p1' p2 s'
  | true :: rest =>
      let '(p2', s') := advance r2 p2 s in run rest r1 r2 p1 p2' s'
  end.

End Overlap.

(** ** [server/routes.ts]: report aggregation *)

Module Report.

Record Group := mkGroup {
  key : string;
  amount : Z;
  percentage : spec_float
}.

(** [if (!acc[k]) acc[k] = 0; acc[k] += amount] on an object whose keys are
    kept in insertion order (the order [Object.entries] lists names that are
    not array indices). *)
Fixpoint addTo (acc : list (string * Z)) (k : string) (amount : Z)
  : list (string * Z) :=
  match acc with
  | [] => [(k, 0 + amount)]
  | (k', v) :: rest =>
      if String.eqb k' k then (k', v + amount) :: rest
      else (k', v) :: addTo rest k amount
  end.

Definition groupBy (keyOf : Expense -> string) (expenses : list Expense)
  : list (string * Z) :=
  fold_left (fun acc e => addTo acc (keyOf e) (expense_amount e)) expenses [].

(** [Math.round((amount / totalExpenses) * 100)] *)
Definition percentOf (amount totalExpenses : Z) : spec_float :=
  Binary64.Math_round
    (Binary64.mul (Binary64.div (Binary64.of_Z amount) (Binary64.of_Z totalExpenses))
                  (Binary64.of_Z 100)).

(** [.sort((a, b) => b.amount - a.amount)]: a stable sort, larger amounts
    first.  The groups are inserted from the last to the first, each in front
    of the groups that are not larger, so that equal amounts keep their
    order. *)
Fixpoint insertDesc (g : Group) (l : list Group) : list Group :=
  match l with
  | [] => [g]
  | h :: t => if amount h <=? amount g then g :: h :: t else h :: insertDesc g t
  end.

Definition sortDesc (l : list Group) : list Group :=
  fold_right insertDesc [] l.

Definition statusName (st : Status) : string :=
  match st with
  | necessary => "necessary"
  | avoidable => "avoidable"
  | unnecessary => "unnecessary"
  end.

Definition breakdown (keyOf : Expense -> string) (monthExpenses : list Expense)
  : list Group :=
  let totalExpenses := Savings.sumExpenses monthExpenses in
  sortDesc
    (List.map (fun '(k, a) =>
            {| key := k; amount := a; percentage := percentOf a totalExpenses |})
         (groupBy keyOf monthExpenses)).

(** [categoryBreakdown] and [statusBreakdown] of [GET /api/monthly-report],
    for the expenses of the month. *)
Definition categoryBreakdown : list Expense -> list Group :=
  breakdown expense_category.

Definition statusBreakdown : list Expense -> list Group :=
  breakdown (fun e => statusName (expense_status e)).

(** [percentageChange] of [GET /api/dashboard/summary]. *)
Definition percentageChange (currentMonthExpenses prevMonthExpenses : list Expense)
  : spec_float :=
  let currentMonthTotal := Savings.sumExpenses currentMonthExpenses in
  let prevMonthTotal := Savings.sumExpenses prevMonthExpenses in
  if 0 <? prevMonthTotal then
    Binary64.Math_round
      (Binary64.mul
         (Binary64.div (Binary64.of_Z (currentMonthTotal - prevMonthTotal))
                       (Binary64.of_Z prevMonthTotal))
         (Binary64.of_Z 100))
  else S754_zero false.

End Report.


(** ** Vocabulary of the statements *)

(** The sum of a list of amounts. *)
Definition total (l : list Z) : Z := fold_right Z.add 0 l.

#[global] Instance Status_eq_dec : EqDecision Status.
Proof. solve_decision. Defined.

(** The amounts of the expenses of tier [st] dated from [lo] to [hi], both
    included. *)
Definition tierAmounts (st : Status) (lo hi : Z) (expenses : list Expense)
  : list Z :=
  List.map expense_amount
    (List.filter (fun e => bool_decide (expense_status e = st) &&
                           ((lo <=? expense_date e) && (expense_date e <=? hi)))
       expenses).

(** The amounts of the savings dated from [lo] to [hi], both included. *)
Definition savedAmounts (lo hi : Z) (savings : list Saving) : list Z :=
  List.map saving_amount
    (List.filter (fun sv => (lo <=? saving_date sv) && (saving_date sv <=? hi))
       savings).

(** The balance of user [uid]. *)
Definition coinsOf (uid : Z) (s : Storage.t) : option Z :=
  coins <$> Storage.getUser uid s.

(** Goals are stored under their own id, and ids are handed out by the
    serial counter: every store built by the storage operations is of this
    kind. *)
Definition consistent (s : Storage.t) : Prop :=
  forall gid g, Storage.goals s !! gid = Some g ->
    goal_id g = gid /\ gid < Storage.goalIdCounter s.

(** From [s] to [s'] no goal is lost, no completed goal is reopened and no
    goal's current amount shrinks. *)
Definition grows (s s' : Storage.t) : Prop :=
  forall gid g, Storage.goals s !! gid = Some g ->
    exists g', Storage.goals s' !! gid = Some g' /\
      (completed g = true -> completed g' = true) /\
      currentAmount g <= currentAmount g'.

(** The card shows the stored goal. *)
Definition shows (card : Goal) (s : Storage.t) : Prop :=
  Storage.goals s !! goal_id card = Some card.

(** Every allocation of the session is made from a card that shows the
    stored goal at the time. *)
Fixpoint upToDate (uid : Z) (actions : list (GoalCard.Action * Z)) (s : Storage.t)
  : Prop :=
  match actions with
  | [] => True
  | (a, now) :: rest =>
      match a with
      | GoalCard.AllocateFunds card _ => shows card s
      | _ => True
      end /\ upToDate uid rest (GoalCard.act uid a now s)
  end.




(** ** Sample data *)

Module Sample.

Definition alice : User :=
  {| user_id := 1; username := "alice"; password := "3f9a.5c"; name := "Alice";
     coins := 100; streak := 4; lastLogin := Some 1700000000000 |}.

Definition store : Storage.t :=
  {| Storage.users := {[ 1 := alice ]}; Storage.userIdCounter := 2;
     Storage.goals := ∅; Storage.goalIdCounter := 1;
     Storage.achievements := []; Storage.achievementIdCounter := 1;
     Storage.savings := []; Storage.savingIdCounter := 1 |}.

Definition hour : Z := 3600000.

(** A goal of Alice, 300 rupees short of its 1000-rupee target. *)
Definition laptop : Goal :=
  {| goal_id := 1; goal_userId := 1; goal_name := "Laptop";
     targetAmount := 100000; currentAmount := 70000;
     startDate := 1690000000000; targetDate := 1710000000000;
     completed := false |}.

(** The same goal once paid for. *)
Definition paidLaptop : Goal :=
  {| goal_id := 1; goal_userId := 1; goal_name := "Laptop";
     targetAmount := 100000; currentAmount := 100000;
     startDate := 1690000000000; targetDate := 1710000000000;
     completed := true |}.

Definition storeDone : Storage.t :=
  {| Storage.users := {[ 1 := alice ]}; Storage.userIdCounter := 2;
     Storage.goals := {[ 1 := paidLaptop ]}; Storage.goalIdCounter := 2;
     Storage.achievements := []; Storage.achievementIdCounter := 1;
     Storage.savings := []; Storage.savingIdCounter := 1 |}.

Definition storeWithGoal : Storage.t :=
  {| Storage.users := {[ 1 := alice ]}; Storage.userIdCounter := 2;
     Storage.goals := {[ 1 := laptop ]}; Storage.goalIdCounter := 2;
     Storage.achievements := []; Storage.achievementIdCounter := 1;
     Storage.savings :=
       [ {| saving_id := 1; saving_userId := 1; saving_amount := 50000;
            saving_date := 1699000000000; saving_source := "piggy_bank";
            saving_notes := None |} ];
     Storage.savingIdCounter := 2 |}.

(** A registration that also tries to set its own balance. *)
Definition bob : Auth.RegisterBody :=
  {| Storage.iu_username := "bob"; Storage.iu_password := "hunter2";
     Storage.iu_name := "Bob"; Storage.iu_coins := Some 5000;
     Storage.iu_streak := Some 30; Storage.iu_lastLogin := None |}.

(** A month whose only expense rounds to 0 paise. *)
Definition freeSample : Expense :=
  {| expense_id := 7; expense_userId := 1; expense_name := "Free sample";
     expense_amount := 0; expense_date := 1699900000000;
     expense_status := necessary; expense_category := "other" |}.

Definition movie : Expense :=
  {| expense_id := 8; expense_userId := 1; expense_name := "Movie Tickets";
     expense_amount := 20000; expense_date := 1699900000000;
     expense_status := avoidable; expense_category := "entertainment" |}.

Definition gadget : Expense :=
  {| expense_id := 9; expense_userId := 1; expense_name := "Gadget";
     expense_amount := 10000; expense_date := 1699950000000;
     expense_status := unnecessary; expense_category := "shopping" |}.

Definition rent : Expense :=
  {| expense_id := 10; expense_userId := 1; expense_name := "Rent";
     expense_amount := 1500000; expense_date := 1699300000000;
     expense_status := necessary; expense_category := "housing" |}.

(** An unnecessary expense of the week before the sample week. *)
Definition concert : Expense :=
  {| expense_id := 11; expense_userId := 1; expense_name := "Concert";
     expense_amount := 30000; expense_date := 1699400000000;
     expense_status := unnecessary; expense_category := "entertainment" |}.

(** A user whose [lastLogin] is absent. *)
Definition carol : User :=
  {| user_id := 2; username := "carol"; password := "51be.0d"; name := "Carol";
     coins := 100; streak := 4; lastLogin := None |}.

Definition storeCarol : Storage.t :=
  {| Storage.users := {[ 2 := carol ]}; Storage.userIdCounter := 3;
     Storage.goals := ∅; Storage.goalIdCounter := 1;
     Storage.achievements := []; Storage.achievementIdCounter := 1;
     Storage.savings := []; Storage.savingIdCounter := 1 |}.

Definition deposit : Saving :=
  {| saving_id := 1; saving_userId := 1; saving_amount := 50000;
     saving_date := 1699000000000; saving_source := "piggy_bank";
     saving_notes := None |}.

(** India Standard Time, UTC+05:30. *)
Definition ist : Z := 19800000.

End Sample.

(** * More of the code *)

(** ** [server/auth.ts]: the local strategy and the login request *)

Module Passport.

(** The verify callback of [LocalStrategy].  [comparePasswords] is the
    scrypt comparison of the supplied password with the stored hash; [None]
    is an exception inside it.  The result is the user handed to [done], or
    [None] when authentication fails or errs. *)
Definition authenticate (comparePasswords : string -> string -> option bool)
    (uname pw : string) (s : Storage.t) : option User :=
  match Auth.getUserByUsername uname s with
  | None => None
  | Some user =>
      if String.eqb uname "demo" && String.eqb pw "password" then Some user
      else
        match comparePasswords pw (password user) with
        | Some true => Some user
        | _ => None
        end
  end.

(** [POST /api/auth/login]: authentication, then the streak update.  [None]
    is the 401 (or error) answer. *)
Definition loginRequest (comparePasswords : string -> string -> option bool)
    (uname pw : string) (now : Z) (s : Storage.t)
  : Storage.t * option Auth.LoginResponse :=
  match authenticate comparePasswords uname pw s with
  | Some user => let '(s', r) := Auth.login user now s in (s', Some r)
  | None => (s, None)
  end.

(** The same credentials presented at each of the [times], in order; the
    answers come back in the same order. *)
Fixpoint loginRequests (comparePasswords : string -> string -> option bool)
    (uname pw : string) (times : list Z) (s : Storage.t)
  : Storage.t * list (option Auth.LoginResponse) :=
  match times with
  | [] => (s, [])
  | now :: rest =>
      let '(s1, r) := loginRequest comparePasswords uname pw now s in
      let '(s2, rs) := loginRequests comparePasswords uname pw rest s1 in
      (s2, r :: rs)
  end.

End Passport.

(** ** [client/src/components/shared/StreakTracker.tsx] *)

Module StreakTracker.

Definition daysUntilBonus (streak : Z) : Z := 5 - Js.rem streak 5.

End StreakTracker.

(** ** Text

    Strings are sequences of ASCII characters: the names and labels the rules
    below test are compared with ASCII keywords only. *)

Module Text.

(** [String.prototype.toLowerCase] on ASCII. *)
Definition lowerChar (c : Ascii.ascii) : Ascii.ascii :=
  let n := Ascii.nat_of_ascii c in
  if ((65 <=? n) && (n <=? 90))%nat then Ascii.ascii_of_nat (n + 32) else c.

Fixpoint toLowerCase (s : string) : string :=
  match s with
  | EmptyString => EmptyString
  | String c rest => String (lowerChar c) (toLowerCase rest)
  end.

(** [text] has [keyword] as a substring. *)
Fixpoint contains (keyword text : string) : bool :=
  if String.prefix keyword text then true
  else
    match text with
    | EmptyString => false
    | String _ rest => contains keyword rest
    end.

(** [text.match(/k1|k2|.../)] for literal alternatives: some alternative
    occurs in [text]. *)
Definition matchAny (keywords : list string) (text : string) : bool :=
  existsb (fun k => contains k text) keywords.

End Text.

(** ** [server/ai.ts]: category auto-fill *)

Module AiCategory.

Definition validCategories : list string :=
  ["food_and_drinks"; "groceries"; "shopping"; "entertainment";
   "transportation"; "health"; "utilities"; "housing";
   "education"; "travel"; "personal_care"; "gifts";
   "investment"; "bills"; "other"]%string.

(** [fallbackCategorization] *)
Definition fallbackCategorization (expenseName : string) : string :=
  let text := Text.toLowerCase expenseName in
  if Text.matchAny ["restaurant"; "cafe"; "coffee"; "tea"; "lunch"; "dinner";
                    "breakfast"; "food"; "meal"; "snack"; "drinks"; "pizza";
                    "burger"]%string text
  then "food_and_drinks"
  else if Text.matchAny ["grocery"; "vegetables"; "fruits"; "supermarket";
                         "market"; "bread"; "milk"; "egg"]%string text
  then "groceries"
  else if Text.matchAny ["shopping"; "clothes"; "shirt"; "dress"; "pants";
                         "shoes"; "accessories"; "mall"; "store"; "buy"]%string text
  then "shopping"
  else if Text.matchAny ["movie"; "cinema"; "theatre"; "concert"; "show";
                         "entertainment"; "game"; "subscription"; "netflix";
                         "amazon"; "prime"; "disney"]%string text
  then "entertainment"
  else if Text.matchAny ["transport"; "uber"; "ola"; "lyft"; "taxi"; "train";
                         "bus"; "metro"; "subway"; "cab"; "petrol"; "gas";
                         "fuel"; "car"; "bike"]%string text
  then "transportation"
  else if Text.matchAny ["doctor"; "hospital"; "medicine"; "medical";
                         "pharmacy"; "health"; "healthcare"; "fitness"; "gym";
                         "yoga"]%string text
  then "health"
  else if Text.matchAny ["electricity"; "water"; "gas"; "internet"; "phone";
                         "bill"; "utility"; "broadband"; "wifi"]%string text
  then "utilities"
  else if Text.matchAny ["rent"; "mortgage"; "property"; "house"; "apartment";
                         "maintenance"; "repair"; "furniture"; "home"]%string text
  then "housing"
  else if Text.matchAny ["school"; "college"; "university"; "tuition";
                         "course"; "class"; "education"; "book"; "learning";
                         "tutorial"]%string text
  then "education"
  else if Text.matchAny ["travel"; "holiday"; "vacation"; "hotel"; "resort";
                         "flight"; "ticket"; "booking"; "tour"; "trip"]%string text
  then "travel"
  else if Text.matchAny ["salon"; "spa"; "haircut"; "beauty"; "personal";
                         "care"; "cosmetics"; "grooming"]%string text
  then "personal_care"
  else if Text.matchAny ["gift"; "present"; "donation"; "charity"]%string text
  then "gifts"
  else if Text.matchAny ["investment"; "stock"; "mutual fund"; "gold";
                         "equity"; "shares"; "bond"; "crypto"; "bitcoin"]%string text
  then "investment"
  else if Text.matchAny ["bill"; "payment"; "subscription"; "fee";
                         "insurance"; "tax"; "emi"]%string text
  then "bills"
  else "other".

(** [categorizeExpense]; [answer] is what the external model returned: [None]
    when the call threw or carried no content, otherwise the content trimmed
    and lower-cased. *)
Definition categorizeExpense (answer : option string) (expenseName : string)
  : string :=
  match answer with
  | Some category =>
      if negb (String.eqb category "") && Ai.includes validCategories category
      then category
      else fallbackCategorization expenseName
  | None => fallbackCategorization expenseName
  end.

End AiCategory.

(** ** [server/ai.ts]: fallback savings tips *)

Module Tips.

Definition tipsByCategory : list (string * list string) :=
  [ ("food_and_drinks",
     ["Try meal prepping on weekends to reduce eating out expenses";
      "Consider bringing lunch to work instead of buying every day";
      "Look for happy hour deals when dining out to save on food and drinks"]);
    ("groceries",
     ["Make a shopping list and stick to it to avoid impulse purchases";
      "Buy seasonal produce to get better prices on fruits and vegetables";
      "Consider store brands instead of name brands for staple items"]);
    ("shopping",
     ["Wait 24 hours before making non-essential purchases to avoid impulse buys";
      "Look for secondhand options for clothing and accessories";
      "Use price tracking apps to buy items when they're at their lowest price"]);
    ("entertainment",
     ["Consider sharing subscription services with family or friends";
      "Look for free entertainment options like parks, community events, or libraries";
      "Use student or other available discounts for entertainment venues"]);
    ("transportation",
     ["Consider carpooling or using public transport to save on fuel costs";
      "Plan your routes to minimize distance and avoid traffic";
      "Maintain your vehicle regularly to prevent expensive repairs later"]);
    ("health",
     ["Look for generic medication options instead of brand names";
      "Take advantage of preventive care services covered by insurance";
      "Consider telemedicine options which may be less expensive than in-person visits"]);
    ("utilities",
     ["Turn off lights and appliances when not in use to reduce electricity bills";
      "Consider installing energy-efficient bulbs and appliances";
      "Check for better plans or providers for internet and phone services"]);
    ("housing",
     ["Consider a roommate to share housing costs if feasible";
      "Negotiate rent when renewing your lease";
      "DIY minor home repairs instead of hiring someone"]);
    ("education",
     ["Look for used textbooks or digital versions to save money";
      "Apply for scholarships and grants, even small ones add up";
      "Consider community college courses that can transfer to universities"]);
    ("travel",
     ["Book flights and accommodations well in advance to get better rates";
      "Travel during off-peak seasons for lower prices";
      "Consider budget accommodations like hostels or vacation rentals"]);
    ("other",
     ["Review your expenses regularly to identify areas to cut back";
      "Use budgeting apps to track spending and set limits";
      "Consider if purchases are wants or needs before spending"]) ]%string.

Definition generalTips : list string :=
  ["Track your expenses regularly to identify areas where you can cut back";
   "Set up automatic transfers to your savings account on payday";
   "Try the 30-day rule: wait 30 days before making non-essential purchases";
   "Review and cancel unused subscriptions and memberships";
   "Use cash instead of cards for discretionary spending to be more mindful"]%string.

(** The property of the table a category reads: its own, or [other] when the
    table has none of that name.  (Names of properties every object inherits,
    such as [constructor], are not category labels.) *)
Definition slotOf (table : list (string * list string)) (category : string)
  : string :=
  if existsb (fun kv => String.eqb (fst kv) category) table
  then category else "other"%string.

Fixpoint arrayAt (table : list (string * list string)) (slot : string)
  : list string :=
  match table with
  | [] => []
  | (k, tips) :: rest => if String.eqb k slot then tips else arrayAt rest slot
  end.

(** [array.splice(index, 1)] on the array of [slot]. *)
Fixpoint spliceAt (table : list (string * list string)) (slot : string)
    (index : nat) : list (string * list string) :=
  match table with
  | [] => []
  | (k, tips) :: rest =>
      if String.eqb k slot then (k, take index tips ++ drop (S index) tips) :: rest
      else (k, tips) :: spliceAt rest slot index
  end.

(** The [forEach] over [topCategories].  [random i] stands for the draw of
    [Math.random] at the category of index [i]; [Math.floor(draw * length)]
    is any index below [length], here [random i mod length]. *)
Fixpoint pickTips (random : nat -> nat) (i : nat) (topCategories : list string)
    (table : list (string * list string)) (tips : list string) : list string :=
  match topCategories with
  | [] => tips
  | category :: rest =>
      let slot := slotOf table category in
      let categoryTips := arrayAt table slot in
      if (0 <? length categoryTips)%nat then
        let randomIndex := (random i mod length categoryTips)%nat in
        pickTips random (S i) rest (spliceAt table slot randomIndex)
          (tips ++ [nth randomIndex categoryTips ""%string])
      else pickTips random (S i) rest table tips
  end.

(** [while (tips.length < 3) tips.push(generalTips[tips.length % 5])]; three
    rounds are the most the loop can run. *)
Fixpoint padTips (fuel : nat) (tips : list string) : list string :=
  match fuel with
  | O => tips
  | S fuel' =>
      if (length tips <? 3)%nat
      then padTips fuel'
             (tips ++ [nth (length tips mod length generalTips) generalTips ""%string])
      else tips
  end.

(** [fallbackSavingsTips] *)
Definition fallbackSavingsTips (random : nat -> nat) (topCategories : list string)
  : list string :=
  take 3 (padTips 3 (pickTips random 0 topCategories tipsByCategory [])).

End Tips.

(** ** [server/storage.ts] and [server/routes.ts]: expenses *)

Module Expenses.

(** The expenses table: its rows in insertion order, and the serial
    counter. *)
Record Table := mkTable {
  rows : list Expense;
  expenseIdCounter : Z
}.

(** [.sort((a, b) => new Date(b.date).getTime() - new Date(a.date).getTime())]:
    a stable sort, later dates first. *)
Fixpoint insertByDate (e : Expense) (l : list Expense) : list Expense :=
  match l with
  | [] => [e]
  | h :: t =>
      if expense_date h <=? expense_date e then e :: h :: t
      else h :: insertByDate e t
  end.

Definition sortByDateDesc (l : list Expense) : list Expense :=
  fold_right insertByDate [] l.

(** [getExpenses] *)
Definition getExpenses (userId : Z) (t : Table) : list Expense :=
  sortByDateDesc (List.filter (fun e => expense_userId e =? userId) (rows t)).

(** [getExpensesByDateRange] *)
Definition getExpensesByDateRange (userId startDate endDate : Z) (t : Table)
  : list Expense :=
  sortByDateDesc
    (List.filter (fun e => (expense_userId e =? userId) &&
                           (startDate <=? expense_date e) &&
                           (expense_date e <=? endDate)) (rows t)).

(** [getExpenseById] *)
Definition getExpenseById (id : Z) (t : Table) : option Expense :=
  List.find (fun e => expense_id e =? id) (rows t).

(** [deleteExpense] *)
Definition deleteExpense (id : Z) (t : Table) : Table :=
  {| rows := List.filter (fun e => negb (expense_id e =? id)) (rows t);
     expenseIdCounter := expenseIdCounter t |}.

(** [req.body] of [POST /api/expenses]: a field is present when it has the
    type its column asks for (an integer [amount], a valid [date]). *)
Record ExpenseBody := mkExpenseBody {
  eb_name : option string;
  eb_amount : option Z;
  eb_date : option Z;
  eb_status : option string;
  eb_category : option string;
  eb_paymentMode : option string
}.

(** Truthiness of an optional string and of an optional number. *)
Definition truthyString (x : option string) : bool :=
  match x with
  | Some v => negb (String.eqb v "")
  | None => false
  end.

Definition truthyNumber (x : option Z) : bool :=
  match x with
  | Some v => negb (v =? 0)
  | None => false
  end.

Definition paymentModes : list string :=
  ["upi"; "debit_card"; "credit_card"; "cash"; "wallet"]%string.

Definition statusOfString (x : string) : option Status :=
  if String.eqb x "necessary" then Some necessary
  else if String.eqb x "avoidable" then Some avoidable
  else if String.eqb x "unnecessary" then Some unnecessary
  else None.

(** The two auto-fill steps of the handler; [categoryAnswer] and
    [statusAnswer] are what the external model answers if it is asked. *)
Definition autofill (categoryAnswer statusAnswer : option string)
    (body : ExpenseBody) : ExpenseBody :=
  let category :=
    if negb (truthyString (eb_category body)) && truthyString (eb_name body)
    then Some (AiCategory.categorizeExpense categoryAnswer
                 (default ""%string (eb_name body)))
    else eb_category body in
  let status :=
    if negb (truthyString (eb_status body)) && truthyString (eb_name body) &&
       truthyString category && truthyNumber (eb_amount body)
    then Some (Ai.determineExpenseStatus statusAnswer
                 (default ""%string category) (default 0 (eb_amount body)))
    else eb_status body in
  {| eb_name := eb_name body; eb_amount := eb_amount body;
     eb_date := eb_date body; eb_status := status; eb_category := category;
     eb_paymentMode := eb_paymentMode body |}.

(** [insertExpenseSchema.parse] followed by the insert: every column but
    [notes] is required, [status] and [paymentMode] are enum labels and
    [amount] fits the 32-bit integer column.  The result is the row without
    its id. *)
Definition parseInsertExpense (body : ExpenseBody) (userId : Z)
  : option (Z -> Expense) :=
  match eb_name body, eb_amount body, eb_date body, eb_status body,
        eb_category body, eb_paymentMode body with
  | Some n, Some a, Some d, Some st, Some c, Some pm =>
      match statusOfString st with
      | Some status =>
          if Ai.includes paymentModes pm &&
             (-2147483648 <=? a) && (a <=? 2147483647)
          then Some (fun id =>
                 {| expense_id := id; expense_userId := userId;
                    expense_name := n; expense_amount := a; expense_date := d;
                    expense_status := status; expense_category := c |})
          else None
      | None => None
      end
  | _, _, _, _, _, _ => None
  end.

Inductive PostExpenseResponse :=
| ExpenseRejected
| ExpenseCreated (expense : Expense) (coinsAwarded : option Z).

(** [POST /api/expenses] for the session's [user], with the clock at [now] in
    a zone at offset [zone]. *)
Definition postExpense (categoryAnswer statusAnswer : option string)
    (zone now : Z) (user : User) (body : ExpenseBody)
    (st : Storage.t * Table) : (Storage.t * Table) * PostExpenseResponse :=
  let '(s, t) := st in
  match parseInsertExpense (autofill categoryAnswer statusAnswer body)
          (user_id user) with
  | None => (st, ExpenseRejected)
  | Some row =>
      let newExpense := row (expenseIdCounter t) in
      let t1 := {| rows := rows t ++ [newExpense];
                   expenseIdCounter := expenseIdCounter t + 1 |} in
      let today := DateFns.startOfDay zone now in
      let tomorrow := DateFns.addDays today 1 in
      let todayExpenses := getExpensesByDateRange (user_id user) today tomorrow t1 in
      if (length todayExpenses =? 1)%nat then
        let coinsAwarded := 10 in
        ((fst (Routes.awardCoins user coinsAwarded s), t1),
         ExpenseCreated newExpense (Some coinsAwarded))
      else ((s, t1), ExpenseCreated newExpense None)
  end.

(** [DELETE /api/expenses/:id] for the session's [user]; [false] is the 404
    answer. *)
Definition deleteExpenseRoute (user : User) (expenseId : Z) (t : Table)
  : Table * bool :=
  match getExpenseById expenseId t with
  | Some expense =>
      if expense_userId expense =? user_id user
      then (deleteExpense expenseId t, true)
      else (t, false)
  | None => (t, false)
  end.

End Expenses.

(** ** [client/src/lib/expenseUtils.ts] *)

Module ExpenseUtils.

Record WeekBucket := mkWeekBucket {
  weekNumber : Z;     (* [weekLabel] is "Week " followed by this number *)
  startDate : Z;
  endDate : Z;
  amount : Z
}.

(** The body of the loop of [groupExpensesByWeek] at index [i]. *)
Definition weekBucket (zone today : Z) (expenses : list Expense)
    (numWeeks i : Z) : WeekBucket :=
  let weekStart :=
    DateFns.startOfDay zone
      (DateFns.addDays today (- (i * 7) - DateFns.getDay zone today)) in
  let weekEnd := DateFns.endOfDay zone (DateFns.addDays weekStart 6) in
  let weekExpenses :=
    List.filter (fun e => Savings.within weekStart weekEnd (expense_date e))
      expenses in
  let totalAmount := Savings.sumExpenses weekExpenses in
  {| weekNumber := numWeeks - i; startDate := weekStart; endDate := weekEnd;
     amount := totalAmount |}.

(** [for (let i = 0; i < numWeeks; i++) result.push(...)], by recursion on
    the number of rounds left. *)
Fixpoint bucketsLoop (rounds : nat) (zone today : Z) (expenses : list Expense)
    (numWeeks i : Z) (result : list WeekBucket) : list WeekBucket :=
  match rounds with
  | O => result
  | S rounds' =>
      bucketsLoop rounds' zone today expenses numWeeks (i + 1)
        (result ++ [weekBucket zone today expenses numWeeks i])
  end.

(** [groupExpensesByWeek(expenses, numWeeks)] read at [today]. *)
Definition groupExpensesByWeek (zone today : Z) (expenses : list Expense)
    (numWeeks : nat) : list WeekBucket :=
  rev (bucketsLoop numWeeks zone today expenses (Z.of_nat numWeeks) 0 []).

End ExpenseUtils.

(** ** More vocabulary *)

(** Users are stored under their own id, below the serial counter, and no two
    of them share a username. *)
Definition usersKeyed (s : Storage.t) : Prop :=
  forall uid u, Storage.users s !! uid = Some u ->
    user_id u = uid /\ uid < Storage.userIdCounter s.

Definition uniqueUsernames (s : Storage.t) : Prop :=
  forall uid1 uid2 u1 u2,
    Storage.users s !! uid1 = Some u1 -> Storage.users s !! uid2 = Some u2 ->
    username u1 = username u2 -> uid1 = uid2.

(** The tiers by severity. *)
Definition severity (tier : string) : Z :=
  if String.eqb tier "necessary" then 0
  else if String.eqb tier "avoidable" then 1
  else 2.

(** How many of the multiples of 5 lie in the interval from [a + 1] to [b]. *)
Definition milestonesBetween (a b : Z) : Z := b / 5 - a / 5.

(** The names every JavaScript object inherits from [Object.prototype]: used
    as a key of a plain object they do not read as absent, so the objects
    keyed by category are modelled for the other names only. *)
Definition inheritedNames : list string :=
  ["constructor"; "__proto__"; "hasOwnProperty"; "isPrototypeOf";
   "propertyIsEnumerable"; "toLocaleString"; "toString"; "valueOf";
   "__defineGetter__"; "__defineSetter__"; "__lookupGetter__";
   "__lookupSetter__"]%string.

Definition plainKey (k : string) : Prop := ~ In k inheritedNames.

(** All the tips a table holds. *)
Definition allTipsOf (table : list (string * list string)) : list string :=
  concat (List.map snd table).

(** Each of the [times] is more than 20 and less than 48 hours after the one
    before it, the first after [t]. *)
Fixpoint daily (t : Z) (times : list Z) : Prop :=
  match times with
  | [] => True
  | now :: rest => 20 * 3600000 < now - t < 48 * 3600000 /\ daily now rest
  end.

(** Each of the [times] is at most 20 hours after the one before it, the
    first after [t]. *)
Fixpoint frequent (t : Z) (times : list Z) : Prop :=
  match times with
  | [] => True
  | now :: rest => now - t <= 20 * 3600000 /\ frequent now rest
  end.

(** The expenses are stored under distinct ids, below the serial counter (the
    source keeps them in a [Map] keyed by id). *)
Definition expensesKeyed (t : Expenses.Table) : Prop :=
  NoDup (List.map expense_id (Expenses.rows t)) /\
  Forall (fun e => expense_id e < Expenses.expenseIdCounter t) (Expenses.rows t).

(** * Properties *)

(** ** Hours against the 20- and 48-hour marks *)

Lemma hours_le_iff (now t n : Z) :
  (Auth.hoursSinceLastLogin now t <= inject_Z n)%Q <-> now - t <= n * 3600000.
Proof.
  unfold Auth.hoursSinceLastLogin, Js.div_lit, Qle. cbn [Qnum Qden inject_Z].
  rewrite Z.mul_1_r. reflexivity.
Qed.

Lemma hours_lt_iff (now t n : Z) :
  (Auth.hoursSinceLastLogin now t < inject_Z n)%Q <-> now - t < n * 3600000.
Proof.
  unfold Auth.hoursSinceLastLogin, Js.div_lit, Qlt. cbn [Qnum Qden inject_Z].
  rewrite Z.mul_1_r. reflexivity.
Qed.

Lemma hours_gt_iff (now t n : Z) :
  (inject_Z n < Auth.hoursSinceLastLogin now t)%Q <-> n * 3600000 < now - t.
Proof.
  unfold Auth.hoursSinceLastLogin, Js.div_lit, Qlt. cbn [Qnum Qden inject_Z].
  rewrite Z.mul_1_r. reflexivity.
Qed.

Lemma hours_ge_iff (now t n : Z) :
  (inject_Z n <= Auth.hoursSinceLastLogin now t)%Q <-> n * 3600000 <= now - t.
Proof.
  unfold Auth.hoursSinceLastLogin, Js.div_lit, Qle. cbn [Qnum Qden inject_Z].
  rewrite Z.mul_1_r. reflexivity.
Qed.

Lemma Qgtb_true (a b : Q) : Js.Qgtb a b = true <-> (b < a)%Q.
Proof.
  unfold Js.Qgtb. rewrite negb_true_iff, <- not_true_iff_false, Qle_bool_iff.
  split; [apply Qnot_le_lt | apply Qlt_not_le].
Qed.

Lemma Qgtb_false (a b : Q) : Js.Qgtb a b = false <-> (a <= b)%Q.
Proof. unfold Js.Qgtb. rewrite negb_false_iff. apply Qle_bool_iff. Qed.

Lemma Qltb_true (a b : Q) : Js.Qltb a b = true <-> (a < b)%Q.
Proof. unfold Js.Qltb. apply Qgtb_true. Qed.

Lemma Qltb_false (a b : Q) : Js.Qltb a b = false <-> (b <= a)%Q.
Proof. unfold Js.Qltb. apply Qgtb_false. Qed.

(** The three branches of the login rule. *)

Lemma streakAndCoins_guard (user : User) (now : Z) :
  (Auth.hoursSinceLastLogin now (Auth.lastLoginOrEpoch user) <= inject_Z 20)%Q ->
  Auth.streakAndCoins user now = (streak user, 0).
Proof.
  intros H. unfold Auth.streakAndCoins.
  apply Qgtb_false in H. rewrite H. reflexivity.
Qed.

Lemma streakAndCoins_reset (user : User) (now : Z) :
  (inject_Z 48 <= Auth.hoursSinceLastLogin now (Auth.lastLoginOrEpoch user))%Q ->
  Auth.streakAndCoins user now = (1, 15).
Proof.
  intros H. unfold Auth.streakAndCoins.
  assert (H20 : (inject_Z 20 < Auth.hoursSinceLastLogin now (Auth.lastLoginOrEpoch user))%Q).
  { apply hours_gt_iff. apply hours_ge_iff in H. lia. }
  apply Qgtb_true in H20. apply Qltb_false in H. rewrite H20, H. reflexivity.
Qed.

Lemma streakAndCoins_increment (user : User) (now : Z) :
  (inject_Z 20 < Auth.hoursSinceLastLogin now (Auth.lastLoginOrEpoch user))%Q ->
  (Auth.hoursSinceLastLogin now (Auth.lastLoginOrEpoch user) < inject_Z 48)%Q ->
  Auth.streakAndCoins user now =
    (streak user + 1,
     if (streak user + 1 =? 5) || (Z.rem (streak user + 1) 5 =? 0) then 35 else 15).
Proof.
  intros H20 H48. unfold Auth.streakAndCoins.
  apply Qgtb_true in H20. apply Qltb_true in H48. rewrite H20, H48.
  unfold Js.rem. destruct ((streak user + 1 =? 5) || _); reflexivity.
Qed.

(** What a login leaves in the store and answers, when the authenticated
    user is the stored row. *)
Lemma login_stored (s : Storage.t) (user : User) (now : Z) :
  Storage.getUser (user_id user) s = Some user ->
  let user' :=
    {| user_id := user_id user; username := username user;
       password := password user; name := name user;
       coins := coins user + snd (Auth.streakAndCoins user now);
       streak := fst (Auth.streakAndCoins user now);
       lastLogin := Some now |} in
  Storage.getUser (user_id user) (fst (Auth.login user now s)) = Some user' /\
  Auth.resp_user (snd (Auth.login user now s)) = user' /\
  Auth.resp_coinsAwarded (snd (Auth.login user now s)) =
    (if 0 <? snd (Auth.streakAndCoins user now)
     then Some (snd (Auth.streakAndCoins user now)) else None).
Proof.
  intros Hget. unfold Auth.login, Storage.updateUser.
  destruct (Auth.streakAndCoins user now) as [newStreak award]. cbn [fst snd].
  unfold Storage.getUser in Hget. rewrite Hget. cbn.
  unfold Storage.getUser. cbn. rewrite lookup_insert_eq. auto.
Qed.

(** ** The login rule *)

(** Every login writes the time of the login into [lastLogin], whatever the
    branch. *)
Lemma login_always_writes_lastLogin (s : Storage.t) (user : User) (now : Z) :
  Storage.getUser (user_id user) s = Some user ->
  lastLogin <$> Storage.getUser (user_id user) (fst (Auth.login user now s))
    = Some (Some now).
Proof.
  intros Hget. destruct (login_stored s user now Hget) as [H _].
  rewrite H. reflexivity.
Qed.

(** C1, as stated, fails: ten hours after the last login, the login leaves
    streak and coins alone but replaces [lastLogin] by the time of the
    login. *)
Lemma login_guard_band_moves_lastLogin :
  let now := 1700000000000 + 10 * Sample.hour in
  (Auth.hoursSinceLastLogin now (Auth.lastLoginOrEpoch Sample.alice) <= inject_Z 20)%Q /\
  Storage.getUser 1 Sample.store = Some Sample.alice /\
  lastLogin <$> Storage.getUser 1 (fst (Auth.login Sample.alice now Sample.store))
    = Some (Some 1700036000000) /\
  lastLogin <$> Storage.getUser 1 (fst (Auth.login Sample.alice now Sample.store))
    <> Some (lastLogin Sample.alice).
Proof.
  cbv zeta. split; [ apply hours_le_iff; vm_compute; discriminate | ].
  split; [ reflexivity | ].
  rewrite (login_always_writes_lastLogin Sample.store Sample.alice); [ | reflexivity ].
  split; [ reflexivity | discriminate ].
Qed.

(** C1 (amended): a login at most 20 hours after the last one changes neither
    the streak nor the coins of the user and awards nothing; [lastLogin]
    becomes the time of this login. *)
Theorem login_guard_band (s : Storage.t) (user : User) (now : Z) :
  Storage.getUser (user_id user) s = Some user ->
  (Auth.hoursSinceLastLogin now (Auth.lastLoginOrEpoch user) <= inject_Z 20)%Q ->
  exists user',
    Storage.getUser (user_id user) (fst (Auth.login user now s)) = Some user' /\
    streak user' = streak user /\
    coins user' = coins user /\
    lastLogin user' = Some now /\
    Auth.resp_coinsAwarded (snd (Auth.login user now s)) = None.
Proof.
  intros Hget Hband.
  destruct (login_stored s user now Hget) as (Hs & _ & Hr).
  rewrite (streakAndCoins_guard user now Hband) in Hs, Hr. cbn [fst snd] in Hs, Hr.
  eexists. split; [ exact Hs | ]. cbn.
  repeat split; [ lia | exact Hr ].
Qed.

Lemma login_guard_band_witness :
  exists user',
    Storage.getUser 1
      (fst (Auth.login Sample.alice (1700000000000 + 10 * Sample.hour) Sample.store))
      = Some user' /\
    streak user' = 4 /\ coins user' = 100 /\
    lastLogin user' = Some (1700000000000 + 10 * Sample.hour) /\
    Auth.resp_coinsAwarded
      (snd (Auth.login Sample.alice (1700000000000 + 10 * Sample.hour) Sample.store))
      = None.
Proof.
  apply (login_guard_band Sample.store Sample.alice (1700000000000 + 10 * Sample.hour)).
  - reflexivity.
  - apply hours_le_iff. vm_compute. discriminate.
Defined.

(** The handler's measure against the marks, in milliseconds. *)
Lemma lastLoginOrEpoch_default (user : User) :
  Auth.lastLoginOrEpoch user = default 0 (lastLogin user).
Proof. reflexivity. Qed.

Lemma streakAndCoins_by_gap (user : User) (now : Z) :
  let gap := now - default 0 (lastLogin user) in
  (gap <= 20 * 3600000 -> Auth.streakAndCoins user now = (streak user, 0)) /\
  (20 * 3600000 < gap < 48 * 3600000 ->
   Auth.streakAndCoins user now =
     (streak user + 1,
      if (streak user + 1 =? 5) || (Z.rem (streak user + 1) 5 =? 0) then 35 else 15)) /\
  (48 * 3600000 <= gap -> Auth.streakAndCoins user now = (1, 15)).
Proof.
  cbv zeta. rewrite <- lastLoginOrEpoch_default. split; [ | split ].
  - intros H. apply streakAndCoins_guard, hours_le_iff. exact H.
  - intros [H20 H48]. apply streakAndCoins_increment;
      [ apply hours_gt_iff; exact H20 | apply hours_lt_iff; exact H48 ].
  - intros H. apply streakAndCoins_reset, hours_ge_iff. exact H.
Qed.

(** C2, as stated, fails for an absent [lastLogin]: the handler reads it as
    [new Date(0)] and measures the gap from there, so an absent [lastLogin]
    is a reset only for a clock at least 48 hours past the epoch.  With the
    clock 25 hours past the epoch the login takes the increment branch:
    streak 5 and 35 coins, not streak 1 and 15 coins. *)
Lemma login_absent_lastLogin_counts_from_epoch :
  let now := 25 * Sample.hour in
  lastLogin Sample.carol = None /\
  Storage.getUser 2 Sample.storeCarol = Some Sample.carol /\
  streak <$> Storage.getUser 2 (fst (Auth.login Sample.carol now Sample.storeCarol))
    = Some 5 /\
  coins <$> Storage.getUser 2 (fst (Auth.login Sample.carol now Sample.storeCarol))
    = Some 135 /\
  Auth.resp_coinsAwarded (snd (Auth.login Sample.carol now Sample.storeCarol))
    = Some 35.
Proof. vm_compute. repeat split. Qed.

(** C2 (amended): a login 48 hours or more after [lastLogin], or with no
    [lastLogin] and the clock at least 48 hours past the epoch, sets the
    streak to 1 and awards exactly 15 coins; a login more than 20 and less
    than 48 hours after [lastLogin] adds 1 to the streak and awards the 15
    base coins (and the 20 of the milestone when the new streak is 5 or a
    multiple of 5); in both cases [lastLogin] becomes [now] and the coins
    grow by exactly the award.  The gaps are in milliseconds. *)
Theorem login_reset_and_increment (s : Storage.t) (user : User) (now : Z) :
  Storage.getUser (user_id user) s = Some user ->
  exists user',
    Storage.getUser (user_id user) (fst (Auth.login user now s)) = Some user' /\
    ((lastLogin user = None /\ 48 * 3600000 <= now \/
      exists t, lastLogin user = Some t /\ 48 * 3600000 <= now - t) ->
       streak user' = 1 /\
       Auth.resp_coinsAwarded (snd (Auth.login user now s)) = Some 15 /\
       coins user' = coins user + 15 /\
       lastLogin user' = Some now) /\
    (forall t, lastLogin user = Some t ->
       20 * 3600000 < now - t < 48 * 3600000 ->
       streak user' = streak user + 1 /\
       (let bonus :=
          if (streak user + 1 =? 5) || (Z.rem (streak user + 1) 5 =? 0)
          then 20 else 0 in
        Auth.resp_coinsAwarded (snd (Auth.login user now s)) = Some (15 + bonus) /\
        coins user' = coins user + (15 + bonus)) /\
       lastLogin user' = Some now).
Proof.
  intros Hget.
  destruct (login_stored s user now Hget) as (Hs & _ & Hr).
  destruct (streakAndCoins_by_gap user now) as (_ & Hinc & Hreset). cbv zeta in *.
  eexists. split; [ exact Hs | ]. split.
  - intros Hold.
    assert (H48 : 48 * 3600000 <= now - default 0 (lastLogin user)).
    { destruct Hold as [[Hnone Hclock] | (t & Hsome & Ht)];
        [ rewrite Hnone | rewrite Hsome ]; cbn; lia. }
    rewrite (Hreset H48) in Hr |- *. cbn in Hr |- *.
    repeat split. exact Hr.
  - intros t Hsome Hgap.
    assert (Hgap' : 20 * 3600000 < now - default 0 (lastLogin user) < 48 * 3600000)
      by (rewrite Hsome; exact Hgap).
    rewrite (Hinc Hgap') in Hr |- *. cbn in Hr |- *.
    split; [ reflexivity | ]. split; [ | reflexivity ].
    destruct ((streak user + 1 =? 5) || (Z.rem (streak user + 1) 5 =? 0));
      split; [ exact Hr | reflexivity | exact Hr | reflexivity ].
Qed.

(** Alice, whose streak is 4 and who last logged in at 1700000000000: 49
    hours later the streak is 1 and 15 coins are added; 25 hours later the
    streak is 5 and 35 coins are added.  Carol, who has no [lastLogin], gets
    streak 1 and 15 coins. *)
Lemma login_reset_and_increment_witness :
  (exists user',
     Storage.getUser 1
       (fst (Auth.login Sample.alice (1700000000000 + 49 * Sample.hour) Sample.store))
       = Some user' /\
     streak user' = 1 /\ coins user' = 115 /\
     lastLogin user' = Some (1700000000000 + 49 * Sample.hour)) /\
  (exists user',
     Storage.getUser 1
       (fst (Auth.login Sample.alice (1700000000000 + 25 * Sample.hour) Sample.store))
       = Some user' /\
     streak user' = 5 /\ coins user' = 135 /\
     lastLogin user' = Some (1700000000000 + 25 * Sample.hour)) /\
  (exists user',
     Storage.getUser 2 (fst (Auth.login Sample.carol 1700000000000 Sample.storeCarol))
       = Some user' /\
     streak user' = 1 /\ coins user' = 115 /\ lastLogin user' = Some 1700000000000).
Proof.
  split; [ | split ].
  - destruct (login_reset_and_increment Sample.store Sample.alice
                (1700000000000 + 49 * Sample.hour))
      as (user' & Hget & Hreset & _); [ reflexivity | ].
    exists user'. split; [ exact Hget | ].
    destruct Hreset as (Hstreak & _ & Hcoins & Hlast).
    + right. exists 1700000000000. split; [ reflexivity | ].
      unfold Sample.hour. lia.
    + repeat split; assumption.
  - destruct (login_reset_and_increment Sample.store Sample.alice
                (1700000000000 + 25 * Sample.hour))
      as (user' & Hget & _ & Hinc); [ reflexivity | ].
    exists user'. split; [ exact Hget | ].
    destruct (Hinc 1700000000000) as (Hstreak & [_ Hcoins] & Hlast).
    + reflexivity.
    + unfold Sample.hour. lia.
    + repeat split; assumption.
  - destruct (login_reset_and_increment Sample.storeCarol Sample.carol 1700000000000)
      as (user' & Hget & Hreset & _); [ reflexivity | ].
    exists user'. split; [ exact Hget | ].
    destruct Hreset as (Hstreak & _ & Hcoins & Hlast).
    + left. split; [ reflexivity | lia ].
    + repeat split; assumption.
Defined.

Lemma rem5_zero_iff (n : Z) : (Z.rem n 5 =? 0) = true <-> (5 | n).
Proof. rewrite Z.eqb_eq. apply Z.rem_divide. discriminate. Qed.

(** C3: a login more than 20 and less than 48 hours after the last one (the
    increment branch) awards 35 coins when the new streak is 5 or a positive
    multiple of 5, and exactly 15 when the new streak is not a multiple of 5;
    a login 48 hours or more after the last one (the reset branch) awards 15,
    never the bonus.  The gap is in milliseconds, an absent [lastLogin]
    counting as the epoch. *)
Theorem login_milestone_bonus (s : Storage.t) (user : User) (now : Z) :
  Storage.getUser (user_id user) s = Some user ->
  let gap := now - default 0 (lastLogin user) in
  exists user',
    Storage.getUser (user_id user) (fst (Auth.login user now s)) = Some user' /\
    (20 * 3600000 < gap < 48 * 3600000 ->
       streak user' = streak user + 1 /\
       ((streak user' = 5 \/ (0 < streak user' /\ (5 | streak user'))) ->
          Auth.resp_coinsAwarded (snd (Auth.login user now s)) = Some 35 /\
          coins user' = coins user + 35) /\
       (~ (5 | streak user') ->
          Auth.resp_coinsAwarded (snd (Auth.login user now s)) = Some 15 /\
          coins user' = coins user + 15)) /\
    (48 * 3600000 <= gap ->
       streak user' = 1 /\
       Auth.resp_coinsAwarded (snd (Auth.login user now s)) = Some 15 /\
       coins user' = coins user + 15).
Proof.
  intros Hget. cbv zeta.
  destruct (login_stored s user now Hget) as (Hs & _ & Hr).
  destruct (streakAndCoins_by_gap user now) as (_ & Hinc & Hreset). cbv zeta in *.
  eexists. split; [ exact Hs | ]. split.
  - intros Hgap.
    rewrite (Hinc Hgap) in Hr |- *. cbn in Hr |- *.
    split; [ reflexivity | ].
    destruct (streak user + 1 =? 5) eqn:E5; cbn [orb] in Hr |- *.
    + apply Z.eqb_eq in E5. split; [ intros _; split; [ exact Hr | reflexivity ] | ].
      intros Hnd. exfalso. apply Hnd. rewrite E5. exists 1. reflexivity.
    + destruct (Z.rem (streak user + 1) 5 =? 0) eqn:Erem.
      * apply rem5_zero_iff in Erem.
        split; [ intros _; split; [ exact Hr | reflexivity ] | ].
        intros Hnd. contradiction.
      * split; [ | intros _; split; [ exact Hr | reflexivity ] ].
        apply Z.eqb_neq in E5.
        intros [Heq | [_ Hdiv]]; [ contradiction | ].
        apply rem5_zero_iff in Hdiv. congruence.
  - intros H48.
    rewrite (Hreset H48) in Hr |- *. cbn in Hr |- *.
    repeat split. exact Hr.
Qed.

(** Alice's streak is 4: a login 25 hours after the last one makes it 5 and
    pays 35 coins; a login 49 hours after the last one makes it 1 and pays
    15. *)
Lemma login_milestone_bonus_witness :
  (exists user',
     Storage.getUser 1
       (fst (Auth.login Sample.alice (1700000000000 + 25 * Sample.hour) Sample.store))
       = Some user' /\
     streak user' = 5 /\ coins user' = 135 /\
     Auth.resp_coinsAwarded
       (snd (Auth.login Sample.alice (1700000000000 + 25 * Sample.hour) Sample.store))
       = Some 35) /\
  (exists user',
     Storage.getUser 1
       (fst (Auth.login Sample.alice (1700000000000 + 49 * Sample.hour) Sample.store))
       = Some user' /\
     streak user' = 1 /\ coins user' = 115 /\
     Auth.resp_coinsAwarded
       (snd (Auth.login Sample.alice (1700000000000 + 49 * Sample.hour) Sample.store))
       = Some 15).
Proof.
  split.
  - destruct (login_milestone_bonus Sample.store Sample.alice
                (1700000000000 + 25 * Sample.hour))
      as (user' & Hget & Hinc & _); [ reflexivity | ].
    exists user'. split; [ exact Hget | ].
    destruct Hinc as (Hstreak & Hbonus & _).
    + cbn. unfold Sample.hour. lia.
    + destruct Hbonus as [Hresp Hcoins]; [ left; exact Hstreak | ].
      repeat split; assumption.
  - destruct (login_milestone_bonus Sample.store Sample.alice
                (1700000000000 + 49 * Sample.hour))
      as (user' & Hget & _ & Hreset); [ reflexivity | ].
    exists user'. split; [ exact Hget | ].
    destruct Hreset as (Hstreak & Hresp & Hcoins).
    + cbn. unfold Sample.hour. lia.
    + repeat split; assumption.
Defined.

(** The spec's examples of the milestone rule: a streak reaching 5 or 10
    awards 35, a streak reaching 6 awards 15, a reset from 4 awards 15. *)
Example streak_to_5 :
  Auth.streakAndCoins Sample.alice (1700000000000 + 25 * Sample.hour) = (5, 35).
Proof. reflexivity. Qed.

Example streak_to_10 :
  Auth.streakAndCoins (mkUser 1 "a" "p" "A" 0 9 (Some 0)) (25 * Sample.hour) = (10, 35).
Proof. reflexivity. Qed.

Example streak_to_6 :
  Auth.streakAndCoins (mkUser 1 "a" "p" "A" 0 5 (Some 0)) (25 * Sample.hour) = (6, 15).
Proof. reflexivity. Qed.

Example streak_reset_from_4 :
  Auth.streakAndCoins Sample.alice (1700000000000 + 49 * Sample.hour) = (1, 15).
Proof. reflexivity. Qed.

(** ** Registration *)

Lemma register_creates (body : Auth.RegisterBody) (hashed : string) (t0 : Z)
    (s s1 : Storage.t) (user : User) :
  Auth.register body hashed t0 s = Some (s1, user) ->
  coins user = 0 /\ streak user = 0 /\ lastLogin user = Some t0 /\
  Storage.getUser (user_id user) s1 = Some user.
Proof.
  unfold Auth.register. destruct (Auth.getUserByUsername _ s); [ discriminate | ].
  unfold Storage.createUser. intros [= <- <-]. cbn.
  repeat split. unfold Storage.getUser. cbn. apply lookup_insert_eq.
Qed.

(** C10: registration creates the user with 0 coins, streak 0 and [lastLogin]
    the time of registration; a first login at most 20 hours (72000000 ms)
    after registering awards nothing and leaves coins and streak at 0; and a
    login awards coins only when [lastLogin] is absent or more than 20 hours
    old. *)
Theorem register_then_login (body : Auth.RegisterBody) (hashed : string)
    (t0 : Z) (s s1 : Storage.t) (user : User) :
  Auth.register body hashed t0 s = Some (s1, user) ->
  (coins user = 0 /\ streak user = 0 /\ lastLogin user = Some t0) /\
  (forall now,
     now - t0 <= 20 * 3600000 ->
     Auth.resp_coinsAwarded (snd (Auth.login user now s1)) = None /\
     exists user',
       Storage.getUser (user_id user) (fst (Auth.login user now s1)) = Some user' /\
       coins user' = 0 /\ streak user' = 0) /\
  (forall (s2 : Storage.t) (u : User) (now : Z),
     Storage.getUser (user_id u) s2 = Some u ->
     Auth.resp_coinsAwarded (snd (Auth.login u now s2)) <> None ->
     lastLogin u = None \/
     exists t, lastLogin u = Some t /\ 20 * 3600000 < now - t).
Proof.
  intros Hreg.
  destruct (register_creates body hashed t0 s s1 user Hreg) as (Hc & Hst & Hl & Hget).
  split; [ auto | ]. split.
  - intros now Hband.
    destruct (streakAndCoins_by_gap user now) as (Hguard & _). cbv zeta in Hguard.
    rewrite Hl in Hguard. specialize (Hguard Hband).
    destruct (login_stored s1 user now Hget) as (Hs & _ & Hr).
    rewrite Hguard in Hs, Hr. cbn [fst snd] in Hs, Hr.
    split; [ exact Hr | ].
    eexists. split; [ exact Hs | ]. cbn. split; lia.
  - intros s2 u now Hget2 Haward.
    destruct (lastLogin u) as [t | ] eqn:Hll; [ right | left; reflexivity ].
    exists t. split; [ reflexivity | ].
    destruct (Z_lt_le_dec (20 * 3600000) (now - t)) as [Hlt | Hle];
      [ exact Hlt | exfalso ].
    apply Haward.
    destruct (streakAndCoins_by_gap u now) as (Hguard & _). cbv zeta in Hguard.
    rewrite Hll in Hguard. specialize (Hguard Hle).
    destruct (login_stored s2 u now Hget2) as (_ & _ & Hr).
    rewrite Hguard in Hr. exact Hr.
Qed.

(** Bob registers at 1700000000000 and logs in an hour later: no award, and
    coins and streak stay at 0. *)
Lemma register_then_login_witness :
  exists s1 user,
    Auth.register Sample.bob "9c41.77" 1700000000000 Sample.store = Some (s1, user) /\
    (coins user = 0 /\ streak user = 0 /\ lastLogin user = Some 1700000000000) /\
    Auth.resp_coinsAwarded
      (snd (Auth.login user (1700000000000 + Sample.hour) s1)) = None /\
    exists user',
      Storage.getUser (user_id user)
        (fst (Auth.login user (1700000000000 + Sample.hour) s1)) = Some user' /\
      coins user' = 0 /\ streak user' = 0.
Proof.
  destruct (Auth.register Sample.bob "9c41.77" 1700000000000 Sample.store)
    as [[s1 user] | ] eqn:Hreg.
  - exists s1, user. split; [ reflexivity | ].
    destruct (register_then_login _ _ _ _ _ _ Hreg) as (Hnew & Hfirst & _).
    split; [ exact Hnew | ].
    apply Hfirst. unfold Sample.hour. lia.
  - vm_compute in Hreg. discriminate.
Defined.

(** ** The fallback classifier *)

Lemma includes_In (l : list string) (x : string) :
  Ai.includes l x = true <-> In x l.
Proof.
  unfold Ai.includes. rewrite existsb_exists. split.
  - intros (y & Hin & Heq). apply String.eqb_eq in Heq. subst. exact Hin.
  - intros Hin. exists x. split; [ exact Hin | apply String.eqb_refl ].
Qed.

Lemma includes_not_In (l : list string) (x : string) :
  Ai.includes l x = false <-> ~ In x l.
Proof. rewrite <- includes_In. destruct (Ai.includes l x); split; congruence. Qed.

(** [amountInRupees > n] for an amount in paise. *)
Lemma rupees_above (amount n : Z) :
  Js.Qgtb (Js.div_lit amount 100) (inject_Z n) = (n * 100 <? amount).
Proof.
  unfold Js.Qgtb, Js.div_lit, Qle_bool. cbn [Qnum Qden inject_Z].
  rewrite Z.mul_1_r, Z.ltb_antisym. reflexivity.
Qed.

Ltac category_cases H :=
  repeat (destruct H as [H | H]; [ subst | ]); try contradiction.

(** C5: the fallback classifier returns one of the three tiers, by the rule
    table: a necessary-leaning category is avoidable above Rs 5000 and
    necessary otherwise; a context-dependent one is avoidable above Rs 1000
    and necessary otherwise; a discretionary one is unnecessary above Rs 2000
    and avoidable otherwise; any other category is unnecessary above Rs 3000
    and avoidable otherwise.  Amounts are in paise. *)
Theorem fallback_rule_table (category : string) (amount : Z) :
  let tier := Ai.fallbackStatusDetermination category amount in
  let above (rupees : Z) := (inject_Z rupees < Js.div_lit amount 100)%Q in
  let necessaryLeaning :=
    ["groceries"; "utilities"; "housing"; "health"; "transportation"; "bills";
     "education"]%string in
  let contextDependent := ["food_and_drinks"; "personal_care"; "investment"]%string in
  let discretionary := ["entertainment"; "shopping"; "travel"; "gifts"]%string in
  (tier = "necessary" \/ tier = "avoidable" \/ tier = "unnecessary")%string /\
  (In category necessaryLeaning ->
     (above 5000 -> tier = "avoidable"%string) /\
     (~ above 5000 -> tier = "necessary"%string)) /\
  (In category contextDependent ->
     (above 1000 -> tier = "avoidable"%string) /\
     (~ above 1000 -> tier = "necessary"%string)) /\
  (In category discretionary ->
     (above 2000 -> tier = "unnecessary"%string) /\
     (~ above 2000 -> tier = "avoidable"%string)) /\
  (~ In category (necessaryLeaning ++ contextDependent ++ discretionary) ->
     (above 3000 -> tier = "unnecessary"%string) /\
     (~ above 3000 -> tier = "avoidable"%string)) /\
  Ai.fallbackStatusDetermination "entertainment" (500 * 100) = "avoidable"%string /\
  Ai.fallbackStatusDetermination "entertainment" (2500 * 100) = "unnecessary"%string.
Proof.
  cbv zeta.
  assert (Habove : forall n, (inject_Z n < Js.div_lit amount 100)%Q <->
                             Js.Qgtb (Js.div_lit amount 100) (inject_Z n) = true)
    by (intros n; symmetry; apply Qgtb_true).
  split.
  { unfold Ai.fallbackStatusDetermination.
    repeat match goal with |- context [if ?b then _ else _] => destruct b end; auto. }
  split. { intros Hin. rewrite !Habove. category_cases Hin;
    unfold Ai.fallbackStatusDetermination; cbn -[Js.Qgtb Js.div_lit];
    destruct (Js.Qgtb _ _); split; congruence. }
  split. { intros Hin. rewrite !Habove. category_cases Hin;
    unfold Ai.fallbackStatusDetermination; cbn -[Js.Qgtb Js.div_lit];
    destruct (Js.Qgtb _ _); split; congruence. }
  split. { intros Hin. rewrite !Habove. category_cases Hin;
    unfold Ai.fallbackStatusDetermination; cbn -[Js.Qgtb Js.div_lit];
    destruct (Js.Qgtb _ _); split; congruence. }
  split; [ | split; reflexivity ].
  intros Hnot. rewrite !Habove.
  assert (H1 : Ai.includes Ai.necessaryCategories category = false).
  { apply includes_not_In. intros Hin. apply Hnot. apply in_or_app. left. exact Hin. }
  assert (H2 : Ai.includes Ai.potentiallyAvoidableCategories category = false).
  { apply includes_not_In. intros Hin. apply Hnot.
    apply in_or_app. right. apply in_or_app. left. exact Hin. }
  assert (H3 : Ai.includes Ai.unnecessaryCategories category = false).
  { apply includes_not_In. intros Hin. apply Hnot.
    apply in_or_app. right. apply in_or_app. right. exact Hin. }
  unfold Ai.fallbackStatusDetermination. rewrite H1, H2, H3.
  destruct (Js.Qgtb _ _); split; congruence.
Qed.

Lemma fallback_rule_table_witness :
  Ai.fallbackStatusDetermination "shopping" 200001 = "unnecessary"%string.
Proof.
  destruct (fallback_rule_table "shopping" 200001) as (_ & _ & _ & Hdisc & _).
  destruct Hdisc as [Habove _].
  - cbn. auto.
  - apply Habove. vm_compute. reflexivity.
Defined.

(** The thresholds in paise: [amountInRupees > 5000] is [amount > 500000]. *)
Lemma fallback_thresholds_in_paise (category : string) (amount : Z) :
  Ai.fallbackStatusDetermination category amount =
    if Ai.includes Ai.necessaryCategories category then
      if 500000 <? amount then "avoidable"%string else "necessary"%string
    else if Ai.includes Ai.potentiallyAvoidableCategories category then
      if 100000 <? amount then "avoidable"%string else "necessary"%string
    else if Ai.includes Ai.unnecessaryCategories category then
      if 200000 <? amount then "unnecessary"%string else "avoidable"%string
    else if 300000 <? amount then "unnecessary"%string else "avoidable"%string.
Proof. unfold Ai.fallbackStatusDetermination. rewrite !rupees_above. reflexivity. Qed.

(** Whatever the external classifier answers, the tier is a valid one. *)
Lemma determineExpenseStatus_valid (answer : option string) (category : string)
    (amount : Z) :
  In (Ai.determineExpenseStatus answer category amount) Ai.validStatuses.
Proof.
  assert (Hfb : In (Ai.fallbackStatusDetermination category amount) Ai.validStatuses).
  { unfold Ai.fallbackStatusDetermination.
    repeat match goal with |- context [if ?b then _ else _] => destruct b end;
      cbn; auto. }
  unfold Ai.determineExpenseStatus. destruct answer as [status | ]; [ | exact Hfb ].
  destruct (negb (status =? "")%string && Ai.includes Ai.validStatuses status) eqn:E;
    [ | exact Hfb ].
  apply andb_true_iff in E. destruct E as [_ E]. apply includes_In. exact E.
Qed.

(** ** Weeks *)

Lemma startOfWeek_monday (zone date : Z) :
  DateFns.getDay zone (DateFns.startOfWeek zone date) = 1 /\
  DateFns.startOfDay zone (DateFns.startOfWeek zone date)
    = DateFns.startOfWeek zone date /\
  DateFns.startOfWeek zone date <= date <= DateFns.endOfWeek zone date /\
  DateFns.endOfWeek zone date
    = DateFns.startOfWeek zone date + 7 * DateFns.msPerDay - 1.
Proof.
  unfold DateFns.endOfWeek, DateFns.startOfWeek, DateFns.endOfDay,
    DateFns.startOfDay, DateFns.addDays, DateFns.getDay, DateFns.msPerDay.
  destruct (Z.ltb_spec (((date + zone) / 86400000 + 4) mod 7) 1);
    repeat split; Z.div_mod_to_equations; lia.
Qed.

Lemma startOfWeek_subWeeks (zone date i : Z) :
  DateFns.startOfWeek zone (DateFns.subWeeks date (i + 1))
    = DateFns.startOfWeek zone (DateFns.subWeeks date i) - 7 * DateFns.msPerDay.
Proof.
  unfold DateFns.subWeeks, DateFns.startOfWeek, DateFns.startOfDay,
    DateFns.addDays, DateFns.getDay, DateFns.msPerDay.
  destruct (Z.ltb_spec (((date + - (i * 7) * 86400000 + zone) / 86400000 + 4) mod 7) 1);
  destruct (Z.ltb_spec (((date + - ((i + 1) * 7) * 86400000 + zone) / 86400000 + 4) mod 7) 1);
    Z.div_mod_to_equations; lia.
Qed.

(** ** Sums and rounding *)

Lemma fold_left_add_total {A} (f : A -> Z) (l : list A) (a : Z) :
  fold_left (fun sum x => sum + f x) l a = a + total (List.map f l).
Proof.
  revert a. induction l as [ | x l IH]; intros a; cbn.
  - lia.
  - rewrite IH. unfold total. lia.
Qed.

Lemma sumExpenses_total (l : list Expense) :
  Savings.sumExpenses l = total (List.map expense_amount l).
Proof. unfold Savings.sumExpenses. rewrite fold_left_add_total. lia. Qed.

Lemma sumSavings_total (l : list Saving) :
  Savings.sumSavings l = total (List.map saving_amount l).
Proof. unfold Savings.sumSavings. rewrite fold_left_add_total. lia. Qed.

Lemma filter_filter_andb {A} (p q : A -> bool) (l : list A) :
  List.filter p (List.filter q l) = List.filter (fun x => p x && q x) l.
Proof.
  induction l as [ | x l IH]; cbn; [ reflexivity | ].
  destruct (q x); cbn; destruct (p x); cbn; rewrite ?IH; reflexivity.
Qed.

(** [Math.round(n * 0.5)] is [n / 2] rounded up. *)
Lemma Math_round_half (n : Z) :
  Js.Math_round (inject_Z n * (1 # 2))%Q = (n + 1) / 2.
Proof.
  unfold Js.Math_round, Qfloor, Qplus, Qmult, inject_Z. cbn [Qnum Qden].
  change (Z.pos (1 * 2 * 2)) with (2 * 2). change (Z.pos (1 * 2)) with 2.
  replace (n * 1 * 2 + 1 * 2) with (2 * (n + 1)) by lia.
  apply Z.div_mul_cancel_l; discriminate.
Qed.

Lemma Math_round_half_comm (n : Z) :
  Js.Math_round ((1 # 2) * inject_Z n)%Q = (n + 1) / 2.
Proof.
  rewrite <- Math_round_half. unfold Js.Math_round.
  apply Qfloor_comp. rewrite (Qmult_comm (1 # 2)). reflexivity.
Qed.

(** ** The weekly history *)

Lemma isStatus_within (st : Status) (lo hi : Z) (e : Expense) :
  Savings.isStatus st e && Savings.within lo hi (expense_date e)
  = bool_decide (expense_status e = st) &&
    ((lo <=? expense_date e) && (expense_date e <=? hi)).
Proof.
  unfold Savings.within. f_equal. unfold Savings.isStatus.
  destruct st, (expense_status e); reflexivity.
Qed.

Lemma weekRecord_spec (zone now : Z) (expenses : list Expense)
    (savings : list Saving) (i : Z) :
  let lo := DateFns.startOfWeek zone (DateFns.subWeeks now i) in
  let hi := DateFns.endOfWeek zone (DateFns.subWeeks now i) in
  let discretionary :=
    total (tierAmounts avoidable lo hi expenses) +
    total (tierAmounts unnecessary lo hi expenses) in
  Savings.weekRecord zone now expenses (Some savings) i =
    {| Savings.weekStart := lo; Savings.weekEnd := hi;
       Savings.target := if i =? 0 then (discretionary + 1) / 2 else discretionary;
       Savings.actual := total (savedAmounts lo hi savings) |}.
Proof.
  cbv zeta. unfold Savings.weekRecord.
  assert (Hend : (if i =? 0 then now else DateFns.subWeeks now i)
                 = DateFns.subWeeks now i).
  { destruct (Z.eqb_spec i 0) as [-> | _]; [ | reflexivity ].
    unfold DateFns.subWeeks, DateFns.addDays. lia. }
  rewrite Hend, !sumExpenses_total, sumSavings_total, !filter_filter_andb,
    Math_round_half.
  unfold tierAmounts, savedAmounts.
  rewrite (List.filter_ext _ _ (isStatus_within avoidable _ _)),
    (List.filter_ext _ _ (isStatus_within unnecessary _ _)).
  reflexivity.
Qed.

Lemma weeksLoop_unrolled (zone now : Z) (expenses : list Expense)
    (savings : option (list Saving)) :
  Savings.weeksLoop 6 zone now expenses savings 0 [] =
    List.map (Savings.weekRecord zone now expenses savings) [0; 1; 2; 3; 4; 5].
Proof. reflexivity. Qed.

(** C4: the weekly history has one record per Monday-to-Sunday week, the
    current week and the five before it, oldest first; the target of the
    current week is round(0.5 x (avoidable + unnecessary of that week)), the
    target of a past week is its avoidable + unnecessary total, and the actual
    of a week is the sum of the savings dated in it.  Avoidable 20000 paise
    plus unnecessary 10000 paise in the current week give a target of 15000. *)
Theorem weekly_history (zone now : Z) (expenses : list Expense)
    (savings : list Saving) :
  let lo i := DateFns.startOfWeek zone (DateFns.subWeeks now i) in
  let hi i := DateFns.endOfWeek zone (DateFns.subWeeks now i) in
  let discretionary i :=
    total (tierAmounts avoidable (lo i) (hi i) expenses) +
    total (tierAmounts unnecessary (lo i) (hi i) expenses) in
  let week i :=
    {| Savings.weekStart := lo i; Savings.weekEnd := hi i;
       Savings.target :=
         if i =? 0 then Js.Math_round ((1 # 2) * inject_Z (discretionary i))%Q
         else discretionary i;
       Savings.actual := total (savedAmounts (lo i) (hi i) savings) |} in
  Savings.generateWeeklyTargets zone now (Some expenses) (Some savings)
    = List.map week [5; 4; 3; 2; 1; 0] /\
  (forall i,
     DateFns.getDay zone (lo i) = 1 /\
     DateFns.startOfDay zone (lo i) = lo i /\
     hi i = lo i + 7 * DateFns.msPerDay - 1 /\
     lo i <= DateFns.subWeeks now i <= hi i /\
     lo (i + 1) = lo i - 7 * DateFns.msPerDay) /\
  DateFns.subWeeks now 0 = now /\
  discretionary 0 <= 2 * Savings.target (week 0) <= discretionary 0 + 1 /\
  (total (tierAmounts avoidable (lo 0) (hi 0) expenses) = 200 * 100 ->
   total (tierAmounts unnecessary (lo 0) (hi 0) expenses) = 100 * 100 ->
   Savings.target (week 0) = 15000).
Proof.
  cbv zeta. split; [ | split; [ | split; [ | split ] ] ].
  - unfold Savings.generateWeeklyTargets.
    rewrite weeksLoop_unrolled. cbn [List.map rev app].
    rewrite !weekRecord_spec, !Math_round_half_comm. reflexivity.
  - intros i.
    destruct (startOfWeek_monday zone (DateFns.subWeeks now i)) as (H1 & H2 & H3 & H4).
    repeat split; try assumption; try apply H3.
    apply startOfWeek_subWeeks.
  - unfold DateFns.subWeeks, DateFns.addDays. lia.
  - cbn [Savings.target Z.eqb]. rewrite Math_round_half_comm.
    Z.div_mod_to_equations. lia.
  - intros Ha Hu. cbn [Savings.target Z.eqb]. rewrite Math_round_half_comm, Ha, Hu.
    reflexivity.
Qed.

(** The weekly history of the sample month, in India Standard Time, read on
    Wednesday 15 November 2023: the movie (avoidable, Rs 200) and the gadget
    (unnecessary, Rs 100) fall in the current week and are discounted; the
    concert (unnecessary, Rs 300) and the rent (necessary) fall in the week
    before, whose target is the concert undiscounted; the deposit falls two
    weeks before. *)
Example weekly_history_sample :
  List.map (fun w => (Savings.weekStart w, Savings.target w, Savings.actual w))
    (Savings.generateWeeklyTargets Sample.ist 1700000000000
       (Some [Sample.movie; Sample.gadget; Sample.rent; Sample.concert])
       (Some [Sample.deposit]))
  = [ (1696789800000, 0, 0); (1697394600000, 0, 0); (1697999400000, 0, 0);
      (1698604200000, 0, 50000); (1699209000000, 30000, 0);
      (1699813800000, 15000, 0) ].
Proof. vm_compute. reflexivity. Qed.

Lemma weekly_history_witness :
  List.map (fun w => (Savings.target w, Savings.actual w))
    (Savings.generateWeeklyTargets Sample.ist 1700000000000
       (Some [Sample.movie; Sample.gadget; Sample.rent; Sample.concert])
       (Some [Sample.deposit]))
  = [ (0, 0); (0, 0); (0, 0); (0, 50000); (30000, 0); (15000, 0) ].
Proof.
  destruct (weekly_history Sample.ist 1700000000000
              [Sample.movie; Sample.gadget; Sample.rent; Sample.concert]
              [Sample.deposit])
    as (Hlist & _ & _ & _ & Hexample).
  rewrite Hlist. cbn [List.map]. rewrite Hexample by (vm_compute; reflexivity).
  vm_compute. reflexivity.
Defined.

(** The recommendation helper computes the same discounted target. *)
Lemma calculateSavingsRecommendation_weekly (expenses : list Expense) :
  Savings.weekly (Savings.calculateSavingsRecommendation expenses) =
    (Savings.avoidableAmount (Savings.calculateSavingsRecommendation expenses) +
     Savings.unnecessaryAmount (Savings.calculateSavingsRecommendation expenses) + 1) / 2.
Proof. unfold Savings.calculateSavingsRecommendation. cbn. apply Math_round_half. Qed.

(** ** Goals *)

Lemma or_zero_id (x : Z) : Js.or_zero x = x.
Proof. unfold Js.or_zero. destruct (Z.eqb_spec x 0); congruence. Qed.

(** What [PUT /api/goals/:id] does to the three tables. *)
Lemma putGoal_tables (user : User) (gid : Z) (body : Routes.GoalPatch)
    (now : Z) (s : Storage.t) :
  let s' := fst (Routes.putGoal user gid body now s) in
  match Storage.goals s !! gid with
  | None => s' = s
  | Some goal =>
      if negb (goal_userId goal =? user_id user) then s' = s
      else
        Storage.goals s' = <[gid := Routes.spreadGoal goal body]> (Storage.goals s) /\
        Storage.goalIdCounter s' = Storage.goalIdCounter s /\
        Storage.savings s' = Storage.savings s /\
        Storage.savingIdCounter s' = Storage.savingIdCounter s /\
        if bool_decide (Routes.gp_completed body = Some true) && negb (completed goal)
        then
          Storage.users s' = Storage.users (fst (Routes.awardCoins user 100 s)) /\
          exists a,
            Storage.achievements s' = Storage.achievements s ++ [a] /\
            ach_type a = "goal_met"%string /\ ach_userId a = user_id user /\
            coinsAwarded a = 100
        else
          Storage.users s' = Storage.users s /\
          Storage.achievements s' = Storage.achievements s
  end.
Proof.
  cbv zeta. unfold Routes.putGoal.
  destruct (Storage.goals s !! gid) as [goal | ] eqn:Hg; [ | reflexivity ].
  destruct (negb (goal_userId goal =? user_id user)); [ reflexivity | ].
  destruct (bool_decide (Routes.gp_completed body = Some true) && negb (completed goal)).
  - unfold Routes.updateGoal, Routes.createAchievement, Routes.awardCoins,
      Storage.updateUser.
    destruct (Storage.users s !! user_id user); cbn; rewrite Hg; cbn;
      repeat split; eauto.
  - unfold Routes.updateGoal. rewrite Hg. cbn. repeat split.
Qed.

(** The body [handleAllocationConfirm] sends with the [PUT]. *)
Lemma postSaving_frame (user : User) (body : Routes.SavingBody) (s : Storage.t) :
  Routes.sb_source body <> "piggy_bank"%string ->
  let s' := fst (Routes.postSaving user body s) in
  Storage.users s' = Storage.users s /\
  Storage.goals s' = Storage.goals s /\
  Storage.goalIdCounter s' = Storage.goalIdCounter s /\
  Storage.achievements s' = Storage.achievements s.
Proof.
  intros Hsrc. cbv zeta. unfold Routes.postSaving.
  apply String.eqb_neq in Hsrc. rewrite Hsrc. cbn. repeat split.
Qed.

(** An allocation changes users, goals and achievements exactly as its [PUT]
    does. *)
Lemma handleAllocationConfirm_frame (uid : Z) (goal : Goal) (amount now : Z)
    (s : Storage.t) :
  let body :=
    {| Routes.gp_name := None; Routes.gp_targetAmount := None;
       Routes.gp_currentAmount := Some (currentAmount goal + amount);
       Routes.gp_startDate := None; Routes.gp_targetDate := None;
       Routes.gp_completed :=
         Some (targetAmount goal <=? currentAmount goal + amount) |} in
  let s1 := fst (Routes.withSession uid
                   (fun user => Routes.putGoal user (goal_id goal) body now) s) in
  let s' := GoalCard.handleAllocationConfirm uid goal amount now s in
  Storage.users s' = Storage.users s1 /\
  Storage.goals s' = Storage.goals s1 /\
  Storage.goalIdCounter s' = Storage.goalIdCounter s1 /\
  Storage.achievements s' = Storage.achievements s1.
Proof.
  cbv zeta. unfold GoalCard.handleAllocationConfirm.
  destruct (Routes.withSession uid _ s) as [s1 [[ | g c] | ]]; cbn [fst];
    try (repeat split; reflexivity).
  unfold Routes.withSession. destruct (Storage.getUser uid s1) as [u | ];
    [ | repeat split; reflexivity ].
  destruct (Routes.postSaving u _ s1) as [s2 a] eqn:Hpost. cbn [fst].
  unfold Routes.postSaving in Hpost. cbn in Hpost. injection Hpost as <- _.
  cbn. repeat split.
Qed.

Lemma withSession_some {A} (uid : Z) (user : User)
    (handler : User -> Storage.t -> Storage.t * A) (s : Storage.t) :
  Storage.getUser uid s = Some user ->
  Routes.withSession uid handler s = (fst (handler user s), Some (snd (handler user s))).
Proof.
  intros Hget. unfold Routes.withSession. rewrite Hget.
  destruct (handler user s). reflexivity.
Qed.







(** ** The life of a goal *)

Lemma grows_refl (s : Storage.t) : grows s s.
Proof. intros gid g Hg. exists g. split; [ exact Hg | split; [ auto | lia ] ]. Qed.

Lemma grows_trans (s1 s2 s3 : Storage.t) : grows s1 s2 -> grows s2 s3 -> grows s1 s3.
Proof.
  intros H12 H23 gid g Hg.
  destruct (H12 gid g Hg) as (g2 & Hg2 & Hc2 & Ha2).
  destruct (H23 gid g2 Hg2) as (g3 & Hg3 & Hc3 & Ha3).
  exists g3. split; [ exact Hg3 | split; [ auto | lia ] ].
Qed.

Lemma grows_same_goals (s s' : Storage.t) :
  Storage.goals s' = Storage.goals s -> grows s s'.
Proof. intros Heq gid g Hg. rewrite Heq. apply (grows_refl s gid g Hg). Qed.

Lemma consistent_same_goals (s s' : Storage.t) :
  Storage.goals s' = Storage.goals s ->
  Storage.goalIdCounter s' = Storage.goalIdCounter s ->
  consistent s -> consistent s'.
Proof. intros Hg Hc Hs gid g. rewrite Hg, Hc. apply Hs. Qed.

(** Overwriting a goal by a version of itself that is no less complete. *)
Lemma update_in_place (s s' : Storage.t) (gid : Z) (goal goal' : Goal) :
  consistent s ->
  Storage.goals s !! gid = Some goal ->
  Storage.goals s' = <[gid := goal']> (Storage.goals s) ->
  Storage.goalIdCounter s' = Storage.goalIdCounter s ->
  goal_id goal' = goal_id goal ->
  (completed goal = true -> completed goal' = true) ->
  currentAmount goal <= currentAmount goal' ->
  consistent s' /\ grows s s'.
Proof.
  intros Hs Hgoal Hgoals Hcounter Hid Hdone Hamount. split.
  - intros k g. rewrite Hgoals, Hcounter. destruct (decide (gid = k)) as [<- | Hne].
    + rewrite lookup_insert_eq. intros [= <-]. rewrite Hid. apply Hs. exact Hgoal.
    + rewrite lookup_insert_ne by exact Hne. apply Hs.
  - intros k g Hk. rewrite Hgoals. destruct (decide (gid = k)) as [<- | Hne].
    + rewrite lookup_insert_eq. exists goal'.
      assert (g = goal) as -> by congruence. auto.
    + rewrite lookup_insert_ne by exact Hne. exists g.
      split; [ exact Hk | split; [ auto | lia ] ].
Qed.

(** A [PUT] that does not lower the goal keeps the store consistent and
    growing. *)
Lemma putGoal_grows (user : User) (gid : Z) (body : Routes.GoalPatch) (now : Z)
    (s : Storage.t) :
  consistent s ->
  (forall goal, Storage.goals s !! gid = Some goal ->
     (completed goal = true -> completed (Routes.spreadGoal goal body) = true) /\
     currentAmount goal <= currentAmount (Routes.spreadGoal goal body)) ->
  consistent (fst (Routes.putGoal user gid body now s)) /\
  grows s (fst (Routes.putGoal user gid body now s)).
Proof.
  intros Hs Hbody.
  pose proof (putGoal_tables user gid body now s) as H. cbv zeta in H.
  destruct (Storage.goals s !! gid) as [goal | ] eqn:Hgoal.
  - destruct (negb (goal_userId goal =? user_id user)).
    + rewrite H. split; [ exact Hs | apply grows_refl ].
    + destruct H as (Hg & Hc & _).
      destruct (Hbody goal eq_refl) as [Hdone Hamount].
      apply (update_in_place s _ gid goal (Routes.spreadGoal goal body));
        auto.
  - rewrite H. split; [ exact Hs | apply grows_refl ].
Qed.

Lemma withSession_fst {A} (uid : Z) (handler : User -> Storage.t -> Storage.t * A)
    (s : Storage.t) :
  fst (Routes.withSession uid handler s) = s \/
  exists user, fst (Routes.withSession uid handler s) = fst (handler user s).
Proof.
  unfold Routes.withSession. destruct (Storage.getUser uid s) as [user | ];
    [ right; exists user; destruct (handler user s); reflexivity | left; reflexivity ].
Qed.

(** The product of a positive double and 100 is not negative. *)
Lemma Math_round_Z_mul_nonneg (m : positive) (e : Z) (y : spec_float) (n : Z) :
  (forall s' m' e', y = S754_finite s' m' e' -> s' = false) ->
  Binary64.Math_round_Z (Binary64.mul (S754_finite false m e) y) = Some n ->
  0 <= n.
Proof.
  intros Hy. destruct y as [sy | sy | | sy my ey]; cbn; try discriminate.
  - intros [= <-]. lia.
  - rewrite (Hy sy my ey eq_refl). unfold binary_round_aux. cbn [xorb].
    destruct (shr_fexp _ _ _ _ _) as [mrs' e'].
    destruct (shr_fexp _ _ _ _ _) as [mrs'' e''].
    destruct (shr_m mrs'') as [ | q | q ]; cbn; try discriminate.
    + intros [= <-]. lia.
    + destruct (e'' <=? _); cbn; [ | discriminate ].
      destruct (Z.leb_spec 0 e''); intros [= <-].
      * apply Z.mul_nonneg_nonneg; [ lia | apply Z.pow_nonneg; lia ].
      * assert (0 < 2 ^ (- e'')) by (apply Z.pow_pos_nonneg; lia).
        apply Z.div_pos; lia.
Qed.

(** The dialog confirms only amounts from 0 to the available savings. *)
Lemma handleSubmit_nonneg (amountNum : spec_float) (available amountInPaise : Z) :
  GoalCard.handleSubmit amountNum available = Some amountInPaise ->
  0 <= amountInPaise <= available.
Proof.
  unfold GoalCard.handleSubmit.
  destruct (Binary64.isNaN amountNum || SFleb amountNum (S754_zero false)) eqn:Hbad;
    [ discriminate | ].
  destruct (Binary64.Math_round_Z _) as [n | ] eqn:Hround; [ | discriminate ].
  destruct (Z.ltb_spec available n); [ discriminate | ]. intros [= <-].
  split; [ | lia ].
  destruct amountNum as [sx | sx | | sx mx ex].
  - destruct sx; discriminate.
  - destruct sx; [ discriminate | ]. vm_compute in Hround. discriminate.
  - discriminate.
  - destruct sx; [ discriminate | ].
    apply (Math_round_Z_mul_nonneg mx ex (Binary64.of_Z 100) n); [ | exact Hround ].
    vm_compute. intros s' m' e' [= <- _ _]. reflexivity.
Qed.

Lemma createGoal_grows (goal : Routes.InsertGoal) (s : Storage.t) :
  consistent s ->
  consistent (fst (Routes.createGoal goal s)) /\
  grows s (fst (Routes.createGoal goal s)).
Proof.
  intros Hs. unfold Routes.createGoal. cbn [fst]. split.
  - intros k g. cbn. destruct (decide (Storage.goalIdCounter s = k)) as [<- | Hne].
    + rewrite lookup_insert_eq. intros [= <-]. cbn. lia.
    + rewrite lookup_insert_ne by exact Hne. intros Hk.
      destruct (Hs k g Hk). lia.
  - intros k g Hk. cbn. destruct (Hs k g Hk) as [_ Hlt].
    rewrite lookup_insert_ne by lia. exists g.
    split; [ exact Hk | split; [ auto | lia ] ].
Qed.

(** An action whose allocation, if it is one, is made from a card that shows
    the stored goal. *)
Lemma act_grows (uid : Z) (a : GoalCard.Action) (now : Z) (s : Storage.t) :
  consistent s ->
  match a with
  | GoalCard.AllocateFunds card _ => shows card s
  | _ => True
  end ->
  consistent (GoalCard.act uid a now s) /\ grows s (GoalCard.act uid a now s).
Proof.
  intros Hs Hcard.
  destruct a as [body | card newName newTarget newDate | card amountNum];
    cbn [GoalCard.act].
  - unfold Routes.withSession. destruct (Storage.getUser uid s) as [user | ];
      [ | split; [ exact Hs | apply grows_refl ] ].
    unfold Routes.postGoal.
    destruct (Routes.parseInsertGoal body (user_id user)) as [goalData | ];
      [ | split; [ exact Hs | apply grows_refl ] ].
    pose proof (createGoal_grows goalData s Hs) as H.
    destruct (Routes.createGoal goalData s). exact H.
  - unfold GoalCard.editGoal.
    destruct (withSession_fst uid
      (fun user => Routes.putGoal user (goal_id card)
         {| Routes.gp_name := Some newName; Routes.gp_targetAmount := Some newTarget;
            Routes.gp_currentAmount := None;
            Routes.gp_startDate := Some (startDate card);
            Routes.gp_targetDate := Some newDate;
            Routes.gp_completed := None |} now) s) as [-> | [user ->]];
      [ split; [ exact Hs | apply grows_refl ] | ].
    apply putGoal_grows; [ exact Hs | ].
    intros g _. cbn. split; [ auto | lia ].
  - destruct (completed card) eqn:Hopen; [ split; [ exact Hs | apply grows_refl ] | ].
    destruct (GoalCard.handleSubmit amountNum _) as [amount | ] eqn:Hsubmit;
      [ | split; [ exact Hs | apply grows_refl ] ].
    apply handleSubmit_nonneg in Hsubmit.
    destruct (handleAllocationConfirm_frame uid card amount now s)
      as (_ & Hg & Hc & _).
    set (body := {| Routes.gp_name := None; Routes.gp_targetAmount := None;
                    Routes.gp_currentAmount := Some (currentAmount card + amount);
                    Routes.gp_startDate := None; Routes.gp_targetDate := None;
                    Routes.gp_completed :=
                      Some (targetAmount card <=? currentAmount card + amount) |}) in *.
    assert (Hput : forall user,
              consistent (fst (Routes.putGoal user (goal_id card) body now s)) /\
              grows s (fst (Routes.putGoal user (goal_id card) body now s))).
    { intros user. apply putGoal_grows; [ exact Hs | ].
      intros g Hg'. unfold shows in Hcard. assert (g = card) as -> by congruence.
      cbn. rewrite Hopen. split; [ discriminate | lia ]. }
    assert (Hsess :
      consistent (fst (Routes.withSession uid
                         (fun user => Routes.putGoal user (goal_id card) body now) s)) /\
      grows s (fst (Routes.withSession uid
                      (fun user => Routes.putGoal user (goal_id card) body now) s))).
    { destruct (withSession_fst uid
        (fun user => Routes.putGoal user (goal_id card) body now) s) as [-> | [user ->]];
        [ split; [ exact Hs | apply grows_refl ] | apply Hput ]. }
    destruct Hsess as [Hcons Hgrow]. split.
    + apply (consistent_same_goals _ _ Hg Hc Hcons).
    + apply (grows_trans _ _ _ Hgrow). apply grows_same_goals. exact Hg.
Qed.

Lemma session_grows (uid : Z) (actions : list (GoalCard.Action * Z)) (s : Storage.t) :
  consistent s -> upToDate uid actions s ->
  consistent (GoalCard.session uid actions s) /\ grows s (GoalCard.session uid actions s).
Proof.
  revert s. induction actions as [ | [a now] rest IH]; intros s Hs Hup;
    cbn [GoalCard.session].
  - split; [ exact Hs | apply grows_refl ].
  - destruct Hup as [Hcard Hrest].
    destruct (act_grows uid a now s Hs Hcard) as [Hs1 Hg1].
    destruct (IH _ Hs1 Hrest) as [Hs2 Hg2].
    split; [ exact Hs2 | apply (grows_trans _ _ _ Hg1 Hg2) ].
Qed.

(** C7, as stated, fails: the update endpoint stores the [completed] and
    [currentAmount] of the request as they come, so a request can reopen a
    completed goal and empty it. *)
Lemma put_reopens_and_empties_goal :
  let body :=
    {| Routes.gp_name := None; Routes.gp_targetAmount := None;
       Routes.gp_currentAmount := Some 0;
       Routes.gp_startDate := None; Routes.gp_targetDate := None;
       Routes.gp_completed := Some false |} in
  let s' := fst (Routes.withSession 1
                   (fun user => Routes.putGoal user 1 body 1700000000000)
                   Sample.storeDone) in
  Storage.goals Sample.storeDone !! 1 = Some Sample.paidLaptop /\
  completed Sample.paidLaptop = true /\
  currentAmount Sample.paidLaptop = 100000 /\
  completed <$> Storage.goals s' !! 1 = Some false /\
  currentAmount <$> Storage.goals s' !! 1 = Some 0.
Proof. vm_compute. repeat split. Qed.

(** C7 (amended): a goal is created with current amount 0 and not completed,
    whatever the request carries; the update endpoint stores the [completed]
    and the [currentAmount] a request carries as they come; and through the
    actions the goal pages offer (adding a goal, editing its name, target and
    date, allocating savings to a goal whose card is not completed), each
    allocation being made from a card that shows the stored goal, no goal is
    lost, no completed goal is reopened and no current amount decreases. *)
Theorem goal_lifecycle (s : Storage.t) (uid : Z) :
  consistent s ->
  (forall user body s1 g,
     Routes.postGoal user body s = Some (s1, g) ->
     currentAmount g = 0 /\ completed g = false /\
     Storage.goals s1 !! goal_id g = Some g) /\
  (forall user gid goal body now,
     Storage.goals s !! gid = Some goal ->
     goal_userId goal = user_id user ->
     exists goal',
       Storage.goals (fst (Routes.putGoal user gid body now s)) !! gid = Some goal' /\
       (forall c, Routes.gp_completed body = Some c -> completed goal' = c) /\
       (forall a, Routes.gp_currentAmount body = Some a -> currentAmount goal' = a)) /\
  (forall actions gid g,
     upToDate uid actions s ->
     Storage.goals s !! gid = Some g ->
     exists g',
       Storage.goals (GoalCard.session uid actions s) !! gid = Some g' /\
       (completed g = true -> completed g' = true) /\
       currentAmount g <= currentAmount g').
Proof.
  intros Hs. split; [ | split ].
  - intros user body s1 g. unfold Routes.postGoal.
    destruct (Routes.parseInsertGoal body (user_id user)) as [goalData | ];
      [ | discriminate ].
    unfold Routes.createGoal. intros [= <- <-]. cbn.
    repeat split. apply lookup_insert_eq.
  - intros user gid goal body now Hgoal Hown.
    pose proof (putGoal_tables user gid body now s) as H. cbv zeta in H.
    rewrite Hgoal, Hown, Z.eqb_refl in H. cbn [negb] in H.
    destruct H as (Hgoals & _). rewrite Hgoals, lookup_insert_eq.
    eexists. split; [ reflexivity | ]. cbn.
    split; intros x ->; reflexivity.
  - intros actions gid g Hup. apply (session_grows uid actions s Hs Hup).
Qed.

Lemma storeWithGoal_consistent : consistent Sample.storeWithGoal.
Proof.
  intros gid g Hg. unfold Sample.storeWithGoal in Hg. cbn [Storage.goals] in Hg.
  apply lookup_singleton_Some in Hg. destruct Hg as [<- <-].
  split; [ reflexivity | reflexivity ].
Defined.

(** Alice allocates Rs 100 to the laptop from the card that shows it at
    Rs 700, then Rs 200 from the card fetched again, which shows Rs 800: the
    amount goes from 70000 to 100000 and the goal is completed. *)
Lemma goal_lifecycle_witness :
  let card2 :=
    {| goal_id := 1; goal_userId := 1; goal_name := "Laptop";
       targetAmount := 100000; currentAmount := 80000;
       startDate := 1690000000000; targetDate := 1710000000000;
       completed := false |} in
  let actions :=
    [ (GoalCard.AllocateFunds Sample.laptop (Binary64.of_Z 100), 1700000000000);
      (GoalCard.AllocateFunds card2 (Binary64.of_Z 200), 1700000100000) ] in
  exists g',
    Storage.goals (GoalCard.session 1 actions Sample.storeWithGoal) !! 1 = Some g' /\
    (completed Sample.laptop = true -> completed g' = true) /\
    currentAmount Sample.laptop <= currentAmount g'.
Proof.
  cbv zeta.
  destruct (goal_lifecycle Sample.storeWithGoal 1 storeWithGoal_consistent)
    as (_ & _ & Hgrow).
  apply Hgrow.
  - split; [ reflexivity | ]. split; [ vm_compute; reflexivity | exact I ].
  - reflexivity.
Defined.

(** The two sample allocations complete the goal. *)
Example allocations_complete_laptop :
  let card2 :=
    {| goal_id := 1; goal_userId := 1; goal_name := "Laptop";
       targetAmount := 100000; currentAmount := 80000;
       startDate := 1690000000000; targetDate := 1710000000000;
       completed := false |} in
  (fun g => (currentAmount g, completed g)) <$>
    Storage.goals
      (GoalCard.session 1
         [ (GoalCard.AllocateFunds Sample.laptop (Binary64.of_Z 100), 1700000000000);
           (GoalCard.AllocateFunds card2 (Binary64.of_Z 200), 1700000100000) ]
         Sample.storeWithGoal) !! 1
  = Some (100000, true).
Proof. vm_compute. reflexivity. Qed.

(** An allocation from a card that no longer shows the stored goal is not
    among the sessions of the statement: the second allocation below is made
    from the card of the first, and takes the completed goal from Rs 1000 back
    to Rs 710, not completed. *)
Example stale_card_allocation_reopens :
  (fun g => (currentAmount g, completed g)) <$>
    Storage.goals
      (GoalCard.session 1
         [ (GoalCard.AllocateFunds Sample.laptop (Binary64.of_Z 300), 1700000000000);
           (GoalCard.AllocateFunds Sample.laptop (Binary64.of_Z 10), 1700000100000) ]
         Sample.storeWithGoal) !! 1
  = Some (71000, false).
Proof. vm_compute. reflexivity. Qed.

(** "Mark Complete" is not among these actions: it sets the current amount
    to the target, which lowers it when the target was edited below what is
    already allocated. *)
Example mark_complete_after_lower_target :
  let s1 := GoalCard.act 1 (GoalCard.EditGoal Sample.laptop "Laptop" 50000 1710000000000)
              1700000000000 Sample.storeWithGoal in
  let s2 := match GoalCard.cardOf 1 1 s1 with
            | Some goal => GoalCard.handleMarkComplete 1 goal 1700000100000 s1
            | None => s1
            end in
  currentAmount <$> Storage.goals s1 !! 1 = Some 70000 /\
  (fun g => (currentAmount g, completed g)) <$> Storage.goals s2 !! 1
    = Some (50000, true).
Proof. vm_compute. split; reflexivity. Qed.

(** The dialog rounds the product of doubles: Rs 1.005 is 100 paise, the
    double nearest to 1.005 times 100 being just below 100.5. *)
Example handleSubmit_rounds_the_double :
  GoalCard.handleSubmit (Binary64.div (Binary64.of_Z 1005) (Binary64.of_Z 1000)) 50000
    = Some 100 /\
  GoalCard.handleSubmit (Binary64.of_Z 300) 50000 = Some 30000 /\
  GoalCard.handleSubmit (Binary64.of_Z 600) 50000 = None /\
  GoalCard.handleSubmit (Binary64.of_Z 0) 50000 = None /\
  GoalCard.handleSubmit S754_nan 50000 = None.
Proof. vm_compute. repeat split. Qed.

(** ** Awards of one user that overlap *)

Lemma awardCoins_getUser (stale stored : User) (delta : Z) (s : Storage.t) :
  Storage.getUser (user_id stale) s = Some stored ->
  Storage.getUser (user_id stale) (fst (Routes.awardCoins stale delta s)) =
    Some (spreadUser stored
            {| set_coins := Some (coins stale + delta);
               set_streak := None; set_lastLogin := None |}).
Proof.
  intros Hget. unfold Routes.awardCoins, Storage.updateUser, Storage.getUser in *.
  rewrite Hget. cbn. rewrite lookup_insert_eq, or_zero_id. reflexivity.
Qed.

(** C9, as stated, fails: a first-expense award of 10 and a piggy-bank award
    of 5 for the same user, each reading the balance before the other writes,
    leave 105 coins where 115 were due. *)
Lemma overlapping_awards_lose_an_increment :
  let r1 := {| Overlap.req_uid := 1; Overlap.req_work := Overlap.Award 10 |} in
  let r2 := {| Overlap.req_uid := 1; Overlap.req_work := Overlap.Award 5 |} in
  let final := Overlap.run [false; true; false; true] r1 r2
                 Overlap.Arrived Overlap.Arrived Sample.store in
  coinsOf 1 Sample.store = Some 100 /\
  fst final = (Overlap.Answered, Overlap.Answered) /\
  coinsOf 1 (snd final) = Some 105 /\
  coinsOf 1 (snd final) <> Some (100 + 10 + 5).
Proof. vm_compute. repeat split. discriminate. Qed.

(** The daily login writes its balance the same way: a piggy-bank award
    that lands between the authentication and the update of a login 25 hours
    after the last one is overwritten by the login's 100 + 35. *)
Example login_overwrites_award :
  let login := {| Overlap.req_uid := 1;
                  Overlap.req_work := Overlap.Login (1700000000000 + 25 * Sample.hour) |} in
  let saving := {| Overlap.req_uid := 1; Overlap.req_work := Overlap.Award 5 |} in
  coinsOf 1 (snd (Overlap.run [false; true; true; false] login saving
                    Overlap.Arrived Overlap.Arrived Sample.store))
  = Some 135.
Proof. vm_compute. reflexivity. Qed.

(** C9 (amended): an award reaches the storage as an absolute balance, the
    coins of the row the request read when it arrived plus the delta, which
    overwrites the stored balance; two awards of one user that run one after
    the other add both deltas, and of two awards that both read before either
    writes only the one written last is kept. *)
Theorem awards_overwrite_balance (s : Storage.t) (user : User) (d1 d2 : Z) :
  Storage.getUser (user_id user) s = Some user ->
  let r1 := {| Overlap.req_uid := user_id user; Overlap.req_work := Overlap.Award d1 |} in
  let r2 := {| Overlap.req_uid := user_id user; Overlap.req_work := Overlap.Award d2 |} in
  (forall stale delta,
     user_id stale = user_id user ->
     coinsOf (user_id user) (fst (Routes.awardCoins stale delta s))
       = Some (coins stale + delta)) /\
  coinsOf (user_id user)
    (snd (Overlap.run [false; false; true; true] r1 r2
            Overlap.Arrived Overlap.Arrived s))
    = Some (coins user + d1 + d2) /\
  coinsOf (user_id user)
    (snd (Overlap.run [false; true; false; true] r1 r2
            Overlap.Arrived Overlap.Arrived s))
    = Some (coins user + d2).
Proof.
  intros Hget. cbv zeta. split; [ | split ].
  - intros stale delta Hid. unfold coinsOf. rewrite <- Hid in Hget |- *.
    rewrite (awardCoins_getUser stale user delta s Hget). reflexivity.
  - cbn [Overlap.run Overlap.advance Overlap.req_uid Overlap.req_work].
    rewrite Hget. cbn [Overlap.run Overlap.advance Overlap.req_uid Overlap.req_work].
    rewrite (awardCoins_getUser user user d1 s Hget).
    cbn [Overlap.run Overlap.advance Overlap.req_uid Overlap.req_work snd].
    set (user1 := spreadUser user _).
    assert (Hget1 : Storage.getUser (user_id user1) (fst (Routes.awardCoins user d1 s))
                    = Some user1)
      by (apply (awardCoins_getUser user user d1 s Hget)).
    unfold coinsOf.
    change (user_id user) with (user_id user1) at 1.
    rewrite (awardCoins_getUser user1 user1 d2 _ Hget1). cbn. f_equal.
  - cbn [Overlap.run Overlap.advance Overlap.req_uid Overlap.req_work].
    rewrite Hget. cbn [Overlap.run Overlap.advance Overlap.req_uid Overlap.req_work].
    rewrite Hget. cbn [Overlap.run Overlap.advance Overlap.req_uid Overlap.req_work snd].
    unfold coinsOf.
    rewrite (awardCoins_getUser user _ d2 _ (awardCoins_getUser user user d1 s Hget)).
    reflexivity.
Qed.

Lemma awards_overwrite_balance_witness :
  coinsOf 1
    (snd (Overlap.run [false; false; true; true]
            {| Overlap.req_uid := 1; Overlap.req_work := Overlap.Award 10 |}
            {| Overlap.req_uid := 1; Overlap.req_work := Overlap.Award 5 |}
            Overlap.Arrived Overlap.Arrived Sample.store))
    = Some 115.
Proof.
  destruct (awards_overwrite_balance Sample.store Sample.alice 10 5) as (_ & Hseq & _).
  - reflexivity.
  - exact Hseq.
Defined.

(** ** Report percentages *)

(** C8, where the code departs from it: in a month whose expenses total 0
    (one expense of 0 paise) the only group's percentage is NaN, in the
    category breakdown and in the status breakdown alike. *)
Theorem monthly_report_zero_total_is_nan :
  Savings.sumExpenses [Sample.freeSample] = 0 /\
  Report.categoryBreakdown [Sample.freeSample] =
    [ {| Report.key := "other"; Report.amount := 0; Report.percentage := S754_nan |} ] /\
  Report.statusBreakdown [Sample.freeSample] =
    [ {| Report.key := "necessary"; Report.amount := 0;
         Report.percentage := S754_nan |} ].
Proof. vm_compute. repeat split. Qed.

(** The month-over-month change does guard its division: it is 0 whenever
    the previous month's total is not positive. *)
Lemma percentageChange_guarded (current previous : list Expense) :
  Savings.sumExpenses previous <= 0 ->
  Report.percentageChange current previous = S754_zero false.
Proof.
  intros Hprev. unfold Report.percentageChange.
  destruct (Z.ltb_spec 0 (Savings.sumExpenses previous)); [ lia | reflexivity ].
Qed.

Example percentageChange_doubling :
  Report.percentageChange [Sample.movie] [Sample.gadget] = Binary64.of_Z 100.
Proof. vm_compute. reflexivity. Qed.

(** In a month with a positive total the percentages are the rounded
    shares. *)
Example categoryBreakdown_sample :
  Report.categoryBreakdown [Sample.movie; Sample.gadget; Sample.rent] =
    [ {| Report.key := "housing"; Report.amount := 1500000;
         Report.percentage := Binary64.of_Z 98 |};
      {| Report.key := "entertainment"; Report.amount := 20000;
         Report.percentage := Binary64.of_Z 1 |};
      {| Report.key := "shopping"; Report.amount := 10000;
         Report.percentage := Binary64.of_Z 1 |} ].
Proof. vm_compute. reflexivity. Qed.

(** The quotient is rounded to a double before it is multiplied by 100: a
    share of exactly 14.5 percent is computed as 14.499999999999998 and
    reported as 14. *)
Example percentOf_tie :
  Report.percentOf 29 200 = Binary64.of_Z 14 /\
  Js.Math_round (inject_Z 100 * (29 # 200))%Q = 15.
Proof. vm_compute. split; reflexivity. Qed.

(** Groups of equal amount keep the order in which they were first seen. *)
Example breakdown_keeps_order_of_ties :
  List.map Report.key
    (Report.categoryBreakdown
       [Sample.gadget; Sample.movie;
        {| expense_id := 11; expense_userId := 1; expense_name := "Gift";
           expense_amount := 10000; expense_date := 1699960000000;
           expense_status := avoidable; expense_category := "gifts" |}])
  = ["entertainment"; "shopping"; "gifts"]%string.
Proof. vm_compute. reflexivity. Qed.

(** The groups come out with the larger amounts first. *)
Lemma insertDesc_sorted (g : Report.Group) (l : list Report.Group) :
  StronglySorted (fun a b => Report.amount b <= Report.amount a) l ->
  StronglySorted (fun a b => Report.amount b <= Report.amount a)
    (Report.insertDesc g l).
Proof.
  induction 1 as [ | h t Hsorted IH Hall]; cbn.
  - repeat constructor.
  - destruct (Z.leb_spec (Report.amount h) (Report.amount g)) as [Hlt | Hge].
    + constructor; [ constructor; assumption | ].
      constructor; [ lia | ].
      rewrite List.Forall_forall in Hall |- *. intros b Hb.
      specialize (Hall b Hb). cbn in Hall. lia.
    + constructor; [ exact IH | ].
      assert (Hperm : forall x, In x (Report.insertDesc g t) -> x = g \/ In x t).
      { clear. induction t as [ | h' t' IHt]; cbn; intros x.
        - intros [<- | []]. left. reflexivity.
        - destruct (Report.amount h' <=? Report.amount g); cbn.
          + intros [<- | [<- | Hin]]; auto.
          + intros [<- | Hin]; [ auto | ]. destruct (IHt x Hin); auto. }
      apply List.Forall_forall. intros x Hx.
      destruct (Hperm x Hx) as [-> | Hin]; [ lia | ].
      rewrite List.Forall_forall in Hall. apply Hall. exact Hin.
Qed.

Lemma breakdown_sorted (keyOf : Expense -> string) (monthExpenses : list Expense) :
  StronglySorted (fun a b => Report.amount b <= Report.amount a)
    (Report.breakdown keyOf monthExpenses).
Proof.
  unfold Report.breakdown, Report.sortDesc.
  induction (List.map _ (Report.groupBy keyOf monthExpenses)) as [ | g l IH]; cbn.
  - constructor.
  - apply insertDesc_sorted. exact IH.
Qed.

(** * More properties *)

(** ** Looking users up by name *)

Lemma getUserByUsername_Some_inv (uname : string) (s : Storage.t) (u : User) :
  Auth.getUserByUsername uname s = Some u ->
  exists uid, Storage.users s !! uid = Some u /\ username u = uname.
Proof.
  unfold Auth.getUserByUsername.
  destruct (List.find _ _) as [[uid u'] | ] eqn:Hfind; [ | discriminate ].
  cbn. intros [= ->]. apply List.find_some in Hfind as [Hin Hname].
  apply list_elem_of_In, elem_of_map_to_list in Hin.
  cbn in Hname. apply bool_decide_eq_true in Hname. eauto.
Qed.

Lemma getUserByUsername_None_inv (uname : string) (s : Storage.t) :
  Auth.getUserByUsername uname s = None ->
  forall uid u, Storage.users s !! uid = Some u -> username u <> uname.
Proof.
  unfold Auth.getUserByUsername.
  destruct (List.find _ _) as [[uid' u'] | ] eqn:Hfind; [ discriminate | ].
  intros _ uid u Hu Hname.
  pose proof (List.find_none _ _ Hfind (uid, u)) as Hnone.
  cbn in Hnone. rewrite bool_decide_eq_true_2 in Hnone by exact Hname.
  enough (false = true) by discriminate. symmetry. apply Hnone.
  apply list_elem_of_In, elem_of_map_to_list. exact Hu.
Qed.

Lemma getUserByUsername_unique (s : Storage.t) (uid : Z) (u : User) :
  uniqueUsernames s ->
  Storage.users s !! uid = Some u ->
  Auth.getUserByUsername (username u) s = Some u.
Proof.
  intros Huniq Hu.
  destruct (Auth.getUserByUsername (username u) s) as [u' | ] eqn:Hget.
  - apply getUserByUsername_Some_inv in Hget as (uid' & Hu' & Hname).
    assert (uid' = uid) as -> by (eapply Huniq; eauto). congruence.
  - exfalso. eapply getUserByUsername_None_inv; eauto.
Qed.

(** ** Registration keeps usernames unique *)

(** X1: a registration under a name that is taken is refused; one that
    succeeds stores the new user under a fresh id, leaves every other user as
    it was, keeps usernames unique, and the new user is then found by
    name. *)
Theorem register_unique_usernames (body : Auth.RegisterBody) (hashed : string)
    (now : Z) (s : Storage.t) :
  usersKeyed s -> uniqueUsernames s ->
  ((exists uid u, Storage.users s !! uid = Some u /\
                  username u = Storage.iu_username body) ->
   Auth.register body hashed now s = None) /\
  (forall s1 user,
     Auth.register body hashed now s = Some (s1, user) ->
     Storage.users s !! user_id user = None /\
     (forall uid u, Storage.users s !! uid = Some u ->
                    Storage.users s1 !! uid = Some u) /\
     usersKeyed s1 /\ uniqueUsernames s1 /\
     Auth.getUserByUsername (Storage.iu_username body) s1 = Some user /\
     password user = hashed).
Proof.
  intros Hkeyed Huniq. split.
  - intros (uid & u & Hu & Hname). unfold Auth.register.
    rewrite <- Hname, (getUserByUsername_unique s uid u Huniq Hu). reflexivity.
  - intros s1 user. unfold Auth.register.
    destruct (Auth.getUserByUsername _ s) eqn:Hfree; [ discriminate | ].
    unfold Storage.createUser. intros [= <- <-]. cbn.
    assert (Hfresh : Storage.users s !! Storage.userIdCounter s = None).
    { destruct (Storage.users s !! Storage.userIdCounter s) as [u | ] eqn:Hu;
        [ | reflexivity ].
      destruct (Hkeyed _ _ Hu). lia. }
    assert (Hkeep : forall uid u, Storage.users s !! uid = Some u ->
                      uid <> Storage.userIdCounter s).
    { intros uid u Hu. destruct (Hkeyed _ _ Hu). lia. }
    assert (Huniq1 : uniqueUsernames
      {| Storage.users :=
           <[Storage.userIdCounter s :=
               {| user_id := Storage.userIdCounter s;
                  username := Storage.iu_username body; password := hashed;
                  name := Storage.iu_name body; coins := 0; streak := 0;
                  lastLogin := Some now |}]> (Storage.users s);
         Storage.userIdCounter := Storage.userIdCounter s + 1;
         Storage.goals := Storage.goals s;
         Storage.goalIdCounter := Storage.goalIdCounter s;
         Storage.achievements := Storage.achievements s;
         Storage.achievementIdCounter := Storage.achievementIdCounter s;
         Storage.savings := Storage.savings s;
         Storage.savingIdCounter := Storage.savingIdCounter s |}).
    { intros k1 k2 u1 u2. cbn.
      destruct (decide (Storage.userIdCounter s = k1)) as [<- | Hk1];
      destruct (decide (Storage.userIdCounter s = k2)) as [<- | Hk2];
        rewrite ?lookup_insert_eq, ?lookup_insert_ne by assumption.
      - reflexivity.
      - intros [= <-] Hu2 Hname. cbn in Hname. exfalso.
        eapply getUserByUsername_None_inv; eauto.
      - intros Hu1 [= <-] Hname. cbn in Hname. exfalso.
        eapply getUserByUsername_None_inv; eauto.
      - apply Huniq. }
    split; [ exact Hfresh | ]. split; [ | split; [ | split; [ exact Huniq1 | split ] ] ].
    + intros uid u Hu. rewrite lookup_insert_ne; [ exact Hu | ].
      intros Heq. eapply Hkeep; eauto.
    + intros uid u. cbn.
      destruct (decide (Storage.userIdCounter s = uid)) as [<- | Hne].
      * rewrite lookup_insert_eq. intros [= <-]. cbn. lia.
      * rewrite lookup_insert_ne by exact Hne. intros Hu.
        destruct (Hkeyed _ _ Hu). lia.
    + match goal with
      | |- Auth.getUserByUsername _ ?st = Some ?u =>
          change (Storage.iu_username body) with (username u);
          apply (getUserByUsername_unique st (Storage.userIdCounter s) u Huniq1)
      end.
      cbn. apply lookup_insert_eq.
    + reflexivity.
Qed.

Lemma sample_store_keyed : usersKeyed Sample.store.
Proof.
  intros uid u Hu. unfold Sample.store in Hu. cbn [Storage.users] in Hu.
  apply lookup_singleton_Some in Hu as [<- <-]. split; reflexivity.
Defined.

Lemma sample_store_unique : uniqueUsernames Sample.store.
Proof.
  intros k1 k2 u1 u2 H1 H2 _. unfold Sample.store in H1, H2.
  cbn [Storage.users] in H1, H2.
  apply lookup_singleton_Some in H1 as [<- _].
  apply lookup_singleton_Some in H2 as [<- _]. reflexivity.
Defined.

Lemma register_unique_usernames_witness :
  Auth.register
    {| Storage.iu_username := "alice"; Storage.iu_password := "pw";
       Storage.iu_name := "Another Alice"; Storage.iu_coins := None;
       Storage.iu_streak := None; Storage.iu_lastLogin := None |}
    "77aa.01" 1700000000000 Sample.store = None.
Proof.
  apply (register_unique_usernames _ "77aa.01" 1700000000000 Sample.store
           sample_store_keyed sample_store_unique).
  exists 1, Sample.alice. split; reflexivity.
Defined.

(** ** Runs of logins *)

Lemma authenticate_Some_inv (cmp : string -> string -> option bool)
    (uname pw : string) (s : Storage.t) (user : User) :
  Passport.authenticate cmp uname pw s = Some user ->
  Auth.getUserByUsername uname s = Some user /\
  ((uname =? "demo")%string && (pw =? "password")%string = true \/
   cmp pw (password user) = Some true).
Proof.
  unfold Passport.authenticate.
  destruct (Auth.getUserByUsername uname s) as [u | ]; [ | discriminate ].
  destruct ((uname =? "demo")%string && (pw =? "password")%string).
  - intros [= ->]. auto.
  - destruct (cmp pw (password u)) as [[ | ] | ] eqn:Hcmp; try discriminate.
    intros [= <-]. auto.
Qed.

(** What one login leaves behind, seen from the next authentication. *)
Lemma login_then_authenticate (cmp : string -> string -> option bool)
    (uname pw : string) (now : Z) (s : Storage.t) (user : User) :
  usersKeyed s -> uniqueUsernames s ->
  Passport.authenticate cmp uname pw s = Some user ->
  let user' :=
    {| user_id := user_id user; username := username user;
       password := password user; name := name user;
       coins := coins user + snd (Auth.streakAndCoins user now);
       streak := fst (Auth.streakAndCoins user now);
       lastLogin := Some now |} in
  let s' := fst (Auth.login user now s) in
  usersKeyed s' /\ uniqueUsernames s' /\
  Passport.authenticate cmp uname pw s' = Some user' /\
  Storage.users s' = <[user_id user := user']> (Storage.users s) /\
  Storage.goals s' = Storage.goals s /\
  Storage.achievements s' = Storage.achievements s /\
  Storage.savings s' = Storage.savings s /\
  snd (Auth.login user now s) =
    {| Auth.resp_user := user';
       Auth.resp_coinsAwarded :=
         if 0 <? snd (Auth.streakAndCoins user now)
         then Some (snd (Auth.streakAndCoins user now)) else None |}.
Proof.
  intros Hkeyed Huniq Hauth. cbv zeta.
  destruct (authenticate_Some_inv _ _ _ _ _ Hauth) as [Hfind Hpw].
  destruct (getUserByUsername_Some_inv _ _ _ Hfind) as (uid & Hu & Hname).
  destruct (Hkeyed _ _ Hu) as [Hid Hlt].
  assert (Hget : Storage.getUser (user_id user) s = Some user)
    by (unfold Storage.getUser; rewrite Hid; exact Hu).
  set (user' := {| user_id := user_id user; username := username user;
                   password := password user; name := name user;
                   coins := coins user + snd (Auth.streakAndCoins user now);
                   streak := fst (Auth.streakAndCoins user now);
                   lastLogin := Some now |}).
  assert (Hs' : Auth.login user now s =
                (Storage.with_users (fun m => <[user_id user := user']> m) s,
                 {| Auth.resp_user := user';
                    Auth.resp_coinsAwarded :=
                      if 0 <? snd (Auth.streakAndCoins user now)
                      then Some (snd (Auth.streakAndCoins user now)) else None |})).
  { unfold Auth.login, Storage.updateUser. subst user'.
    destruct (Auth.streakAndCoins user now) as [newStreak award]. cbn [fst snd].
    unfold Storage.getUser in Hget. rewrite Hget. reflexivity. }
  rewrite Hs'. cbn [fst snd Storage.with_users Storage.users Storage.goals
                    Storage.achievements Storage.savings].
  assert (Hkeyed' : usersKeyed (Storage.with_users (fun m => <[user_id user := user']> m) s)).
  { intros k u. cbn. destruct (decide (user_id user = k)) as [<- | Hne].
    - rewrite lookup_insert_eq. intros [= <-]. cbn. rewrite Hid. split; [ reflexivity | exact Hlt ].
    - rewrite lookup_insert_ne by exact Hne. apply Hkeyed. }
  assert (Huniq' : uniqueUsernames (Storage.with_users (fun m => <[user_id user := user']> m) s)).
  { intros k1 k2 u1 u2. cbn.
    destruct (decide (user_id user = k1)) as [<- | Hk1];
    destruct (decide (user_id user = k2)) as [<- | Hk2];
      rewrite ?lookup_insert_eq, ?lookup_insert_ne by assumption.
    - reflexivity.
    - intros [= <-] Hu2 Hn. cbn in Hn. rewrite Hid in *.
      apply (Huniq uid k2 user u2 Hu Hu2 Hn).
    - intros Hu1 [= <-] Hn. cbn in Hn. rewrite Hid in *.
      symmetry. apply (Huniq uid k1 user u1 Hu Hu1). congruence.
    - apply Huniq. }
  split; [ exact Hkeyed' | ]. split; [ exact Huniq' | ].
  split; [ | repeat split ].
  unfold Passport.authenticate.
  assert (Hfind' : Auth.getUserByUsername uname
                     (Storage.with_users (fun m => <[user_id user := user']> m) s)
                   = Some user').
  { rewrite <- Hname. change (username user) with (username user').
    apply (getUserByUsername_unique _ (user_id user) user' Huniq').
    cbn. apply lookup_insert_eq. }
  rewrite Hfind'. destruct Hpw as [-> | Hcmp]; [ reflexivity | ].
  cbn [password user']. rewrite Hcmp.
  destruct ((uname =? "demo")%string && (pw =? "password")%string); reflexivity.
Qed.

Lemma last_cons_default {A} (l : list A) (a d1 d2 : A) :
  List.last (a :: l) d1 = List.last (d1 :: a :: l) d2.
Proof.
  cbn [List.last]. revert a. induction l as [ | b l IH]; intros a; [ reflexivity | ].
  cbn [List.last] in *. apply IH.
Qed.

Lemma award_by_quotients (m : Z) :
  (if (m =? 5) || (Z.rem m 5 =? 0) then 35 else 15) = 15 + 20 * milestonesBetween (m - 1) m.
Proof.
  unfold milestonesBetween.
  destruct (Z.eqb_spec m 5) as [-> | Hne]; [ reflexivity | ]. cbn [orb].
  destruct (Z.eqb_spec (Z.rem m 5) 0) as [Hrem | Hrem].
  - apply Z.rem_divide in Hrem; [ | discriminate ].
    apply Z.mod_divide in Hrem; [ | discriminate ].
    Z.div_mod_to_equations. lia.
  - assert (Hmod : m mod 5 <> 0).
    { intros Hmod. apply Hrem. apply Z.rem_divide; [ discriminate | ].
      apply Z.mod_divide; [ discriminate | exact Hmod ]. }
    Z.div_mod_to_equations. lia.
Qed.

(** X2: a run of logins, each more than 20 and less than 48 hours after the
    one before, adds 1 to the streak at each login and pays 15 coins per
    login plus 20 for each multiple of 5 the streak passes; every answer
    reports an award of 15 or 35, and [lastLogin] ends at the last login. *)
Theorem daily_run_of_logins (cmp : string -> string -> option bool)
    (uname pw : string) (times : list Z) (s : Storage.t) (user : User) (t : Z) :
  usersKeyed s -> uniqueUsernames s ->
  Passport.authenticate cmp uname pw s = Some user ->
  lastLogin user = Some t ->
  daily t times ->
  let n := Z.of_nat (length times) in
  exists user',
    Passport.authenticate cmp uname pw
      (fst (Passport.loginRequests cmp uname pw times s)) = Some user' /\
    streak user' = streak user + n /\
    coins user' = coins user + 15 * n +
                  20 * milestonesBetween (streak user) (streak user + n) /\
    lastLogin user' = Some (List.last times t) /\
    Forall (fun answer =>
              exists r, answer = Some r /\
                (Auth.resp_coinsAwarded r = Some 15 \/
                 Auth.resp_coinsAwarded r = Some 35))
           (snd (Passport.loginRequests cmp uname pw times s)).
Proof.
  revert s user t. induction times as [ | now rest IH];
    intros s user t Hkeyed Huniq Hauth Hlast Hdaily; cbv zeta.
  - exists user. cbn. unfold milestonesBetween. rewrite !Z.add_0_r.
    split; [ exact Hauth | ]. split; [ reflexivity | ]. split; [ lia | ].
    split; [ exact Hlast | constructor ].
  - destruct Hdaily as [Hgap Hrest].
    cbn [Passport.loginRequests]. unfold Passport.loginRequest. rewrite Hauth.
    destruct (login_then_authenticate cmp uname pw now s user Hkeyed Huniq Hauth)
      as (Hkeyed1 & Huniq1 & Hauth1 & _ & _ & _ & _ & Hresp).
    destruct (Auth.login user now s) as [s1 r1] eqn:Hlogin. cbn [fst snd] in *.
    assert (Hinc : Auth.streakAndCoins user now =
              (streak user + 1,
               if (streak user + 1 =? 5) || (Z.rem (streak user + 1) 5 =? 0)
               then 35 else 15)).
    { apply streakAndCoins_increment; unfold Auth.lastLoginOrEpoch; rewrite Hlast; cbn.
      - apply hours_gt_iff. lia.
      - apply hours_lt_iff. lia. }
    rewrite Hinc in Hauth1, Hresp. cbn [fst snd] in Hauth1, Hresp.
    specialize (IH s1 _ now Hkeyed1 Huniq1 Hauth1 eq_refl Hrest).
    cbv zeta in IH. destruct IH as (user' & Hauth' & Hstreak & Hcoins & Hlast' & Hall).
    destruct (Passport.loginRequests cmp uname pw rest s1) as [s2 rs] eqn:Hrun.
    cbn [fst snd] in *. exists user'.
    rewrite award_by_quotients in Hcoins, Hresp.
    replace (streak user + 1 - 1) with (streak user) in Hcoins, Hresp by lia.
    cbn [streak coins lastLogin] in Hstreak, Hcoins, Hlast'.
    split; [ exact Hauth' | ].
    rewrite length_cons, Nat2Z.inj_succ.
    split; [ lia | ]. split.
    + unfold milestonesBetween in *.
      replace (streak user + Z.succ (Z.of_nat (length rest)))
        with (streak user + 1 + Z.of_nat (length rest)) by lia. lia.
    + split.
      * rewrite Hlast'. f_equal. destruct rest as [ | z rest']; [ reflexivity | ].
        apply last_cons_default.
      * constructor; [ | exact Hall ].
        exists r1. split; [ reflexivity | ]. rewrite Hresp. cbn.
        unfold milestonesBetween.
        assert (H01 : (streak user + 1) / 5 - streak user / 5 = 0 \/
                      (streak user + 1) / 5 - streak user / 5 = 1)
          by (Z.div_mod_to_equations; lia).
        destruct H01 as [-> | ->]; cbn; auto.
Qed.

Lemma daily_run_of_logins_witness :
  exists user',
    Passport.authenticate (fun _ _ => Some true) "alice" "secret"
      (fst (Passport.loginRequests (fun _ _ => Some true) "alice" "secret"
              [1700000000000 + 25 * Sample.hour; 1700000000000 + 50 * Sample.hour]
              Sample.store)) = Some user' /\
    streak user' = 6 /\ coins user' = 150.
Proof.
  destruct (daily_run_of_logins (fun _ _ => Some true) "alice" "secret"
              [1700000000000 + 25 * Sample.hour; 1700000000000 + 50 * Sample.hour]
              Sample.store Sample.alice 1700000000000
              sample_store_keyed sample_store_unique)
    as (user' & Hauth & Hstreak & Hcoins & _).
  - vm_compute. reflexivity.
  - reflexivity.
  - cbn. unfold Sample.hour. lia.
  - exists user'. split; [ exact Hauth | ]. split; [ exact Hstreak | exact Hcoins ].
Defined.

(** X3: a run of logins, each at most 20 hours after the one before, never
    moves the streak or the coins and awards nothing, however long it lasts:
    every login restarts the 20 hours, because it rewrites [lastLogin]. *)
Theorem frequent_logins_earn_nothing (cmp : string -> string -> option bool)
    (uname pw : string) (times : list Z) (s : Storage.t) (user : User) (t : Z) :
  usersKeyed s -> uniqueUsernames s ->
  Passport.authenticate cmp uname pw s = Some user ->
  lastLogin user = Some t ->
  frequent t times ->
  exists user',
    Passport.authenticate cmp uname pw
      (fst (Passport.loginRequests cmp uname pw times s)) = Some user' /\
    streak user' = streak user /\
    coins user' = coins user /\
    lastLogin user' = Some (List.last times t) /\
    Forall (fun answer =>
              exists r, answer = Some r /\ Auth.resp_coinsAwarded r = None)
           (snd (Passport.loginRequests cmp uname pw times s)).
Proof.
  revert s user t. induction times as [ | now rest IH];
    intros s user t Hkeyed Huniq Hauth Hlast Hfreq.
  - exists user. cbn. repeat split; try assumption. constructor.
  - destruct Hfreq as [Hgap Hrest].
    cbn [Passport.loginRequests]. unfold Passport.loginRequest. rewrite Hauth.
    destruct (login_then_authenticate cmp uname pw now s user Hkeyed Huniq Hauth)
      as (Hkeyed1 & Huniq1 & Hauth1 & _ & _ & _ & _ & Hresp).
    destruct (Auth.login user now s) as [s1 r1] eqn:Hlogin. cbn [fst snd] in *.
    assert (Hguard : Auth.streakAndCoins user now = (streak user, 0)).
    { apply streakAndCoins_guard. unfold Auth.lastLoginOrEpoch. rewrite Hlast. cbn.
      apply hours_le_iff. lia. }
    rewrite Hguard in Hauth1, Hresp. cbn [fst snd] in Hauth1, Hresp.
    specialize (IH s1 _ now Hkeyed1 Huniq1 Hauth1 eq_refl Hrest).
    destruct IH as (user' & Hauth' & Hstreak & Hcoins & Hlast' & Hall).
    destruct (Passport.loginRequests cmp uname pw rest s1) as [s2 rs] eqn:Hrun.
    cbn [fst snd] in *. exists user'.
    cbn [streak coins lastLogin] in Hstreak, Hcoins, Hlast'.
    split; [ exact Hauth' | ]. split; [ exact Hstreak | ]. split; [ lia | ]. split.
    + rewrite Hlast'. f_equal. destruct rest as [ | z rest']; [ reflexivity | ].
      apply last_cons_default.
    + constructor; [ | exact Hall ].
      exists r1. split; [ reflexivity | ]. rewrite Hresp. reflexivity.
Qed.

Lemma frequent_logins_earn_nothing_witness :
  exists user',
    Passport.authenticate (fun _ _ => Some true) "alice" "secret"
      (fst (Passport.loginRequests (fun _ _ => Some true) "alice" "secret"
              [1700000000000 + 12 * Sample.hour; 1700000000000 + 24 * Sample.hour;
               1700000000000 + 36 * Sample.hour; 1700000000000 + 48 * Sample.hour]
              Sample.store)) = Some user' /\
    streak user' = 4 /\ coins user' = 100 /\
    lastLogin user' = Some (1700000000000 + 48 * Sample.hour).
Proof.
  destruct (frequent_logins_earn_nothing (fun _ _ => Some true) "alice" "secret"
              [1700000000000 + 12 * Sample.hour; 1700000000000 + 24 * Sample.hour;
               1700000000000 + 36 * Sample.hour; 1700000000000 + 48 * Sample.hour]
              Sample.store Sample.alice 1700000000000
              sample_store_keyed sample_store_unique)
    as (user' & Hauth & Hstreak & Hcoins & Hlast & _).
  - vm_compute. reflexivity.
  - reflexivity.
  - cbn. unfold Sample.hour. lia.
  - exists user'. repeat split; assumption.
Defined.

Lemma getUserByUsername_unknown (uname : string) (s : Storage.t) :
  (forall uid u, Storage.users s !! uid = Some u -> username u <> uname) ->
  Auth.getUserByUsername uname s = None.
Proof.
  intros Hnone. destruct (Auth.getUserByUsername uname s) as [u | ] eqn:Hget;
    [ | reflexivity ].
  apply getUserByUsername_Some_inv in Hget as (uid & Hu & Hname).
  exfalso. eapply Hnone; eauto.
Qed.

(** X4: a login request under a name no user has, or with a password the
    comparison does not accept (the pair demo/password apart), is answered
    without a user and changes nothing in the store; and for the name demo
    the password "password" is accepted without the comparison being
    consulted. *)
Theorem login_request_rejected (cmp : string -> string -> option bool)
    (uname pw : string) (now : Z) (s : Storage.t) :
  ((forall uid u, Storage.users s !! uid = Some u -> username u <> uname) ->
   Passport.loginRequest cmp uname pw now s = (s, None)) /\
  ((uname <> "demo"%string \/ pw <> "password"%string) ->
   (forall user, Auth.getUserByUsername uname s = Some user ->
                 cmp pw (password user) <> Some true) ->
   Passport.loginRequest cmp uname pw now s = (s, None)) /\
  (forall user, Auth.getUserByUsername "demo" s = Some user ->
     Passport.authenticate cmp "demo" "password" s = Some user).
Proof.
  split; [ | split ].
  - intros Hnone. unfold Passport.loginRequest, Passport.authenticate.
    rewrite (getUserByUsername_unknown uname s Hnone). reflexivity.
  - intros Hcreds Hwrong. unfold Passport.loginRequest, Passport.authenticate.
    destruct (Auth.getUserByUsername uname s) as [user | ] eqn:Hget; [ | reflexivity ].
    assert (Hdemo : (uname =? "demo")%string && (pw =? "password")%string = false).
    { apply andb_false_iff.
      destruct Hcreds as [H | H]; [ left | right ]; apply String.eqb_neq; exact H. }
    rewrite Hdemo. specialize (Hwrong user eq_refl).
    destruct (cmp pw (password user)) as [[ | ] | ]; try reflexivity. congruence.
  - intros user Hget. unfold Passport.authenticate. rewrite Hget. reflexivity.
Qed.

Lemma login_request_rejected_witness :
  Passport.loginRequest (fun _ _ => Some true) "mallory" "x" 1700000000000 Sample.store
  = (Sample.store, None).
Proof.
  destruct (login_request_rejected (fun _ _ => Some true) "mallory" "x"
              1700000000000 Sample.store) as [Hunknown _].
  apply Hunknown. intros uid u Hu. unfold Sample.store in Hu. cbn [Storage.users] in Hu.
  apply lookup_singleton_Some in Hu as [_ <-]. cbn. discriminate.
Defined.

(** X5: a login touches one row only: the other users, the goals, the
    achievements and the savings are as before, and the row keeps its id,
    username, password and name. *)
Theorem login_frame (s : Storage.t) (user : User) (now : Z) :
  Storage.getUser (user_id user) s = Some user ->
  let s' := fst (Auth.login user now s) in
  (forall uid, uid <> user_id user ->
     Storage.getUser uid s' = Storage.getUser uid s) /\
  Storage.goals s' = Storage.goals s /\
  Storage.achievements s' = Storage.achievements s /\
  Storage.savings s' = Storage.savings s /\
  exists user',
    Storage.getUser (user_id user) s' = Some user' /\
    user_id user' = user_id user /\ username user' = username user /\
    password user' = password user /\ name user' = name user.
Proof.
  intros Hget. cbv zeta.
  destruct (login_stored s user now Hget) as (Hs & _ & _).
  split; [ | split; [ | split; [ | split ] ] ].
  - intros uid Hne. unfold Auth.login, Storage.updateUser.
    destruct (Auth.streakAndCoins user now) as [newStreak award].
    unfold Storage.getUser in *. rewrite Hget. cbn.
    apply lookup_insert_ne. congruence.
  - unfold Auth.login, Storage.updateUser.
    destruct (Auth.streakAndCoins user now). unfold Storage.getUser in Hget.
    rewrite Hget. reflexivity.
  - unfold Auth.login, Storage.updateUser.
    destruct (Auth.streakAndCoins user now). unfold Storage.getUser in Hget.
    rewrite Hget. reflexivity.
  - unfold Auth.login, Storage.updateUser.
    destruct (Auth.streakAndCoins user now). unfold Storage.getUser in Hget.
    rewrite Hget. reflexivity.
  - eexists. split; [ exact Hs | ]. cbn. auto.
Qed.

Lemma login_frame_witness :
  Storage.goals
    (fst (Auth.login Sample.alice (1700000000000 + 25 * Sample.hour)
            Sample.storeWithGoal))
  = Storage.goals Sample.storeWithGoal.
Proof.
  destruct (login_frame Sample.storeWithGoal Sample.alice
              (1700000000000 + 25 * Sample.hour)) as (_ & Hgoals & _).
  - reflexivity.
  - exact Hgoals.
Defined.

(** ** The streak tracker and the login rule *)

(** X6: for a streak that is not negative, the tracker's days-until-bonus is
    between 1 and 5, counts down by one with each increment of the streak and
    starts again at 5 after reaching 1, and the next daily login pays the
    20-coin bonus exactly when it shows 1. *)
Theorem daysUntilBonus_counts_down (user : User) (now : Z) :
  0 <= streak user ->
  (inject_Z 20 < Auth.hoursSinceLastLogin now (Auth.lastLoginOrEpoch user))%Q ->
  (Auth.hoursSinceLastLogin now (Auth.lastLoginOrEpoch user) < inject_Z 48)%Q ->
  1 <= StreakTracker.daysUntilBonus (streak user) <= 5 /\
  StreakTracker.daysUntilBonus (streak user + 1) =
    (if StreakTracker.daysUntilBonus (streak user) =? 1 then 5
     else StreakTracker.daysUntilBonus (streak user) - 1) /\
  (snd (Auth.streakAndCoins user now) = 35 <->
   StreakTracker.daysUntilBonus (streak user) = 1) /\
  (snd (Auth.streakAndCoins user now) = 15 <->
   StreakTracker.daysUntilBonus (streak user) <> 1).
Proof.
  intros Hpos H20 H48.
  rewrite (streakAndCoins_increment user now H20 H48). cbn [snd].
  unfold StreakTracker.daysUntilBonus, Js.rem.
  rewrite !Z.rem_mod_nonneg by lia.
  destruct (Z.eqb_spec (streak user + 1) 5) as [H5 | H5]; cbn [orb].
  - assert (H4 : streak user mod 5 = 4) by (Z.div_mod_to_equations; lia).
    assert (H0 : (streak user + 1) mod 5 = 0) by (Z.div_mod_to_equations; lia).
    rewrite H4, H0. cbn. repeat split; try lia; intros; congruence.
  - destruct (Z.eqb_spec ((streak user + 1) mod 5) 0) as [H0 | H0].
    + assert (H4 : streak user mod 5 = 4) by (Z.div_mod_to_equations; lia).
      rewrite H4, H0. cbn. repeat split; try lia; intros; congruence.
    + assert (H4 : streak user mod 5 <> 4) by (Z.div_mod_to_equations; lia).
      destruct (Z.eqb_spec (5 - streak user mod 5) 1) as [H1 | H1]; [ lia | ].
      repeat split; try (Z.div_mod_to_equations; lia); intros; try lia; congruence.
Qed.

Lemma daysUntilBonus_counts_down_witness :
  StreakTracker.daysUntilBonus 4 = 1 /\
  snd (Auth.streakAndCoins Sample.alice (1700000000000 + 25 * Sample.hour)) = 35.
Proof.
  destruct (daysUntilBonus_counts_down Sample.alice (1700000000000 + 25 * Sample.hour))
    as (_ & _ & Hbonus & _).
  - vm_compute. discriminate.
  - apply hours_gt_iff. vm_compute. reflexivity.
  - apply hours_lt_iff. vm_compute. reflexivity.
  - split; [ reflexivity | ]. apply Hbonus. reflexivity.
Defined.

(** ** More on the tier classifier *)

(** X7: the fallback tier never softens as the amount grows: for one category
    a larger amount gets a tier at least as severe (necessary, then
    avoidable, then unnecessary). *)
Theorem fallback_monotone_in_amount (category : string) (a b : Z) :
  a <= b ->
  severity (Ai.fallbackStatusDetermination category a)
    <= severity (Ai.fallbackStatusDetermination category b).
Proof.
  intros Hab. rewrite !fallback_thresholds_in_paise.
  destruct (Ai.includes Ai.necessaryCategories category);
    [ | destruct (Ai.includes Ai.potentiallyAvoidableCategories category);
        [ | destruct (Ai.includes Ai.unnecessaryCategories category) ] ];
  repeat match goal with
         | |- context [?x <? ?y] => destruct (Z.ltb_spec x y)
         end; cbn; lia.
Qed.

Lemma fallback_monotone_in_amount_witness :
  severity (Ai.fallbackStatusDetermination "travel" 150000)
    <= severity (Ai.fallbackStatusDetermination "travel" 250000).
Proof. apply fallback_monotone_in_amount. lia. Defined.

(** X8: the fallback never calls an expense unnecessary in a necessary-leaning
    or context-dependent category, and never calls one necessary in any other
    category, whatever the amount. *)
Theorem fallback_tier_by_category (category : string) (amount : Z) :
  (In category (Ai.necessaryCategories ++ Ai.potentiallyAvoidableCategories) ->
   Ai.fallbackStatusDetermination category amount <> "unnecessary"%string) /\
  (~ In category (Ai.necessaryCategories ++ Ai.potentiallyAvoidableCategories) ->
   Ai.fallbackStatusDetermination category amount <> "necessary"%string).
Proof.
  rewrite fallback_thresholds_in_paise. split.
  - intros Hin. apply in_app_or in Hin as [Hin | Hin].
    + apply includes_In in Hin. rewrite Hin.
      destruct (500000 <? amount); discriminate.
    + apply includes_In in Hin. rewrite Hin.
      destruct (Ai.includes Ai.necessaryCategories category);
        [ destruct (500000 <? amount) | destruct (100000 <? amount) ]; discriminate.
  - intros Hnot.
    assert (H1 : Ai.includes Ai.necessaryCategories category = false).
    { apply includes_not_In. intros H. apply Hnot, in_or_app. auto. }
    assert (H2 : Ai.includes Ai.potentiallyAvoidableCategories category = false).
    { apply includes_not_In. intros H. apply Hnot, in_or_app. auto. }
    rewrite H1, H2.
    destruct (Ai.includes Ai.unnecessaryCategories category);
      [ destruct (200000 <? amount) | destruct (300000 <? amount) ]; discriminate.
Qed.

Lemma fallback_tier_by_category_witness :
  Ai.fallbackStatusDetermination "housing" 99999999 <> "unnecessary"%string.
Proof.
  destruct (fallback_tier_by_category "housing" 99999999) as [H _].
  apply H. cbn. auto 10.
Defined.

(** X9: the tier of an expense is the external classifier's answer when that
    answer is one of the three tier labels, and the fallback's tier in every
    other case (no answer, an empty or an unknown label); it is always one of
    the three labels. *)
Theorem determineExpenseStatus_answer_or_fallback (answer : option string)
    (category : string) (amount : Z) :
  In (Ai.determineExpenseStatus answer category amount) Ai.validStatuses /\
  (forall tier, answer = Some tier -> In tier Ai.validStatuses ->
     Ai.determineExpenseStatus answer category amount = tier) /\
  ((answer = None \/ exists label, answer = Some label /\ ~ In label Ai.validStatuses) ->
   Ai.determineExpenseStatus answer category amount
     = Ai.fallbackStatusDetermination category amount).
Proof.
  split; [ apply determineExpenseStatus_valid | ]. split.
  - intros tier -> Hin. unfold Ai.determineExpenseStatus.
    assert (Hne : (tier =? "")%string = false).
    { apply String.eqb_neq. intros ->. cbn in Hin. intuition discriminate. }
    apply includes_In in Hin. rewrite Hne, Hin. reflexivity.
  - intros [-> | (label & -> & Hnot)]; [ reflexivity | ].
    unfold Ai.determineExpenseStatus. apply includes_not_In in Hnot.
    rewrite Hnot, andb_false_r. reflexivity.
Qed.

Lemma determineExpenseStatus_answer_or_fallback_witness :
  Ai.determineExpenseStatus (Some "essential"%string) "shopping" 250000
  = "unnecessary"%string.
Proof.
  destruct (determineExpenseStatus_answer_or_fallback (Some "essential"%string)
              "shopping" 250000) as (_ & _ & Hfb).
  rewrite Hfb; [ reflexivity | ].
  right. exists "essential"%string. split; [ reflexivity | ].
  cbn. intros [H | [H | [H | []]]]; discriminate.
Defined.

(** ** Goals of other users *)

(** X10: a [PUT] on a goal answers not-found exactly when the goal does not
    exist or belongs to another user, and then the store is left as it was:
    no goal is changed, no coins are awarded and no achievement is inserted,
    whatever the request carries. *)
Theorem putGoal_not_found (user : User) (gid : Z) (body : Routes.GoalPatch)
    (now : Z) (s : Storage.t) :
  (snd (Routes.putGoal user gid body now s) = Routes.GoalNotFound <->
   (Storage.goals s !! gid = None \/
    exists goal, Storage.goals s !! gid = Some goal /\
                 goal_userId goal <> user_id user)) /\
  (snd (Routes.putGoal user gid body now s) = Routes.GoalNotFound ->
   fst (Routes.putGoal user gid body now s) = s).
Proof.
  unfold Routes.putGoal.
  destruct (Storage.goals s !! gid) as [goal | ] eqn:Hgoal.
  - destruct (Z.eqb_spec (goal_userId goal) (user_id user)) as [Hown | Hforeign];
      cbn [negb].
    + destruct (bool_decide _ && _); destruct (Routes.updateGoal _ _ _); cbn;
        (split; [ split; [ discriminate | ] | discriminate ]);
        intros [H | (g & [= <-] & Hne)]; [ discriminate | contradiction
                                         | discriminate | contradiction ].
    + cbn. split; [ | reflexivity ]. split; [ | reflexivity ].
      intros _. right. exists goal. auto.
  - cbn. split; [ | reflexivity ]. split; auto.
Qed.

(** ** Keywords *)

Lemma prefix_trans (p q t : string) :
  String.prefix p q = true -> String.prefix q t = true -> String.prefix p t = true.
Proof.
  revert q t. induction p as [ | c p IH]; intros q t Hpq Hqt;
    [ destruct t; reflexivity | ].
  destruct q as [ | c' q]; [ discriminate | ].
  destruct t as [ | c'' t]; [ discriminate | ].
  cbn in *. destruct (Ascii.ascii_dec c c') as [-> | ]; [ | discriminate ].
  destruct (Ascii.ascii_dec c' c'') as [-> | ]; [ | discriminate ].
  destruct (Ascii.ascii_dec c'' c''); [ | congruence ]. eauto.
Qed.

Lemma contains_cons (p : string) (c : Ascii.ascii) (t : string) :
  Text.contains p t = true -> Text.contains p (String c t) = true.
Proof.
  intros H. cbn [Text.contains].
  destruct (String.prefix p (String c t)); [ reflexivity | exact H ].
Qed.

Lemma contains_prefix (p q t : string) :
  Text.contains p q = true -> String.prefix q t = true -> Text.contains p t = true.
Proof.
  revert t. induction q as [ | c q IH]; intros t Hpq Hqt.
  - destruct p; [ destruct t; reflexivity | discriminate ].
  - cbn [Text.contains] in Hpq.
    destruct (String.prefix p (String c q)) eqn:Hp.
    + assert (String.prefix p t = true) by (eapply prefix_trans; eauto).
      destruct t; cbn [Text.contains]; rewrite H; reflexivity.
    + destruct t as [ | c' t]; [ discriminate | ].
      cbn in Hqt. destruct (Ascii.ascii_dec c c'); [ | discriminate ].
      apply contains_cons. apply IH; assumption.
Qed.

(** A text that contains a word contains every part of the word. *)
Lemma contains_trans (p q t : string) :
  Text.contains p q = true -> Text.contains q t = true -> Text.contains p t = true.
Proof.
  intros Hpq. induction t as [ | c t IH]; intros Hqt.
  - destruct q; [ | discriminate ].
    apply (contains_prefix p "" ""); [ exact Hpq | reflexivity ].
  - cbn [Text.contains] in Hqt. destruct (String.prefix q (String c t)) eqn:Hq.
    + eapply contains_prefix; eauto.
    + apply contains_cons. apply IH. exact Hqt.
Qed.

Lemma matchAny_keyword (keywords : list string) (k text : string) :
  In k keywords -> Text.contains k text = true -> Text.matchAny keywords text = true.
Proof.
  intros Hin Hk. unfold Text.matchAny. apply existsb_exists. exists k. auto.
Qed.

Ltac split_ifs :=
  repeat match goal with
         | |- context [if ?b then _ else _] => destruct b
         end.

Lemma fallbackCategorization_valid (expenseName : string) :
  In (AiCategory.fallbackCategorization expenseName) AiCategory.validCategories.
Proof. unfold AiCategory.fallbackCategorization. cbv zeta. split_ifs; cbn; auto 20. Qed.

Lemma categorizeExpense_valid (answer : option string) (expenseName : string) :
  In (AiCategory.categorizeExpense answer expenseName) AiCategory.validCategories.
Proof.
  pose proof (fallbackCategorization_valid expenseName) as Hfb.
  unfold AiCategory.categorizeExpense. destruct answer as [label | ]; [ | exact Hfb ].
  destruct (negb (label =? "")%string && Ai.includes AiCategory.validCategories label)
    eqn:E; [ | exact Hfb ].
  apply andb_true_iff in E as [_ E]. apply includes_In. exact E.
Qed.

(** X11: the category filled in for an expense is always one of the fifteen
    labels of the taxonomy: the external model's answer when it is one of
    them, and otherwise (no answer, an empty or unknown label) the keyword
    fallback's, which itself never leaves the taxonomy. *)
Theorem categorizeExpense_in_taxonomy (answer : option string) (expenseName : string) :
  In (AiCategory.fallbackCategorization expenseName) AiCategory.validCategories /\
  In (AiCategory.categorizeExpense answer expenseName) AiCategory.validCategories /\
  (forall label, answer = Some label -> In label AiCategory.validCategories ->
     AiCategory.categorizeExpense answer expenseName = label) /\
  ((answer = None \/
    exists label, answer = Some label /\ ~ In label AiCategory.validCategories) ->
   AiCategory.categorizeExpense answer expenseName
     = AiCategory.fallbackCategorization expenseName).
Proof.
  split; [ apply fallbackCategorization_valid | ]. split; [ | split ].
  - apply categorizeExpense_valid.
  - intros label -> Hin. unfold AiCategory.categorizeExpense.
    assert (Hne : (label =? "")%string = false).
    { apply String.eqb_neq. intros ->. cbn in Hin.
      repeat (destruct Hin as [Hin | Hin]; [ discriminate | ]). exact Hin. }
    apply includes_In in Hin. rewrite Hne, Hin. reflexivity.
  - intros [-> | (label & -> & Hnot)]; [ reflexivity | ].
    unfold AiCategory.categorizeExpense. apply includes_not_In in Hnot.
    rewrite Hnot, andb_false_r. reflexivity.
Qed.

(** X12: some keywords of the fallback can never decide: a name containing
    "bill" or "subscription" is never put under bills, one containing
    "booking" never under travel, one containing "care" never under
    personal_care and one containing "gas" never under utilities, because an
    earlier rule always matches first ("bill" is a utilities keyword,
    "subscription" an entertainment one, "booking" contains "book", "care"
    contains "car", and "gas" is a transportation keyword). *)
Theorem fallback_shadowed_keywords (expenseName : string) :
  let text := Text.toLowerCase expenseName in
  let category := AiCategory.fallbackCategorization expenseName in
  ((Text.contains "bill" text = true \/ Text.contains "subscription" text = true) ->
   category <> "bills"%string) /\
  (Text.contains "booking" text = true -> category <> "travel"%string) /\
  (Text.contains "care" text = true -> category <> "personal_care"%string) /\
  (Text.contains "gas" text = true -> category <> "utilities"%string).
Proof.
  cbv zeta. unfold AiCategory.fallbackCategorization. cbv zeta.
  set (text := Text.toLowerCase expenseName).
  repeat split.
  - intros [H | H].
    + assert (Hm : Text.matchAny
                ["electricity"; "water"; "gas"; "internet"; "phone"; "bill";
                 "utility"; "broadband"; "wifi"]%string text = true)
        by (apply (matchAny_keyword _ "bill"); [ cbn; auto 10 | exact H ]).
      rewrite Hm. split_ifs; discriminate.
    + assert (Hm : Text.matchAny
                ["movie"; "cinema"; "theatre"; "concert"; "show"; "entertainment";
                 "game"; "subscription"; "netflix"; "amazon"; "prime";
                 "disney"]%string text = true)
        by (apply (matchAny_keyword _ "subscription"); [ cbn; auto 10 | exact H ]).
      rewrite Hm. split_ifs; discriminate.
  - intros H.
    assert (Hm : Text.matchAny
              ["school"; "college"; "university"; "tuition"; "course"; "class";
               "education"; "book"; "learning"; "tutorial"]%string text = true).
    { apply (matchAny_keyword _ "book"); [ cbn; auto 10 | ].
      apply (contains_trans "book" "booking"); [ reflexivity | exact H ]. }
    rewrite Hm. split_ifs; discriminate.
  - intros H.
    assert (Hm : Text.matchAny
              ["transport"; "uber"; "ola"; "lyft"; "taxi"; "train"; "bus";
               "metro"; "subway"; "cab"; "petrol"; "gas"; "fuel"; "car";
               "bike"]%string text = true).
    { apply (matchAny_keyword _ "car"); [ cbn; auto 20 | ].
      apply (contains_trans "car" "care"); [ reflexivity | exact H ]. }
    rewrite Hm. split_ifs; discriminate.
  - intros H.
    assert (Hm : Text.matchAny
              ["transport"; "uber"; "ola"; "lyft"; "taxi"; "train"; "bus";
               "metro"; "subway"; "cab"; "petrol"; "gas"; "fuel"; "car";
               "bike"]%string text = true)
      by (apply (matchAny_keyword _ "gas"); [ cbn; auto 20 | exact H ]).
    rewrite Hm. split_ifs; discriminate.
Qed.

Example categories_of_sample_names :
  List.map AiCategory.fallbackCategorization
    ["Movie Tickets"; "Personal care"; "Electricity Bill"; "Hotel booking"; ""]%string
  = ["entertainment"; "transportation"; "utilities"; "education"; "other"]%string.
Proof. vm_compute. reflexivity. Qed.

(** ** Fallback tips *)

Lemma spliceAt_permutation (table : list (string * list string)) (slot : string)
    (index : nat) :
  (index < length (Tips.arrayAt table slot))%nat ->
  Permutation (allTipsOf table)
    (nth index (Tips.arrayAt table slot) ""%string
       :: allTipsOf (Tips.spliceAt table slot index)).
Proof.
  induction table as [ | [k tips] rest IH]; cbn [Tips.arrayAt Tips.spliceAt]; intros Hlt.
  - cbn in Hlt. lia.
  - destruct (String.eqb k slot).
    + unfold allTipsOf. cbn [List.map snd concat].
      destruct (lookup_lt_is_Some_2 tips index Hlt) as [x Hx].
      rewrite (nth_lookup_Some _ _ _ _ Hx).
      rewrite <- (take_drop_middle tips index x Hx) at 1.
      rewrite <- !app_assoc. cbn [app].
      symmetry. apply Permutation_middle.
    + specialize (IH Hlt). unfold allTipsOf in *. cbn [List.map snd concat].
      rewrite IH. symmetry. apply Permutation_middle.
Qed.

Lemma pickTips_permutation (random : nat -> nat) (topCategories : list string) :
  forall (i : nat) (table : list (string * list string)) (tips : list string),
  exists table',
    Permutation (Tips.pickTips random i topCategories table tips ++ allTipsOf table')
                (tips ++ allTipsOf table).
Proof.
  induction topCategories as [ | category rest IH]; intros i table tips;
    cbn [Tips.pickTips].
  - exists table. reflexivity.
  - destruct (Nat.ltb_spec 0 (length (Tips.arrayAt table (Tips.slotOf table category))))
      as [Hpos | Hzero].
    + destruct (IH (S i)
                  (Tips.spliceAt table (Tips.slotOf table category)
                     (random i mod length (Tips.arrayAt table (Tips.slotOf table category))))
                  (tips ++ [nth (random i mod length (Tips.arrayAt table (Tips.slotOf table category)))
                              (Tips.arrayAt table (Tips.slotOf table category)) ""%string]))
        as [table' Hperm].
      exists table'. rewrite Hperm, <- app_assoc. cbn [app].
      apply Permutation_app_head. symmetry. apply spliceAt_permutation.
      apply Nat.mod_upper_bound. lia.
    + apply IH.
Qed.

Lemma tips_all_distinct :
  NoDup (allTipsOf Tips.tipsByCategory ++ Tips.generalTips).
Proof. apply (bool_decide_unpack _). vm_compute. exact I. Qed.

Lemma padded_three (l : list string) :
  NoDup l -> (forall x, x ∈ l -> x ∉ Tips.generalTips) ->
  length (take 3 (Tips.padTips 3 l)) = 3%nat /\ NoDup (take 3 (Tips.padTips 3 l)).
Proof.
  intros Hnd Hdisj.
  assert (Hg : NoDup Tips.generalTips).
  { pose proof tips_all_distinct as H. apply NoDup_app in H. tauto. }
  destruct l as [ | a [ | b [ | c rest]]]; cbn.
  - split; [ reflexivity | ].
    apply (sublist_NoDup _ Tips.generalTips); [ exact Hg | apply (sublist_take Tips.generalTips 3) ].
  - split; [ reflexivity | ].
    pose proof (Hdisj a ltac:(left)) as Ha.
    apply NoDup_cons. split.
    + intros Hin. apply Ha. unfold Tips.generalTips.
      apply elem_of_cons in Hin as [-> | Hin]; [ set_solver | ].
      apply elem_of_cons in Hin as [-> | Hin]; [ set_solver | ].
      inversion Hin.
    + apply (sublist_NoDup _ Tips.generalTips); [ exact Hg | ].
      unfold Tips.generalTips. apply sublist_cons. do 2 apply sublist_skip.
      apply sublist_nil_l.
  - split; [ reflexivity | ].
    pose proof (Hdisj a ltac:(left)) as Ha.
    pose proof (Hdisj b ltac:(right; left)) as Hb.
    apply NoDup_cons_1_1 in Hnd as Hab.
    repeat (apply NoDup_cons; split); try apply NoDup_nil_2.
    + intros Hin. apply elem_of_cons in Hin as [-> | Hin]; [ apply Hab; left | ].
      apply elem_of_cons in Hin as [-> | Hin]; [ | inversion Hin ].
      apply Ha. unfold Tips.generalTips. set_solver.
    + intros Hin. apply elem_of_cons in Hin as [-> | Hin]; [ | inversion Hin ].
      apply Hb. unfold Tips.generalTips. set_solver.
    + intros Hin. inversion Hin.
  - split; [ reflexivity | ].
    apply (sublist_NoDup _ (a :: b :: c :: rest));
      [ exact Hnd | apply (sublist_take (a :: b :: c :: rest) 3) ].
Qed.

(** X13: the fallback always yields exactly three tips, and no tip twice,
    whatever the categories (none, repeated, unknown, more than three; names
    inherited from [Object.prototype] apart) and whatever the random draws. *)
Theorem fallbackSavingsTips_three_distinct (random : nat -> nat)
    (topCategories : list string) :
  Forall plainKey topCategories ->
  length (Tips.fallbackSavingsTips random topCategories) = 3%nat /\
  NoDup (Tips.fallbackSavingsTips random topCategories).
Proof.
  intros _. unfold Tips.fallbackSavingsTips.
  destruct (pickTips_permutation random topCategories 0 Tips.tipsByCategory [])
    as [table' Hperm].
  cbn [app] in Hperm.
  pose proof tips_all_distinct as Hall. apply NoDup_app in Hall as (Hnd & Hdisj & _).
  rewrite <- Hperm in Hnd.
  apply padded_three.
  - apply NoDup_app in Hnd. tauto.
  - intros x Hx. apply Hdisj. rewrite <- Hperm. apply elem_of_app. left. exact Hx.
Qed.

(** ** Weeks that follow one another *)

Lemma total_app (l1 l2 : list Z) : total (l1 ++ l2) = total l1 + total l2.
Proof. unfold total. induction l1 as [ | x l1 IH]; cbn; [ reflexivity | ]. rewrite IH. lia. Qed.

Lemma total_rev (l : list Z) : total (rev l) = total l.
Proof.
  induction l as [ | x l IH]; [ reflexivity | ].
  cbn [rev]. rewrite total_app, IH. unfold total. cbn. lia.
Qed.

(** Splitting a span of dates in two splits the sum. *)
Lemma total_within_split {A} (date amount : A -> Z) (l : list A) (lo mid hi : Z) :
  lo <= mid + 1 -> mid <= hi ->
  total (List.map amount (List.filter (fun x => Savings.within lo hi (date x)) l)) =
  total (List.map amount (List.filter (fun x => Savings.within lo mid (date x)) l)) +
  total (List.map amount (List.filter (fun x => Savings.within (mid + 1) hi (date x)) l)).
Proof.
  intros Hlo Hhi. induction l as [ | x l IH]; [ reflexivity | ].
  cbn [List.filter]. unfold Savings.within in *.
  destruct (Z.leb_spec lo (date x)); destruct (Z.leb_spec (date x) hi);
  destruct (Z.leb_spec (date x) mid); destruct (Z.leb_spec (mid + 1) (date x));
    cbn [andb List.map]; try lia; unfold total in *; cbn [fold_right]; lia.
Qed.

Lemma savedAmounts_split (savings : list Saving) (lo mid hi : Z) :
  lo <= mid + 1 -> mid <= hi ->
  total (savedAmounts lo hi savings) =
  total (savedAmounts lo mid savings) + total (savedAmounts (mid + 1) hi savings).
Proof. apply (total_within_split saving_date saving_amount). Qed.

(** X14: the six weeks of the history follow one another without gap or
    overlap, seven days each, so the savings of the whole span are counted
    once each: the actuals of the six records add up to the sum of the
    savings dated from the first Monday to the last Sunday. *)
Theorem weekly_history_counts_once (zone now : Z) (expenses : list Expense)
    (savings : list Saving) :
  let week := 7 * DateFns.msPerDay in
  let first := DateFns.startOfWeek zone (DateFns.subWeeks now 5) in
  let records :=
    Savings.generateWeeklyTargets zone now (Some expenses) (Some savings) in
  List.map (fun r => (Savings.weekStart r, Savings.weekEnd r)) records =
    [ (first, first + week - 1);
      (first + week, first + 2 * week - 1);
      (first + 2 * week, first + 3 * week - 1);
      (first + 3 * week, first + 4 * week - 1);
      (first + 4 * week, first + 5 * week - 1);
      (first + 5 * week, first + 6 * week - 1) ] /\
  first + 5 * week <= now <= first + 6 * week - 1 /\
  total (List.map Savings.actual records) =
    total (savedAmounts first (first + 6 * week - 1) savings).
Proof.
  cbv zeta.
  set (W := 7 * DateFns.msPerDay).
  set (lo := fun i => DateFns.startOfWeek zone (DateFns.subWeeks now i)).
  assert (Hhi : forall i, DateFns.endOfWeek zone (DateFns.subWeeks now i) = lo i + W - 1).
  { intros i. apply (startOfWeek_monday zone (DateFns.subWeeks now i)). }
  assert (Hstep : forall i, lo i = lo (i + 1) + W).
  { intros i. unfold lo. rewrite startOfWeek_subWeeks. fold W. lia. }
  assert (H4 : lo 4 = lo 5 + W) by apply (Hstep 4).
  assert (H3 : lo 3 = lo 5 + 2 * W) by (rewrite (Hstep 3); change (3 + 1) with 4; lia).
  assert (H2 : lo 2 = lo 5 + 3 * W) by (rewrite (Hstep 2); change (2 + 1) with 3; lia).
  assert (H1 : lo 1 = lo 5 + 4 * W) by (rewrite (Hstep 1); change (1 + 1) with 2; lia).
  assert (H0 : lo 0 = lo 5 + 5 * W) by (rewrite (Hstep 0); change (0 + 1) with 1; lia).
  assert (Hnow : DateFns.subWeeks now 0 = now)
    by (unfold DateFns.subWeeks, DateFns.addDays; lia).
  unfold Savings.generateWeeklyTargets.
  rewrite weeksLoop_unrolled. cbn [List.map rev app].
  rewrite !weekRecord_spec. cbn [Savings.weekStart Savings.weekEnd Savings.actual].
  rewrite !Hhi. fold (lo 5) (lo 4) (lo 3) (lo 2) (lo 1) (lo 0).
  rewrite H4, H3, H2, H1, H0.
  assert (HW : 0 < W) by (unfold W, DateFns.msPerDay; lia).
  split; [ | split ].
  - repeat (apply f_equal2; [ apply f_equal2; lia | ]). reflexivity.
  - pose proof (startOfWeek_monday zone (DateFns.subWeeks now 0)) as (_ & _ & Hin & _).
    rewrite Hhi in Hin.
    change (DateFns.startOfWeek zone (DateFns.subWeeks now 0)) with (lo 0) in Hin.
    rewrite Hnow, H0 in Hin. lia.
  - assert (Hsum : forall a b c d e f : Z, total [a; b; c; d; e; f] = a + b + c + d + e + f)
      by (intros; unfold total; cbn; lia).
    rewrite Hsum.
    replace (lo 5 + 6 * W - 1) with (lo 5 + 5 * W + W - 1) by lia.
    rewrite (savedAmounts_split savings (lo 5) (lo 5 + W - 1) (lo 5 + 5 * W + W - 1)) by lia.
    rewrite (savedAmounts_split savings (lo 5 + W - 1 + 1) (lo 5 + 2 * W - 1)
               (lo 5 + 5 * W + W - 1)) by lia.
    rewrite (savedAmounts_split savings (lo 5 + 2 * W - 1 + 1) (lo 5 + 3 * W - 1)
               (lo 5 + 5 * W + W - 1)) by lia.
    rewrite (savedAmounts_split savings (lo 5 + 3 * W - 1 + 1) (lo 5 + 4 * W - 1)
               (lo 5 + 5 * W + W - 1)) by lia.
    rewrite (savedAmounts_split savings (lo 5 + 4 * W - 1 + 1) (lo 5 + 5 * W - 1)
               (lo 5 + 5 * W + W - 1)) by lia.
    replace (lo 5 + W - 1 + 1) with (lo 5 + W) by lia.
    replace (lo 5 + 2 * W - 1 + 1) with (lo 5 + 2 * W) by lia.
    replace (lo 5 + 3 * W - 1 + 1) with (lo 5 + 3 * W) by lia.
    replace (lo 5 + 4 * W - 1 + 1) with (lo 5 + 4 * W) by lia.
    replace (lo 5 + 5 * W - 1 + 1) with (lo 5 + 5 * W) by lia.
    replace (lo 5 + W + W - 1) with (lo 5 + 2 * W - 1) by lia.
    replace (lo 5 + 2 * W + W - 1) with (lo 5 + 3 * W - 1) by lia.
    replace (lo 5 + 3 * W + W - 1) with (lo 5 + 4 * W - 1) by lia.
    replace (lo 5 + 4 * W + W - 1) with (lo 5 + 5 * W - 1) by lia.
    lia.
Qed.

(** ** Expenses by week *)

Lemma bucketsLoop_closed (zone today : Z) (expenses : list Expense) (numWeeks : Z)
    (rounds : nat) :
  forall (i : Z) (result : list ExpenseUtils.WeekBucket),
  ExpenseUtils.bucketsLoop rounds zone today expenses numWeeks i result =
    result ++ List.map (fun k => ExpenseUtils.weekBucket zone today expenses numWeeks
                                   (i + Z.of_nat k)) (seq 0 rounds).
Proof.
  induction rounds as [ | rounds IH]; intros i result; cbn [ExpenseUtils.bucketsLoop].
  - cbn. rewrite app_nil_r. reflexivity.
  - rewrite IH, <- app_assoc. f_equal. cbn [seq List.map app].
    rewrite Z.add_0_r. f_equal. rewrite <- seq_shift, List.map_map.
    apply List.map_ext. intros k. f_equal. lia.
Qed.

Lemma weekBucket_spec (zone today : Z) (expenses : list Expense) (numWeeks i : Z) :
  let sunday := DateFns.startOfDay zone
                  (DateFns.addDays today (- DateFns.getDay zone today)) in
  let week := 7 * DateFns.msPerDay in
  ExpenseUtils.weekBucket zone today expenses numWeeks i =
    {| ExpenseUtils.weekNumber := numWeeks - i;
       ExpenseUtils.startDate := sunday - i * week;
       ExpenseUtils.endDate := sunday - i * week + week - 1;
       ExpenseUtils.amount :=
         total (List.map expense_amount
                  (List.filter (fun e => Savings.within (sunday - i * week)
                                           (sunday - i * week + week - 1)
                                           (expense_date e)) expenses)) |}.
Proof.
  cbv zeta. unfold ExpenseUtils.weekBucket.
  assert (Hstart : DateFns.startOfDay zone
                     (DateFns.addDays today (- (i * 7) - DateFns.getDay zone today))
                   = DateFns.startOfDay zone
                       (DateFns.addDays today (- DateFns.getDay zone today))
                     - i * (7 * DateFns.msPerDay)).
  { unfold DateFns.startOfDay, DateFns.addDays, DateFns.msPerDay.
    generalize (DateFns.getDay zone today). intros d.
    Z.div_mod_to_equations. lia. }
  rewrite Hstart.
  set (start := DateFns.startOfDay zone _ - i * (7 * DateFns.msPerDay)).
  assert (Hend : DateFns.endOfDay zone (DateFns.addDays start 6)
                 = start + 7 * DateFns.msPerDay - 1).
  { subst start. unfold DateFns.endOfDay, DateFns.startOfDay, DateFns.addDays,
      DateFns.msPerDay.
    generalize (DateFns.getDay zone today). intros d.
    Z.div_mod_to_equations. lia. }
  rewrite Hend, sumExpenses_total. reflexivity.
Qed.

Lemma total_within_empty {A} (date amount : A -> Z) (l : list A) (lo hi : Z) :
  hi < lo ->
  total (List.map amount (List.filter (fun x => Savings.within lo hi (date x)) l)) = 0.
Proof.
  intros Hlt. induction l as [ | x l IH]; [ reflexivity | ].
  cbn [List.filter]. unfold Savings.within in *.
  destruct (Z.leb_spec lo (date x)); destruct (Z.leb_spec (date x) hi);
    cbn [andb]; try exact IH. lia.
Qed.

Lemma total_rev_map {A} (f : A -> Z) (l : list A) :
  total (List.map f (rev l)) = total (List.map f l).
Proof. rewrite List.map_rev. apply total_rev. Qed.

Lemma buckets_total (zone today : Z) (expenses : list Expense) (numWeeks : Z) (n : nat) :
  let sunday := DateFns.startOfDay zone
                  (DateFns.addDays today (- DateFns.getDay zone today)) in
  let week := 7 * DateFns.msPerDay in
  total (List.map ExpenseUtils.amount
           (List.map (fun k => ExpenseUtils.weekBucket zone today expenses numWeeks
                                 (0 + Z.of_nat k)) (seq 0 n))) =
  total (List.map expense_amount
           (List.filter (fun e => Savings.within (sunday - (Z.of_nat n - 1) * week)
                                    (sunday + week - 1) (expense_date e)) expenses)).
Proof.
  cbv zeta.
  set (sunday := DateFns.startOfDay zone _). set (W := 7 * DateFns.msPerDay).
  assert (HW : 0 < W) by (unfold W, DateFns.msPerDay; lia).
  induction n as [ | n IH].
  - cbn [seq List.map]. symmetry.
    apply (total_within_empty expense_date expense_amount). cbn. lia.
  - rewrite seq_S, !List.map_app, total_app, IH. cbn [List.map].
    rewrite weekBucket_spec. cbn [ExpenseUtils.amount]. fold sunday W.
    unfold total at 2. cbn [fold_right]. rewrite Z.add_0_r.
    rewrite (total_within_split expense_date expense_amount expenses
               (sunday - (Z.of_nat (S n) - 1) * W)
               (sunday - (Z.of_nat (S n) - 1) * W + W - 1)
               (sunday + W - 1)) by lia.
    replace (0 + Z.of_nat (0 + n)) with (Z.of_nat (S n) - 1) by lia.
    replace (sunday - (Z.of_nat (S n) - 1) * W + W - 1 + 1)
      with (sunday - (Z.of_nat n - 1) * W) by lia.
    lia.
Qed.

(** X15: the weekly chart groups expenses into [numWeeks] Sunday-to-Saturday
    weeks that follow one another without gap or overlap and end with the week
    of today; they come oldest first and numbered 1 to [numWeeks], each with
    the total of the expenses dated in it, so the bucket amounts add up to the
    total of the expenses dated in the whole span. *)
Theorem groupExpensesByWeek_partition (zone today : Z) (expenses : list Expense)
    (numWeeks : nat) :
  let sunday := DateFns.startOfDay zone
                  (DateFns.addDays today (- DateFns.getDay zone today)) in
  let week := 7 * DateFns.msPerDay in
  let first := sunday - (Z.of_nat numWeeks - 1) * week in
  let buckets := ExpenseUtils.groupExpensesByWeek zone today expenses numWeeks in
  length buckets = numWeeks /\
  (forall k, (k < numWeeks)%nat ->
     nth_error buckets k =
       Some {| ExpenseUtils.weekNumber := Z.of_nat k + 1;
               ExpenseUtils.startDate := first + Z.of_nat k * week;
               ExpenseUtils.endDate := first + (Z.of_nat k + 1) * week - 1;
               ExpenseUtils.amount :=
                 total (List.map expense_amount
                          (List.filter
                             (fun e => Savings.within
                                         (first + Z.of_nat k * week)
                                         (first + (Z.of_nat k + 1) * week - 1)
                                         (expense_date e)) expenses)) |}) /\
  DateFns.getDay zone sunday = 0 /\
  sunday <= today <= sunday + week - 1 /\
  total (List.map ExpenseUtils.amount buckets) =
    total (List.map expense_amount
             (List.filter (fun e => Savings.within first (sunday + week - 1)
                                      (expense_date e)) expenses)).
Proof.
  cbv zeta. unfold ExpenseUtils.groupExpensesByWeek.
  rewrite bucketsLoop_closed. cbn [app].
  split; [ | split; [ | split; [ | split ] ] ].
  - rewrite length_rev, length_map, length_seq. reflexivity.
  - intros k Hk.
    rewrite nth_error_rev, length_map, length_seq.
    destruct (Nat.ltb_spec k numWeeks) as [_ | ]; [ | lia ].
    rewrite nth_error_map, nth_error_seq.
    destruct (Nat.ltb_spec (numWeeks - S k) numWeeks) as [_ | ]; [ | lia ].
    cbn [option_map]. rewrite weekBucket_spec. f_equal.
    assert (Hi : 0 + Z.of_nat (0 + (numWeeks - S k)) = Z.of_nat numWeeks - 1 - Z.of_nat k)
      by lia.
    rewrite Hi.
    set (sunday := DateFns.startOfDay zone _). set (W := 7 * DateFns.msPerDay).
    replace (sunday - (Z.of_nat numWeeks - 1 - Z.of_nat k) * W)
      with (sunday - (Z.of_nat numWeeks - 1) * W + Z.of_nat k * W) by lia.
    replace (sunday - (Z.of_nat numWeeks - 1) * W + Z.of_nat k * W + W - 1)
      with (sunday - (Z.of_nat numWeeks - 1) * W + (Z.of_nat k + 1) * W - 1) by lia.
    f_equal. lia.
  - unfold DateFns.getDay, DateFns.startOfDay, DateFns.addDays, DateFns.msPerDay.
    Z.div_mod_to_equations. lia.
  - unfold DateFns.getDay, DateFns.startOfDay, DateFns.addDays, DateFns.msPerDay.
    Z.div_mod_to_equations. lia.
  - rewrite total_rev_map. apply buckets_total.
Qed.

Example groupExpensesByWeek_sample :
  List.map (fun b => (ExpenseUtils.weekNumber b, ExpenseUtils.amount b))
    (ExpenseUtils.groupExpensesByWeek Sample.ist 1700000000000
       [Sample.movie; Sample.gadget; Sample.rent] 4)
  = [ (1, 0); (2, 0); (3, 1500000); (4, 30000) ].
Proof. vm_compute. reflexivity. Qed.

Lemma fallbackSavingsTips_three_distinct_witness :
  length (Tips.fallbackSavingsTips (fun i => (7 * i + 2)%nat)
            ["shopping"; "crypto"; "shopping"; "pets"]%string) = 3%nat.
Proof.
  apply (fallbackSavingsTips_three_distinct (fun i => (7 * i + 2)%nat)
           ["shopping"; "crypto"; "shopping"; "pets"]%string).
  repeat constructor; unfold plainKey; cbn; intuition discriminate.
Defined.

Example fallbackSavingsTips_sample :
  Tips.fallbackSavingsTips (fun _ => 1%nat) ["pets"; "crypto"; "other"]%string
  = ["Use budgeting apps to track spending and set limits";
     "Consider if purchases are wants or needs before spending";
     "Review your expenses regularly to identify areas to cut back"]%string.
Proof. vm_compute. reflexivity. Qed.

(** ** Groups of a breakdown *)

Lemma addTo_keys (acc : list (string * Z)) (k : string) (a : Z) :
  List.map fst (Report.addTo acc k a) =
    if existsb (fun kv => String.eqb (fst kv) k) acc
    then List.map fst acc else List.map fst acc ++ [k].
Proof.
  induction acc as [ | [k' v] acc IH]; cbn; [ reflexivity | ].
  destruct (String.eqb k' k); cbn; [ reflexivity | ].
  rewrite IH. destruct (existsb _ acc); reflexivity.
Qed.

Lemma addTo_sum_for (acc : list (string * Z)) (k k' : string) (a : Z) :
  total (List.map snd (List.filter (fun kv => String.eqb (fst kv) k') (Report.addTo acc k a))) =
  total (List.map snd (List.filter (fun kv => String.eqb (fst kv) k') acc)) +
  (if String.eqb k k' then a else 0).
Proof.
  induction acc as [ | [k0 v] acc IH]; cbn [Report.addTo].
  - cbn. destruct (String.eqb k k'); unfold total; cbn; lia.
  - destruct (String.eqb_spec k0 k) as [-> | Hne].
    + cbn [List.filter fst]. destruct (String.eqb k k'); cbn; unfold total; cbn; lia.
    + cbn [List.filter fst]. destruct (String.eqb k0 k') eqn:E.
      * cbn [List.map snd]. unfold total in *. cbn [fold_right]. rewrite IH. lia.
      * exact IH.
Qed.

Lemma addTo_total (acc : list (string * Z)) (k : string) (a : Z) :
  total (List.map snd (Report.addTo acc k a)) = total (List.map snd acc) + a.
Proof.
  induction acc as [ | [k0 v] acc IH]; cbn [Report.addTo].
  - unfold total. cbn. lia.
  - destruct (String.eqb k0 k); cbn [List.map snd]; unfold total in *; cbn [fold_right];
      [ lia | rewrite IH; lia ].
Qed.

Lemma groupBy_snoc (keyOf : Expense -> string) (l : list Expense) (e : Expense) :
  Report.groupBy keyOf (l ++ [e]) =
    Report.addTo (Report.groupBy keyOf l) (keyOf e) (expense_amount e).
Proof. unfold Report.groupBy. rewrite fold_left_app. reflexivity. Qed.

Lemma existsb_key (acc : list (string * Z)) (k : string) :
  existsb (fun kv => String.eqb (fst kv) k) acc = true <-> In k (List.map fst acc).
Proof.
  rewrite existsb_exists, in_map_iff. split.
  - intros ([k' v] & Hin & Heq). apply String.eqb_eq in Heq. cbn in Heq. subst.
    exists (k, v). auto.
  - intros ([k' v] & Heq & Hin). cbn in Heq. subst. exists (k, v).
    split; [ exact Hin | apply String.eqb_refl ].
Qed.

Lemma groupBy_facts (keyOf : Expense -> string) (l : list Expense) :
  NoDup (List.map fst (Report.groupBy keyOf l)) /\
  (forall k, In k (List.map fst (Report.groupBy keyOf l)) <->
             exists e, In e l /\ keyOf e = k) /\
  (forall k,
     total (List.map snd (List.filter (fun kv => String.eqb (fst kv) k)
                            (Report.groupBy keyOf l))) =
     total (List.map expense_amount
              (List.filter (fun e => String.eqb (keyOf e) k) l))) /\
  total (List.map snd (Report.groupBy keyOf l)) = total (List.map expense_amount l).
Proof.
  induction l as [ | e l (Hnd & Hkeys & Hsum & Htot)] using rev_ind.
  - cbn. repeat split; try constructor.
    + intros [].
    + intros (e & [] & _).
  - rewrite groupBy_snoc. repeat split.
    + rewrite addTo_keys.
      destruct (existsb _ (Report.groupBy keyOf l)) eqn:E; [ exact Hnd | ].
      apply NoDup_app. split; [ exact Hnd | ]. split; [ | apply NoDup_singleton ].
      intros k Hk Hin. apply list_elem_of_singleton in Hin. subst.
      apply list_elem_of_In, existsb_key in Hk. congruence.
    + rewrite addTo_keys. intros Hin.
      destruct (existsb _ (Report.groupBy keyOf l)) eqn:E.
      * apply Hkeys in Hin as (e' & He' & Hk). exists e'. split; [ | exact Hk ].
        apply in_or_app. auto.
      * apply in_app_or in Hin as [Hin | [<- | []]].
        -- apply Hkeys in Hin as (e' & He' & Hk). exists e'. split; [ | exact Hk ].
           apply in_or_app. auto.
        -- exists e. split; [ apply in_or_app; right; left | ]; reflexivity.
    + intros (e' & Hin & Hk). rewrite addTo_keys.
      apply in_app_or in Hin as [Hin | [<- | []]].
      * assert (In k (List.map fst (Report.groupBy keyOf l)))
          by (apply Hkeys; eauto).
        destruct (existsb _ _); [ assumption | apply in_or_app; auto ].
      * subst k. destruct (existsb _ (Report.groupBy keyOf l)) eqn:E.
        -- apply existsb_key. exact E.
        -- apply in_or_app. right. left. reflexivity.
    + intros k. rewrite addTo_sum_for, Hsum, List.filter_app, List.map_app, total_app.
      cbn [List.filter]. destruct (String.eqb (keyOf e) k); unfold total; cbn; lia.
    + rewrite addTo_total, Htot, List.map_app, total_app. unfold total. cbn. lia.
Qed.

Lemma insertDesc_permutation (g : Report.Group) (l : list Report.Group) :
  Permutation (Report.insertDesc g l) (g :: l).
Proof.
  induction l as [ | h t IH]; cbn; [ reflexivity | ].
  destruct (Report.amount h <=? Report.amount g); [ reflexivity | ].
  rewrite IH. apply perm_swap.
Qed.

Lemma sortDesc_permutation (l : list Report.Group) :
  Permutation (Report.sortDesc l) l.
Proof.
  unfold Report.sortDesc. induction l as [ | g l IH]; cbn; [ reflexivity | ].
  rewrite insertDesc_permutation. constructor. exact IH.
Qed.

Lemma total_permutation (l1 l2 : list Z) :
  Permutation l1 l2 -> total l1 = total l2.
Proof.
  induction 1; unfold total in *; cbn; lia.
Qed.

Lemma filter_absent_key (acc : list (string * Z)) (k : string) :
  ~ In k (List.map fst acc) ->
  List.filter (fun kv => String.eqb (fst kv) k) acc = [].
Proof.
  induction acc as [ | [k0 v0] acc IH]; intros Hnot; [ reflexivity | ].
  cbn. destruct (String.eqb_spec k0 k) as [-> | Hne].
  - exfalso. apply Hnot. left. reflexivity.
  - apply IH. intros H. apply Hnot. right. exact H.
Qed.

Lemma nodup_key_value (acc : list (string * Z)) (k : string) (v : Z) :
  NoDup (List.map fst acc) -> In (k, v) acc ->
  total (List.map snd (List.filter (fun kv => String.eqb (fst kv) k) acc)) = v.
Proof.
  induction acc as [ | [k0 v0] acc IH]; intros Hnd Hin; [ destruct Hin | ].
  cbn [List.map fst] in Hnd. apply NoDup_cons in Hnd as [Hnot Hnd].
  rewrite list_elem_of_In in Hnot.
  cbn [List.filter fst].
  destruct Hin as [[= -> ->] | Hin].
  - rewrite String.eqb_refl. cbn [List.map snd].
    rewrite (filter_absent_key acc k Hnot). unfold total. cbn. lia.
  - destruct (String.eqb_spec k0 k) as [-> | Hne].
    + exfalso. apply Hnot. apply in_map_iff. exists (k, v). auto.
    + apply IH; assumption.
Qed.

(** X16: a breakdown has one group per key that occurs among the expenses and
    no key twice; the amount of a group is the sum of the amounts of the
    expenses with its key, and the amounts of the groups add up to the total
    of the expenses: every expense is counted in exactly one group. *)
Theorem breakdown_counts_each_expense_once (keyOf : Expense -> string)
    (monthExpenses : list Expense) :
  Forall (fun e => plainKey (keyOf e)) monthExpenses ->
  let groups := Report.breakdown keyOf monthExpenses in
  NoDup (List.map Report.key groups) /\
  (forall k, In k (List.map Report.key groups) <->
             exists e, In e monthExpenses /\ keyOf e = k) /\
  (forall g, In g groups ->
     Report.amount g =
       total (List.map expense_amount
                (List.filter (fun e => String.eqb (keyOf e) (Report.key g))
                   monthExpenses))) /\
  total (List.map Report.amount groups) = Savings.sumExpenses monthExpenses.
Proof.
  intros _. cbv zeta. unfold Report.breakdown.
  set (mk := fun '(k, a) => {| Report.key := k; Report.amount := a;
                               Report.percentage :=
                                 Report.percentOf a (Savings.sumExpenses monthExpenses) |}).
  destruct (groupBy_facts keyOf monthExpenses) as (Hnd & Hkeys & Hsum & Htot).
  pose proof (sortDesc_permutation (List.map mk (Report.groupBy keyOf monthExpenses)))
    as Hperm.
  assert (Hk : List.map Report.key (List.map mk (Report.groupBy keyOf monthExpenses))
               = List.map fst (Report.groupBy keyOf monthExpenses)).
  { rewrite List.map_map. apply List.map_ext. intros [k a]. reflexivity. }
  assert (Ha : List.map Report.amount (List.map mk (Report.groupBy keyOf monthExpenses))
               = List.map snd (Report.groupBy keyOf monthExpenses)).
  { rewrite List.map_map. apply List.map_ext. intros [k a]. reflexivity. }
  split; [ | split; [ | split ] ].
  - rewrite (Permutation_map Report.key Hperm), Hk. exact Hnd.
  - intros k. rewrite <- Hkeys, <- Hk.
    split; apply Permutation_in; [ | symmetry ]; apply Permutation_map; exact Hperm.
  - intros g Hg. apply (Permutation_in _ Hperm) in Hg.
    apply in_map_iff in Hg as ([k a] & <- & Hin). cbn [mk Report.amount Report.key].
    rewrite <- Hsum. symmetry. apply nodup_key_value; assumption.
  - rewrite (total_permutation _ _ (Permutation_map Report.amount Hperm)), Ha, Htot.
    symmetry. apply sumExpenses_total.
Qed.

Lemma breakdown_counts_each_expense_once_witness :
  total (List.map Report.amount
           (Report.categoryBreakdown [Sample.movie; Sample.gadget; Sample.rent]))
  = 1530000.
Proof.
  destruct (breakdown_counts_each_expense_once expense_category
              [Sample.movie; Sample.gadget; Sample.rent]) as (_ & _ & _ & Htotal).
  - repeat constructor; unfold plainKey; cbn; intuition discriminate.
  - exact Htotal.
Defined.

(** ** Expenses by date *)

Lemma insertByDate_permutation (e : Expense) (l : list Expense) :
  Permutation (Expenses.insertByDate e l) (e :: l).
Proof.
  induction l as [ | h t IH]; cbn; [ reflexivity | ].
  destruct (expense_date h <=? expense_date e); [ reflexivity | ].
  rewrite IH. apply perm_swap.
Qed.

Lemma sortByDateDesc_permutation (l : list Expense) :
  Permutation (Expenses.sortByDateDesc l) l.
Proof.
  unfold Expenses.sortByDateDesc. induction l as [ | e l IH]; cbn; [ reflexivity | ].
  rewrite insertByDate_permutation. constructor. exact IH.
Qed.

Lemma insertByDate_sorted (e : Expense) (l : list Expense) :
  StronglySorted (fun a b => expense_date b <= expense_date a) l ->
  StronglySorted (fun a b => expense_date b <= expense_date a)
    (Expenses.insertByDate e l).
Proof.
  induction 1 as [ | h t Hsorted IH Hall]; cbn.
  - repeat constructor.
  - destruct (Z.leb_spec (expense_date h) (expense_date e)) as [Hle | Hgt].
    + constructor; [ constructor; assumption | ].
      constructor; [ exact Hle | ].
      rewrite List.Forall_forall in Hall |- *. intros b Hb.
      specialize (Hall b Hb). cbn in Hall. lia.
    + constructor; [ exact IH | ].
      rewrite List.Forall_forall in Hall |- *. intros b Hb.
      apply (Permutation_in _ (insertByDate_permutation e t)) in Hb.
      destruct Hb as [<- | Hb]; [ lia | apply Hall; exact Hb ].
Qed.

Lemma sortByDateDesc_sorted (l : list Expense) :
  StronglySorted (fun a b => expense_date b <= expense_date a)
    (Expenses.sortByDateDesc l).
Proof.
  unfold Expenses.sortByDateDesc. induction l as [ | e l IH]; cbn.
  - constructor.
  - apply insertByDate_sorted. exact IH.
Qed.

(** X17: the expenses of a date range are exactly the rows of the user dated
    from the start to the end of the range, both ends included, each once,
    and they come latest first. *)
Theorem getExpensesByDateRange_exact (userId startDate endDate : Z)
    (t : Expenses.Table) :
  let result := Expenses.getExpensesByDateRange userId startDate endDate t in
  (forall e, In e result <->
     In e (Expenses.rows t) /\ expense_userId e = userId /\
     startDate <= expense_date e <= endDate) /\
  Permutation result
    (List.filter (fun e => (expense_userId e =? userId) &&
                           (startDate <=? expense_date e) &&
                           (expense_date e <=? endDate)) (Expenses.rows t)) /\
  StronglySorted (fun a b => expense_date b <= expense_date a) result.
Proof.
  cbv zeta. unfold Expenses.getExpensesByDateRange.
  split; [ | split ].
  - intros e. split.
    + intros Hin. apply (Permutation_in _ (sortByDateDesc_permutation _)) in Hin.
      apply List.filter_In in Hin as [Hrow Hcond].
      apply andb_true_iff in Hcond as [Hcond Hend].
      apply andb_true_iff in Hcond as [Huser Hstart].
      apply Z.eqb_eq in Huser. apply Z.leb_le in Hstart, Hend. auto.
    + intros (Hrow & Huser & Hstart & Hend).
      apply (Permutation_in _ (Permutation_sym (sortByDateDesc_permutation _))).
      apply List.filter_In. split; [ exact Hrow | ].
      rewrite !andb_true_iff, Z.eqb_eq, !Z.leb_le. auto.
  - apply sortByDateDesc_permutation.
  - apply sortByDateDesc_sorted.
Qed.

(** ** Posting an expense *)

Lemma valid_category_truthy (c : string) :
  In c AiCategory.validCategories -> Expenses.truthyString (Some c) = true.
Proof.
  intros Hin. cbn. apply negb_true_iff, String.eqb_neq. intros ->.
  cbn in Hin. repeat (destruct Hin as [Hin | Hin]; [ discriminate | ]). exact Hin.
Qed.

Lemma valid_status_parses (st : string) :
  In st Ai.validStatuses -> exists tier, Expenses.statusOfString st = Some tier.
Proof.
  intros [<- | [<- | [<- | []]]]; cbn; eauto.
Qed.

(** X18: an expense posted with a name, a non-zero amount, a date and a payment
    mode but without category and status is always accepted, whatever the
    external model answers or fails to answer: the category stored is one of
    the fifteen labels and the status one of the three tiers.  With an amount
    of 0 the status is not filled in and the request is rejected, the store
    left as it was. *)
Theorem postExpense_autofill (categoryAnswer statusAnswer : option string)
    (zone now : Z) (user : User) (st : Storage.t * Expenses.Table)
    (n : string) (a d : Z) (pm : string) :
  n <> ""%string ->
  -2147483648 <= a <= 2147483647 ->
  In pm Expenses.paymentModes ->
  let body :=
    {| Expenses.eb_name := Some n; Expenses.eb_amount := Some a;
       Expenses.eb_date := Some d; Expenses.eb_status := None;
       Expenses.eb_category := None; Expenses.eb_paymentMode := Some pm |} in
  let answer := Expenses.postExpense categoryAnswer statusAnswer zone now user body st in
  (a <> 0 ->
   exists e awarded,
     snd answer = Expenses.ExpenseCreated e awarded /\
     expense_name e = n /\ expense_amount e = a /\ expense_date e = d /\
     expense_userId e = user_id user /\
     expense_category e = AiCategory.categorizeExpense categoryAnswer n /\
     In (expense_category e) AiCategory.validCategories /\
     Report.statusName (expense_status e) =
       Ai.determineExpenseStatus statusAnswer (expense_category e) a /\
     Expenses.rows (snd (fst answer)) = Expenses.rows (snd st) ++ [e]) /\
  (a = 0 -> answer = (st, Expenses.ExpenseRejected)).
Proof.
  intros Hname Hrange Hpm. cbv zeta. destruct st as [s t].
  assert (Hn : Expenses.truthyString (Some n) = true)
    by (cbn; apply negb_true_iff, String.eqb_neq; exact Hname).
  pose proof (categorizeExpense_valid categoryAnswer n) as Hcat.
  pose proof (valid_category_truthy _ Hcat) as Hc.
  apply includes_In in Hpm.
  split.
  - intros Hnz.
    assert (Ha : Expenses.truthyNumber (Some a) = true)
      by (cbn; apply negb_true_iff, Z.eqb_neq; exact Hnz).
    pose proof (determineExpenseStatus_valid statusAnswer
                  (AiCategory.categorizeExpense categoryAnswer n) a) as Hst.
    destruct (valid_status_parses _ Hst) as [tier Htier].
    unfold Expenses.postExpense, Expenses.autofill.
    cbn [Expenses.eb_name Expenses.eb_amount Expenses.eb_date Expenses.eb_status
         Expenses.eb_category Expenses.eb_paymentMode from_option id].
    change (Expenses.truthyString None) with false. cbn [negb andb].
    rewrite Hn. cbn [andb from_option id]. rewrite Hc, Ha. cbn [andb from_option id].
    unfold Expenses.parseInsertExpense.
    cbn [Expenses.eb_name Expenses.eb_amount Expenses.eb_date Expenses.eb_status
         Expenses.eb_category Expenses.eb_paymentMode].
    rewrite Htier, Hpm.
    destruct (Z.leb_spec (-2147483648) a); [ | lia ].
    destruct (Z.leb_spec a 2147483647); [ | lia ]. cbn [andb].
    assert (Hname' : Report.statusName tier =
                     Ai.determineExpenseStatus statusAnswer
                       (AiCategory.categorizeExpense categoryAnswer n) a).
    { unfold Expenses.statusOfString in Htier.
      destruct (String.eqb_spec (Ai.determineExpenseStatus statusAnswer
                  (AiCategory.categorizeExpense categoryAnswer n) a) "necessary")
        as [-> | ]; [ injection Htier as <-; reflexivity | ].
      destruct (String.eqb_spec (Ai.determineExpenseStatus statusAnswer
                  (AiCategory.categorizeExpense categoryAnswer n) a) "avoidable")
        as [-> | ]; [ injection Htier as <-; reflexivity | ].
      destruct (String.eqb_spec (Ai.determineExpenseStatus statusAnswer
                  (AiCategory.categorizeExpense categoryAnswer n) a) "unnecessary")
        as [-> | ]; [ injection Htier as <-; reflexivity | discriminate ]. }
    match goal with
    | |- context [if ?b then _ else _] => destruct b
    end; cbn [fst snd Expenses.rows];
      eexists; eexists; (split; [ reflexivity | ]); cbn; auto 10.
  - intros ->.
    unfold Expenses.postExpense, Expenses.autofill.
    cbn [Expenses.eb_name Expenses.eb_amount Expenses.eb_date Expenses.eb_status
         Expenses.eb_category Expenses.eb_paymentMode from_option id].
    change (Expenses.truthyString None) with false. cbn [negb andb].
    rewrite Hn. cbn [andb from_option id]. rewrite Hc.
    change (Expenses.truthyNumber (Some 0)) with false. cbn [andb].
    reflexivity.
Qed.

Lemma postExpense_autofill_witness :
  exists e awarded,
    snd (Expenses.postExpense None (Some "maybe"%string) Sample.ist 1700000000000
           Sample.alice
           {| Expenses.eb_name := Some "Movie Tickets"%string;
              Expenses.eb_amount := Some 50000;
              Expenses.eb_date := Some 1699990000000; Expenses.eb_status := None;
              Expenses.eb_category := None;
              Expenses.eb_paymentMode := Some "upi"%string |}
           (Sample.store, Expenses.mkTable [] 1))
    = Expenses.ExpenseCreated e awarded /\
    expense_category e = "entertainment"%string /\
    expense_status e = avoidable.
Proof.
  destruct (postExpense_autofill None (Some "maybe"%string) Sample.ist 1700000000000
              Sample.alice (Sample.store, Expenses.mkTable [] 1)
              "Movie Tickets"%string 50000 1699990000000 "upi"%string)
    as [Hcreated _].
  - discriminate.
  - lia.
  - cbn. auto.
  - destruct Hcreated as (e & awarded & Hanswer & _ & _ & _ & _ & Hcat & _ & Hstatus & _);
      [ discriminate | ].
    exists e, awarded. split; [ exact Hanswer | ]. split; [ exact Hcat | ].
    rewrite Hcat in Hstatus. destruct (expense_status e); [ discriminate | reflexivity | discriminate ].
Defined.

Lemma length_sortByDateDesc (l : list Expense) :
  length (Expenses.sortByDateDesc l) = length l.
Proof. apply Permutation_length, sortByDateDesc_permutation. Qed.

Lemma parseInsertExpense_row (body : Expenses.ExpenseBody) (userId : Z)
    (row : Z -> Expense) :
  Expenses.parseInsertExpense body userId = Some row ->
  forall id, expense_id (row id) = id /\ expense_userId (row id) = userId /\
             Some (expense_date (row id)) = Expenses.eb_date body /\
             Some (expense_amount (row id)) = Expenses.eb_amount body.
Proof.
  unfold Expenses.parseInsertExpense.
  destruct (Expenses.eb_name body), (Expenses.eb_amount body),
    (Expenses.eb_date body), (Expenses.eb_status body) as [st | ],
    (Expenses.eb_category body), (Expenses.eb_paymentMode body); try discriminate.
  destruct (Expenses.statusOfString st); [ | discriminate ].
  destruct (_ && _); [ | discriminate ].
  intros [= <-] id. cbn. auto.
Qed.

(** X19: posting an expense awards 10 coins exactly when, with the new row
    counted, one expense of the user is dated from today's midnight to
    tomorrow's (both included): the first expense dated today is rewarded, a
    second one is not, and an expense dated another day is rewarded when
    exactly one expense dated today is already there.  The award is written
    as the session's balance plus 10; without an award the users are left as
    they were. *)
Theorem postExpense_first_of_day (categoryAnswer statusAnswer : option string)
    (zone now : Z) (user : User) (body : Expenses.ExpenseBody)
    (s s' : Storage.t) (t t' : Expenses.Table) (e : Expense) (awarded : option Z) :
  Expenses.postExpense categoryAnswer statusAnswer zone now user body (s, t)
    = ((s', t'), Expenses.ExpenseCreated e awarded) ->
  let today := DateFns.startOfDay zone now in
  let tomorrow := today + DateFns.msPerDay in
  let already :=
    length (List.filter (fun x => (expense_userId x =? user_id user) &&
                                  Savings.within today tomorrow (expense_date x))
              (Expenses.rows t)) in
  let counts := if Savings.within today tomorrow (expense_date e) then 1%nat else 0%nat in
  Expenses.rows t' = Expenses.rows t ++ [e] /\
  expense_userId e = user_id user /\
  expense_id e = Expenses.expenseIdCounter t /\
  ((already + counts = 1)%nat ->
   awarded = Some 10 /\ s' = fst (Routes.awardCoins user 10 s)) /\
  ((already + counts <> 1)%nat -> awarded = None /\ s' = s).
Proof.
  cbv zeta. unfold Expenses.postExpense.
  destruct (Expenses.parseInsertExpense _ (user_id user)) as [row | ] eqn:Hparse;
    [ | discriminate ].
  destruct (parseInsertExpense_row _ _ _ Hparse (Expenses.expenseIdCounter t))
    as (Hid & Huser & _).
  set (new := row (Expenses.expenseIdCounter t)) in *.
  assert (Hcount :
    length (Expenses.getExpensesByDateRange (user_id user)
              (DateFns.startOfDay zone now)
              (DateFns.addDays (DateFns.startOfDay zone now) 1)
              {| Expenses.rows := Expenses.rows t ++ [new];
                 Expenses.expenseIdCounter := Expenses.expenseIdCounter t + 1 |})
    = (length (List.filter
                 (fun x => Z.eqb (expense_userId x) (user_id user) &&
                           Savings.within (DateFns.startOfDay zone now)
                             (DateFns.startOfDay zone now + DateFns.msPerDay)
                             (expense_date x)) (Expenses.rows t))
       + (if Savings.within (DateFns.startOfDay zone now)
               (DateFns.startOfDay zone now + DateFns.msPerDay) (expense_date new)
          then 1 else 0))%nat).
  { unfold Expenses.getExpensesByDateRange. rewrite length_sortByDateDesc.
    cbn [Expenses.rows]. unfold DateFns.addDays. rewrite Z.mul_1_l.
    rewrite List.filter_app, length_app. f_equal.
    - f_equal. apply List.filter_ext. intros x. unfold Savings.within.
      rewrite andb_assoc. reflexivity.
    - cbn [List.filter]. rewrite Huser, Z.eqb_refl. cbn [andb]. unfold Savings.within.
      destruct (_ && _); reflexivity. }
  rewrite Hcount.
  match goal with
  | |- context [(?n =? 1)%nat] => destruct (Nat.eqb_spec n 1) as [Hone | Hnot]
  end; intros [= <- <- <- <-]; cbn [Expenses.rows];
    repeat split; try assumption; intros; try lia; auto.
Qed.

Lemma postExpense_first_of_day_witness :
  exists e,
    snd (Expenses.postExpense None None Sample.ist 1700000000000 Sample.alice
           {| Expenses.eb_name := Some "Movie Tickets"%string;
              Expenses.eb_amount := Some 50000;
              Expenses.eb_date := Some 1700000000000; Expenses.eb_status := None;
              Expenses.eb_category := None;
              Expenses.eb_paymentMode := Some "upi"%string |}
           (Sample.store, Expenses.mkTable [] 1))
    = Expenses.ExpenseCreated e (Some 10).
Proof.
  destruct (Expenses.postExpense None None Sample.ist 1700000000000 Sample.alice
           {| Expenses.eb_name := Some "Movie Tickets"%string;
              Expenses.eb_amount := Some 50000;
              Expenses.eb_date := Some 1700000000000; Expenses.eb_status := None;
              Expenses.eb_category := None;
              Expenses.eb_paymentMode := Some "upi"%string |}
           (Sample.store, Expenses.mkTable [] 1)) as [[s' t'] [ | e awarded]] eqn:Hpost.
  - apply (f_equal snd) in Hpost. vm_compute in Hpost. discriminate.
  - exists e. cbn [snd]. f_equal.
    assert (Hdate : expense_date e = 1700000000000).
    { apply (f_equal snd) in Hpost. vm_compute in Hpost. injection Hpost as <- _.
      reflexivity. }
    destruct (postExpense_first_of_day _ _ _ _ _ _ _ _ _ _ _ _ Hpost)
      as (_ & _ & _ & Hyes & _).
    apply Hyes. rewrite Hdate. vm_compute. reflexivity.
Defined.

(** ** Allocating savings to a goal *)

Lemma putGoal_owned (user : User) (gid : Z) (body : Routes.GoalPatch) (now : Z)
    (s : Storage.t) (stored : Goal) :
  Storage.goals s !! gid = Some stored ->
  goal_userId stored = user_id user ->
  exists r c, snd (Routes.putGoal user gid body now s) = Routes.GoalUpdated r c.
Proof.
  intros Hg Hown. unfold Routes.putGoal. rewrite Hg, Hown, Z.eqb_refl. cbn [negb].
  destruct (bool_decide _ && negb _).
  - destruct (Routes.updateGoal gid body _) as [s2 g]. cbn. eauto.
  - destruct (Routes.updateGoal gid body s) as [s2 g]. cbn. eauto.
Qed.

Lemma putGoal_unowned (user : User) (gid : Z) (body : Routes.GoalPatch) (now : Z)
    (s : Storage.t) :
  match Storage.goals s !! gid with
  | Some stored => goal_userId stored <> user_id user
  | None => True
  end ->
  Routes.putGoal user gid body now s = (s, Routes.GoalNotFound).
Proof.
  unfold Routes.putGoal. destruct (Storage.goals s !! gid) as [stored | ]; [ | reflexivity ].
  intros Hown. destruct (Z.eqb_spec (goal_userId stored) (user_id user)); [ contradiction | ].
  reflexivity.
Qed.

Lemma putGoal_keeps_session (user : User) (gid : Z) (body : Routes.GoalPatch)
    (now : Z) (s : Storage.t) :
  Storage.getUser (user_id user) s = Some user ->
  exists u', Storage.getUser (user_id user) (fst (Routes.putGoal user gid body now s))
             = Some u' /\ user_id u' = user_id user.
Proof.
  intros Hget. pose proof (putGoal_tables user gid body now s) as H. cbv zeta in H.
  unfold Storage.getUser in *.
  destruct (Storage.goals s !! gid) as [stored | ]; [ | rewrite H; eauto ].
  destruct (negb _); [ rewrite H; eauto | ].
  destruct H as (_ & _ & _ & _ & H).
  destruct (bool_decide _ && negb _).
  - destruct H as [-> _]. unfold Routes.awardCoins, Storage.updateUser.
    rewrite Hget. cbn. rewrite lookup_insert_eq. eauto.
  - destruct H as [-> _]. eauto.
Qed.

Lemma postSaving_rows (user : User) (body : Routes.SavingBody) (s : Storage.t) :
  Storage.savings (fst (Routes.postSaving user body s))
  = Storage.savings s ++
    [ {| saving_id := Storage.savingIdCounter s; saving_userId := user_id user;
         saving_amount := Routes.sb_amount body; saving_date := Routes.sb_date body;
         saving_source := Routes.sb_source body;
         saving_notes := Routes.sb_notes body |} ].
Proof.
  unfold Routes.postSaving. destruct (String.eqb _ _); [ | reflexivity ].
  unfold Routes.awardCoins, Storage.updateUser. cbn.
  destruct (Storage.users s !! user_id user); reflexivity.
Qed.

(** X20: allocating [amount] paise from the savings to a goal of the user's own
    writes the goal's amount as the card's amount plus [amount], appends one
    saving row of [-amount] for the user with source [goal_allocation], and so
    lowers the user's available savings by [amount] and leaves every other
    user's savings as they were; when the card shows the stored amount, the
    sum of the savings and the goal's amount is unchanged.  When the goal is
    not stored or is another user's, nothing is written at all. *)
Theorem allocation_moves_money (uid : Z) (user : User) (goal : Goal)
    (amount now : Z) (s : Storage.t) :
  usersKeyed s ->
  Storage.getUser uid s = Some user ->
  let s' := GoalCard.handleAllocationConfirm uid goal amount now s in
  match Storage.goals s !! goal_id goal with
  | Some stored =>
      if goal_userId stored =? uid then
        (exists g',
           Storage.goals s' !! goal_id goal = Some g' /\
           currentAmount g' = currentAmount goal + amount /\
           completed g' = (targetAmount goal <=? currentAmount goal + amount) /\
           targetAmount g' = targetAmount stored /\
           (currentAmount goal = currentAmount stored ->
            GoalCard.availableSavings uid s' + currentAmount g'
            = GoalCard.availableSavings uid s + currentAmount stored)) /\
        (exists row,
           Storage.savings s' = Storage.savings s ++ [row] /\
           saving_userId row = uid /\ saving_amount row = - amount /\
           saving_source row = "goal_allocation"%string) /\
        GoalCard.availableSavings uid s' = GoalCard.availableSavings uid s - amount /\
        (forall other, other <> uid ->
           GoalCard.availableSavings other s' = GoalCard.availableSavings other s)
      else s' = s
  | None => s' = s
  end.
Proof.
  intros Hkeyed Hget. cbv zeta.
  assert (Huid : user_id user = uid) by (apply (Hkeyed uid user Hget)).
  unfold GoalCard.handleAllocationConfirm.
  rewrite (withSession_some _ user) by exact Hget.
  set (body := {| Routes.gp_name := None; Routes.gp_targetAmount := None;
                  Routes.gp_currentAmount := Some (currentAmount goal + amount);
                  Routes.gp_startDate := None; Routes.gp_targetDate := None;
                  Routes.gp_completed :=
                    Some (targetAmount goal <=? currentAmount goal + amount) |}).
  destruct (Storage.goals s !! goal_id goal) as [stored | ] eqn:Hg.
  2:{ rewrite putGoal_unowned by (rewrite Hg; exact I). reflexivity. }
  destruct (Z.eqb_spec (goal_userId stored) uid) as [Hown | Hown].
  2:{ rewrite putGoal_unowned by (rewrite Hg, Huid; exact Hown). reflexivity. }
  destruct (putGoal_owned user (goal_id goal) body now s stored Hg) as (r & c & Hresp);
    [ congruence | ].
  rewrite Hresp.
  destruct (putGoal_keeps_session user (goal_id goal) body now s) as (u' & Hget' & Hid');
    [ rewrite Huid; exact Hget | ].
  rewrite Huid in Hget', Hid'.
  rewrite (withSession_some _ u') by exact Hget'. cbn [fst].
  pose proof (putGoal_tables user (goal_id goal) body now s) as Ht. cbv zeta in Ht.
  rewrite Hg, Hown, <- Huid, Z.eqb_refl in Ht. cbn [negb] in Ht.
  destruct Ht as (Hgoals & _ & Hsavings & _ & _).
  set (s1 := fst (Routes.putGoal user (goal_id goal) body now s)) in *.
  set (sbody := {| Routes.sb_amount := - amount; Routes.sb_source := "goal_allocation";
                   Routes.sb_date := now;
                   Routes.sb_notes := Some ("Allocated to goal: " +:+ goal_name goal) |}).
  destruct (postSaving_frame u' sbody s1) as (_ & Hgoals2 & _); [ discriminate | ].
  pose proof (postSaving_rows u' sbody s1) as Hrows.
  set (s2 := fst (Routes.postSaving u' sbody s1)) in *.
  rewrite Hsavings, Hid' in Hrows. cbn [Routes.sb_amount Routes.sb_source sbody] in Hrows.
  assert (Havail : forall who,
    GoalCard.availableSavings who s2
    = GoalCard.availableSavings who s + (if uid =? who then - amount else 0)).
  { intros who. unfold GoalCard.availableSavings.
    rewrite Hrows, List.filter_app, !sumSavings_total, List.map_app, total_app.
    f_equal. cbn [List.filter saving_userId].
    destruct (uid =? who); cbn; lia. }
  split; [ | split; [ | split ] ].
  - exists (Routes.spreadGoal stored body). rewrite Hgoals2, Hgoals, lookup_insert_eq.
    do 4 (split; [ reflexivity | ]).
    intros Hfresh. rewrite Havail, Z.eqb_refl.
    change (currentAmount (Routes.spreadGoal stored body))
      with (currentAmount goal + amount). lia.
  - eexists. split; [ exact Hrows | ]. cbn. repeat split.
  - rewrite Havail, Z.eqb_refl. lia.
  - intros other Hother. rewrite Havail.
    destruct (Z.eqb_spec uid other); [ congruence | lia ].
Qed.

Lemma sample_storeWithGoal_keyed : usersKeyed Sample.storeWithGoal.
Proof.
  intros uid u H. cbn in H. apply lookup_singleton_Some in H as [<- <-].
  cbn. split; [ reflexivity | lia ].
Qed.

Lemma allocation_moves_money_witness :
  GoalCard.availableSavings 1
    (GoalCard.handleAllocationConfirm 1 Sample.laptop 20000 1700000000000
       Sample.storeWithGoal) = 30000.
Proof.
  pose proof (allocation_moves_money 1 Sample.alice Sample.laptop 20000 1700000000000
                Sample.storeWithGoal sample_storeWithGoal_keyed eq_refl) as H.
  cbv zeta in H.
  change (Storage.goals Sample.storeWithGoal !! goal_id Sample.laptop)
    with (({[ 1 := Sample.laptop ]} : gmap Z Goal) !! 1) in H.
  rewrite lookup_singleton_eq in H. cbn [goal_userId Sample.laptop Z.eqb Pos.eqb] in H.
  destruct H as (_ & _ & H & _). rewrite H. reflexivity.
Defined.

(** ** Deleting an expense *)

Lemma keyed_rows_by_id (l : list Expense) (a b : Expense) :
  NoDup (List.map expense_id l) -> In a l -> In b l ->
  expense_id a = expense_id b -> a = b.
Proof.
  induction l as [ | h l IH]; cbn; [ contradiction | ].
  intros Hnd [-> | Ha] [-> | Hb] Hid; apply NoDup_cons in Hnd as [Hh Hnd].
  - reflexivity.
  - exfalso. apply Hh. rewrite Hid. apply list_elem_of_In, List.in_map. exact Hb.
  - exfalso. apply Hh. rewrite <- Hid. apply list_elem_of_In, List.in_map. exact Ha.
  - apply IH; assumption.
Qed.

Lemma getExpenseById_Some (id : Z) (t : Expenses.Table) (e : Expense) :
  Expenses.getExpenseById id t = Some e -> In e (Expenses.rows t) /\ expense_id e = id.
Proof.
  unfold Expenses.getExpenseById. intros H. apply List.find_some in H as [Hin Heq].
  split; [ exact Hin | lia ].
Qed.

Lemma deleteExpense_rows (id : Z) (t : Expenses.Table) (e : Expense) :
  NoDup (List.map expense_id (Expenses.rows t)) ->
  Expenses.getExpenseById id t = Some e ->
  Permutation (Expenses.rows t) (e :: Expenses.rows (Expenses.deleteExpense id t)).
Proof.
  unfold Expenses.getExpenseById, Expenses.deleteExpense. cbn [Expenses.rows].
  induction (Expenses.rows t) as [ | h l IH]; cbn; [ discriminate | ].
  intros Hnd Hfind. apply NoDup_cons in Hnd as [Hh Hnd].
  destruct (Z.eqb_spec (expense_id h) id) as [Hid | Hid]; cbn.
  - injection Hfind as <-. apply Permutation_cons; [ reflexivity | ].
    rewrite List.forallb_filter_id; [ reflexivity | ].
    apply List.forallb_forall. intros x Hx.
    destruct (Z.eqb_spec (expense_id x) id) as [Hx' | ]; [ | reflexivity ].
    exfalso. apply Hh. rewrite Hid, <- Hx'. apply list_elem_of_In, List.in_map. exact Hx.
  - rewrite (IH Hnd Hfind) at 1. apply perm_swap.
Qed.

(** X21: deleting an expense removes exactly that row, and only for its owner:
    on success the row was the session user's, it can no longer be read, and
    the other rows are the table; on the 404 answer (no such row, or another
    user's row) the table is unchanged.  No other user's list of expenses
    ever changes. *)
Theorem deleteExpenseRoute_own_row_only (user : User) (expenseId : Z)
    (t : Expenses.Table) :
  expensesKeyed t ->
  let t' := fst (Expenses.deleteExpenseRoute user expenseId t) in
  let ok := snd (Expenses.deleteExpenseRoute user expenseId t) in
  (ok = true ->
   exists e, Expenses.getExpenseById expenseId t = Some e /\
             expense_userId e = user_id user /\
             Permutation (Expenses.rows t) (e :: Expenses.rows t') /\
             Expenses.getExpenseById expenseId t' = None) /\
  (ok = false -> t' = t) /\
  (forall other, other <> user_id user ->
     Expenses.getExpenses other t' = Expenses.getExpenses other t) /\
  expensesKeyed t'.
Proof.
  intros [Hnd Hbelow]. cbv zeta. unfold Expenses.deleteExpenseRoute.
  destruct (Expenses.getExpenseById expenseId t) as [e | ] eqn:Hfind;
    [ | cbn; repeat split; try discriminate; auto ].
  destruct (Z.eqb_spec (expense_userId e) (user_id user)) as [Hown | Hown];
    [ | cbn; repeat split; try discriminate; auto ].
  destruct (getExpenseById_Some _ _ _ Hfind) as [Hin Hid].
  pose proof (deleteExpense_rows expenseId t e Hnd Hfind) as Hperm.
  cbn [fst snd]. split; [ | split; [ discriminate | split ] ].
  - intros _. exists e. repeat split; try assumption.
    unfold Expenses.getExpenseById, Expenses.deleteExpense. cbn [Expenses.rows].
    destruct (List.find _ _) as [x | ] eqn:Hx; [ | reflexivity ].
    apply List.find_some in Hx as [Hx1 Hx2]. apply List.filter_In in Hx1 as [_ Hx1].
    rewrite Hx2 in Hx1. discriminate.
  - intros other Hother. unfold Expenses.getExpenses, Expenses.deleteExpense.
    cbn [Expenses.rows]. f_equal. rewrite filter_filter_andb.
    apply List.filter_ext_in. intros a Ha.
    destruct (Z.eqb_spec (expense_userId a) other) as [Hu | ]; [ | reflexivity ].
    destruct (Z.eqb_spec (expense_id a) expenseId) as [Hi | ]; [ | reflexivity ].
    exfalso. apply Hother.
    rewrite <- Hu, <- Hown. f_equal.
    apply (keyed_rows_by_id (Expenses.rows t)); try assumption. congruence.
  - split.
    + apply (Permutation_map expense_id) in Hperm. rewrite Hperm in Hnd.
      cbn in Hnd. apply NoDup_cons in Hnd as [_ Hnd]. exact Hnd.
    + unfold Expenses.deleteExpense. cbn [Expenses.rows Expenses.expenseIdCounter].
      apply List.Forall_forall. intros x Hx. apply List.filter_In in Hx as [Hx _].
      revert x Hx. apply List.Forall_forall. exact Hbelow.
Qed.

Lemma deleteExpenseRoute_own_row_only_witness :
  Expenses.getExpenses 2
    (fst (Expenses.deleteExpenseRoute Sample.alice 8
            (Expenses.mkTable [Sample.movie; Sample.gadget] 11)))
  = Expenses.getExpenses 2 (Expenses.mkTable [Sample.movie; Sample.gadget] 11).
Proof.
  destruct (deleteExpenseRoute_own_row_only Sample.alice 8
              (Expenses.mkTable [Sample.movie; Sample.gadget] 11))
    as (_ & _ & Hothers & _).
  - split.
    + cbn. apply NoDup_cons. split; [ | apply NoDup_singleton ].
      intros H. apply list_elem_of_singleton in H. discriminate.
    + cbn. repeat constructor.
  - apply Hothers. discriminate.
Defined.

Lemma find_snoc {A} (p : A -> bool) (l : list A) (x : A) :
  List.find p l = None -> p x = true -> List.find p (l ++ [x]) = Some x.
Proof.
  intros Hnone Hx. induction l as [ | h l IH]; cbn in *.
  - rewrite Hx. reflexivity.
  - destruct (p h); [ discriminate | exact (IH Hnone) ].
Qed.

(** X22: posting an expense keeps the expenses under distinct ids below the
    serial counter, whatever the answer; the new row takes the counter's
    value and the counter moves by one. *)
Theorem postExpense_keeps_ids (categoryAnswer statusAnswer : option string)
    (zone now : Z) (user : User) (body : Expenses.ExpenseBody)
    (s : Storage.t) (t : Expenses.Table) :
  expensesKeyed t ->
  let t' := snd (fst (Expenses.postExpense categoryAnswer statusAnswer zone now
                        user body (s, t))) in
  expensesKeyed t' /\
  match snd (Expenses.postExpense categoryAnswer statusAnswer zone now user body (s, t)) with
  | Expenses.ExpenseRejected =>
      fst (Expenses.postExpense categoryAnswer statusAnswer zone now user body (s, t))
      = (s, t)
  | Expenses.ExpenseCreated e _ =>
      Expenses.getExpenseById (expense_id e) t' = Some e /\
      Expenses.getExpenseById (expense_id e) t = None /\
      Expenses.expenseIdCounter t' = Expenses.expenseIdCounter t + 1
  end.
Proof.
  intros [Hnd Hbelow]. cbv zeta. unfold Expenses.postExpense.
  destruct (Expenses.parseInsertExpense _ (user_id user)) as [row | ] eqn:Hparse;
    [ | cbn; split; [ split; assumption | reflexivity ] ].
  destruct (parseInsertExpense_row _ _ _ Hparse (Expenses.expenseIdCounter t))
    as (Hid & _).
  set (new := row (Expenses.expenseIdCounter t)) in *.
  assert (Hfresh : ~ In (expense_id new) (List.map expense_id (Expenses.rows t))).
  { intros Hin. apply List.in_map_iff in Hin as (x & Hx & Hin).
    rewrite List.Forall_forall in Hbelow. specialize (Hbelow x Hin). lia. }
  assert (Hnone : Expenses.getExpenseById (expense_id new) t = None).
  { unfold Expenses.getExpenseById.
    destruct (List.find _ _) as [x | ] eqn:Hx; [ | reflexivity ].
    apply List.find_some in Hx as [Hx1 Hx2]. exfalso. apply Hfresh.
    apply List.in_map_iff. exists x. split; [ lia | exact Hx1 ]. }
  assert (Hkeyed : expensesKeyed
            {| Expenses.rows := Expenses.rows t ++ [new];
               Expenses.expenseIdCounter := Expenses.expenseIdCounter t + 1 |}).
  { split; cbn [Expenses.rows Expenses.expenseIdCounter].
    - rewrite List.map_app. cbn [List.map].
      apply NoDup_app. split; [ exact Hnd | split; [ | apply NoDup_singleton ] ].
      intros x Hx Hx'. apply list_elem_of_singleton in Hx'. subst x.
      apply Hfresh. apply list_elem_of_In. exact Hx.
    - apply List.Forall_app. split.
      + revert Hbelow. apply List.Forall_impl. intros; lia.
      + repeat constructor. lia. }
  assert (Hsome : Expenses.getExpenseById (expense_id new)
            {| Expenses.rows := Expenses.rows t ++ [new];
               Expenses.expenseIdCounter := Expenses.expenseIdCounter t + 1 |}
          = Some new).
  { unfold Expenses.getExpenseById in *. cbn [Expenses.rows].
    apply find_snoc; [ exact Hnone | apply Z.eqb_refl ]. }
  destruct (_ =? 1)%nat; cbn [fst snd Expenses.expenseIdCounter]; auto.
Qed.

Lemma postExpense_keeps_ids_witness :
  expensesKeyed
    (snd (fst (Expenses.postExpense None None Sample.ist 1700000000000 Sample.alice
                 {| Expenses.eb_name := Some "Movie Tickets"%string;
                    Expenses.eb_amount := Some 50000;
                    Expenses.eb_date := Some 1700000000000;
                    Expenses.eb_status := None; Expenses.eb_category := None;
                    Expenses.eb_paymentMode := Some "upi"%string |}
                 (Sample.store, Expenses.mkTable [Sample.movie; Sample.gadget] 11)))).
Proof.
  apply postExpense_keeps_ids.
  split.
  - cbn. apply NoDup_cons. split; [ | apply NoDup_singleton ].
    intros H. apply list_elem_of_singleton in H. discriminate.
  - cbn. repeat constructor.
Defined.
